(** * synorchestrator: the submission queue, the dispatcher and the monitor

    A shallow embedding of [synorchestrator/orchestrator.py] (both copies
    kept in the repository) and the properties of its queue document.

    - Python dictionaries loaded from the queue file are finite maps
      ([gmap string _]); a missing key raises [KeyError]. A loop over a
      dictionary visits its entries in the order of [map_to_list]; nothing
      proved below depends on that order.
    - The queue file, the wall clock, the calls made to the remote WES
      endpoints and the frames handed to the display are the components
      of a [World]; every function of the module is a computation in a
      state-and-exception monad over it.
    - The collaborators that are not part of the module (the WES client,
      the two configuration files and the time helpers of
      [synorchestrator.util]) are the fields of an [Env]. *)

From Stdlib Require Import ZArith Lia String Ascii List.
From Stdlib Require OrderedTypeEx.
From stdpp Require Import gmap strings list fin_maps.
From Stdlib Require Import Sorting.Sorted.

Local Open Scope string_scope.
Local Open Scope Z_scope.

(** ** Wall clock readings and [strftime] *)

Module Clock.

(** A naive [datetime.datetime] value. *)
Record datetime := mkDatetime {
  year : Z; month : Z; day : Z;
  hour : Z; minute : Z; second : Z; microsecond : Z }.

Definition valid (t : datetime) : Prop :=
  1 <= year t <= 9999 /\ 1 <= month t <= 12 /\ 1 <= day t <= 31 /\
  0 <= hour t <= 23 /\ 0 <= minute t <= 59 /\ 0 <= second t <= 59 /\
  0 <= microsecond t <= 999999.

(** Comparison of naive datetimes: chronological, field by field. *)
Definition lex (c : comparison) (rest : comparison) : comparison :=
  match c with Eq => rest | _ => c end.

Definition compare (a b : datetime) : comparison :=
  lex (year a ?= year b)
   (lex (month a ?= month b)
    (lex (day a ?= day b)
     (lex (hour a ?= hour b)
      (lex (minute a ?= minute b)
       (lex (second a ?= second b)
        (microsecond a ?= microsecond b)))))).

Definition lt (a b : datetime) : Prop := compare a b = Lt.

(** The decimal digit [d] as a character. *)
Definition digit (d : Z) : ascii := ascii_of_N (48 + Z.to_N d).

(** [n] written in decimal on exactly [k] digits, zero padded. *)
Fixpoint zpad (k : nat) (n : Z) : string :=
  match k with
  | O => EmptyString
  | S k' => String (digit (n / 10 ^ Z.of_nat k')) (zpad k' (n mod 10 ^ Z.of_nat k'))
  end.

(** The directives of a [strftime] format used by the module. *)
Inductive directive := pct_d | pct_m | pct_y | pct_H | pct_M | pct_S | pct_f.

Definition render (t : datetime) (d : directive) : string :=
  match d with
  | pct_d => zpad 2 (day t)
  | pct_m => zpad 2 (month t)
  | pct_y => zpad 2 (year t mod 100)
  | pct_H => zpad 2 (hour t)
  | pct_M => zpad 2 (minute t)
  | pct_S => zpad 2 (second t)
  | pct_f => zpad 6 (microsecond t)
  end.

Fixpoint strftime (fmt : list directive) (t : datetime) : string :=
  match fmt with
  | nil => EmptyString
  | d :: fmt' => render t d ++ strftime fmt' t
  end.

End Clock.

(** The format of [create_submission]: ['%d%m%d%H%M%S%f']. *)
Definition submission_id_format : list Clock.directive :=
  [Clock.pct_d; Clock.pct_m; Clock.pct_d; Clock.pct_H; Clock.pct_M;
   Clock.pct_S; Clock.pct_f].

Definition submission_id_of (t : Clock.datetime) : string :=
  Clock.strftime submission_id_format t.

(** Python's [<] on [str]: lexicographic on code points. *)
Definition str_lt (a b : string) : bool := String.ltb a b.

(** Python's [sorted] on a list of [str]. *)
Fixpoint insert_sorted (x : string) (l : list string) : list string :=
  match l with
  | [] => [x]
  | y :: l' => if String.leb x y then x :: l else y :: insert_sorted x l'
  end.

Definition sorted (l : list string) : list string := foldr insert_sorted [] l.

(** ** The queue document *)

(** [submission['data']]. *)
Record SubmissionData := mkData {
  wf : string; jsonyaml : string; attachments : list string }.

(** [submission['run']]: the run data of the endpoint with the keys the
    module adds; an optional key is an [option]. *)
Record Run := mkRun {
  run_id : string; start_time : string;
  state : option string; elapsed_time : option string }.

(** One submission of the queue; [run = None] is ['run' not in bundle]. *)
Record Bundle := mkBundle {
  status : string; data : SubmissionData; wf_id : string;
  type : string; sample : string; run : option Run }.

(** The document under [QUEUE_PATH]: endpoint id, then submission id. *)
Abbreviation Queue := (gmap string (gmap string Bundle)).

(** [[id for id, bundle in bundles.items() if bundle['status'] == status_]]. *)
Definition ids_with_status (status_ : string) (bundles : gmap string Bundle) : list string :=
  fst <$> filter (fun p => status (snd p) = status_) (map_to_list bundles).

(** One row of the status table built by [monitor_service]. *)
Module Row.
Record t := mk {
  wf_id : string; run_id : string; sample_name : string;
  run_status : string; start_time : string; elapsed_time : string }.
End Row.

Abbreviation StatusDict := (gmap string (gmap string Row.t)).

(** One row of the table of the earlier [monitor] (the copy of the module
    at the top of the repository); its elapsed time is a string or the
    integer [0]. *)
Module LegacyRow.
Record t := mk {
  wf_id : string; run_status : string; wes_id : string;
  start_time : string; elapsed_time : string + Z }.
End LegacyRow.

(** What [display] is given. *)
Inductive Frame :=
  | Table (statuses : list StatusDict)
  | LegacyTable (statuses : list (gmap string (gmap string LegacyRow.t))).

(** [d[k][k2]], when both keys are there. *)
Definition lookup2 {V} (d : gmap string (gmap string V)) (k k2 : string) : option V :=
  d !! k ≫= fun inner => inner !! k2.

Abbreviation bundle_at := (@lookup2 Bundle).
Abbreviation row_at := (@lookup2 Row.t).

(** ** Collaborators *)

(** An entry of [wf_config()]. *)
Record Workflow := mkWorkflow {
  workflow_url : string; workflow_type : string;
  workflow_attachments : list string }.

Inductive exn :=
  | KeyError (key : string)
  | ConnectionError
  | RemoteError (msg : string).

(** What is outside the module: the two configuration files, the WES
    client built from an endpoint's configuration, the wall clock and the
    time helpers. [run_workflow] answers with the id of the run it has
    started (the ['run_id'] of the run data) or fails, and
    [get_workflow_run_status] with the ['state'] of the run or fails.
    [now k] is the [k]-th reading of [datetime.now()];
    [elapsed_since t s] is [convert_timedelta(t - ctime2datetime(s))]. *)
Record Env := mkEnv {
  wes_config : gmap string string;
  wf_config : gmap string Workflow;
  run_workflow : string -> string -> string -> list string -> exn + string;
  get_workflow_run_status : string -> string -> exn + string;
  now : nat -> Clock.datetime;
  ctime : Clock.datetime -> string;
  elapsed_since : Clock.datetime -> string -> string }.

(** A request sent to an endpoint. *)
Inductive Call :=
  | StartRun (client wf_url params : string) (attach : list string)
  | GetStatus (client rid : string).

(** ** State and exceptions *)

Record World := mkWorld {
  queue_file : Queue;           (* the contents of QUEUE_PATH *)
  ticks : nat;                  (* clock readings taken so far *)
  wes_calls : list Call;        (* requests sent, oldest first *)
  displayed : list Frame        (* frames shown, oldest first *) }.

Inductive Res (A : Type) :=
  | Ok (a : A)
  | Raise (e : exn).
Arguments Ok {A} a.
Arguments Raise {A} e.

Definition M (A : Type) : Type := World -> Res A * World.

Definition ret {A} (a : A) : M A := fun w => (Ok a, w).

Definition raise {A} (e : exn) : M A := fun w => (Raise e, w).

Definition bind {A B} (c : M A) (k : A -> M B) : M B :=
  fun w => match c w with
           | (Ok a, w') => k a w'
           | (Raise e, w') => (Raise e, w')
           end.

Notation "x <- c ;; k" := (bind c (fun x => k))
  (at level 100, c at next level, right associativity).
Notation "c ;;; k" := (bind c (fun _ => k))
  (at level 100, right associativity).

(** [try: body except ConnectionError: handler]. *)
Definition try_except_ConnectionError {A} (body handler : M A) : M A :=
  fun w => match body w with
           | (Raise ConnectionError, w') => handler w'
           | r => r
           end.

(** [d[k]]. *)
Definition getitem {V} (k : string) (d : gmap string V) : M V :=
  match d !! k with
  | Some v => ret v
  | None => raise (KeyError k)
  end.

Definition get_json : M Queue := fun w => (Ok (queue_file w), w).

Definition save_json (q : Queue) : M unit :=
  fun w => (Ok tt, mkWorld q (ticks w) (wes_calls w) (displayed w)).

Definition datetime_now (env : Env) : M Clock.datetime :=
  fun w => (Ok (now env (ticks w)),
            mkWorld (queue_file w) (S (ticks w)) (wes_calls w) (displayed w)).

Definition send (c : Call) : M unit :=
  fun w => (Ok tt, mkWorld (queue_file w) (ticks w) (wes_calls w ++ [c])%list (displayed w)).

Definition display (frame : Frame) : M unit :=
  fun w => (Ok tt, mkWorld (queue_file w) (ticks w) (wes_calls w) (displayed w ++ [frame])%list).

Definition of_remote {A} (r : exn + A) : M A :=
  match r with
  | inl e => raise e
  | inr a => ret a
  end.

(** [client.run_workflow(...)] and [client.get_workflow_run_status(...)['state']]. *)
Definition client_run_workflow (env : Env) (client wf_url params : string)
    (attach : list string) : M string :=
  send (StartRun client wf_url params attach) ;;;
  of_remote (run_workflow env client wf_url params attach).

Definition client_get_workflow_run_status (env : Env) (client rid : string) : M string :=
  send (GetStatus client rid) ;;;
  of_remote (get_workflow_run_status env client rid).

(** How far a loop got: still going round after the iterations it was
    given, left by a [return], or left by an exception. *)
Inductive Outcome (A : Type) :=
  | Running
  | Returned (a : A)
  | Raised (e : exn).
Arguments Running {A}.
Arguments Returned {A} a.
Arguments Raised {A} e.

(** A loop run for at most [fuel] iterations; the body answers [Some a]
    to leave the loop with [a] and [None] to go round again. *)
Fixpoint loop {A} (fuel : nat) (body : M (option A)) (w : World) : Outcome A * World :=
  match fuel with
  | O => (Running, w)
  | S fuel' =>
      match body w with
      | (Ok (Some a), w') => (Returned a, w')
      | (Ok None, w') => loop fuel' body w'
      | (Raise e, w') => (Raised e, w')
      end
  end.

(** ** The module, function by function *)

Section Orchestrator.

Variable env : Env.

(** [d.setdefault(k, {})[k2] = v] on a dictionary of dictionaries. *)
Definition setdefault_set {V} (k k2 : string) (v : V)
    (d : gmap string (gmap string V)) : gmap string (gmap string V) :=
  <[k := <[k2 := v]> (default ∅ (d !! k))]> d.

Definition create_submission (wes_id : string) (submission_data : SubmissionData)
    (wf_type wf_name sample_ : string) : M string :=
  submissions <- get_json ;;
  t <- datetime_now env ;;
  let submission_id := submission_id_of t in
  save_json (setdefault_set wes_id submission_id
               (mkBundle "RECEIVED" submission_data wf_name wf_type sample_ None)
               submissions) ;;;
  ret submission_id.

Definition get_submissions (wes_id status_ : string) : M (list string) :=
  submissions <- get_json ;;
  bundles <- getitem wes_id submissions ;;
  ret (ids_with_status status_ bundles).

Definition get_submission_bundle (wes_id submission_id : string) : M Bundle :=
  submissions <- get_json ;;
  bundles <- getitem wes_id submissions ;;
  getitem submission_id bundles.

(** The two uses of [update_submission]: [param] is ['run'] with a run
    record or ['status'] with a string. *)
Inductive Field :=
  | run_param (v : Run)
  | status_param (v : string).

Definition set_field (f : Field) (b : Bundle) : Bundle :=
  match f with
  | run_param v =>
      mkBundle (status b) (data b) (wf_id b) (type b) (sample b) (Some v)
  | status_param v =>
      mkBundle v (data b) (wf_id b) (type b) (sample b) (run b)
  end.

Definition update_submission (wes_id submission_id : string) (f : Field) : M unit :=
  submissions <- get_json ;;
  bundles <- getitem wes_id submissions ;;
  b <- getitem submission_id bundles ;;
  save_json (<[wes_id := <[submission_id := set_field f b]> bundles]> submissions).

(** The keys of a run record that hold a string. *)
Inductive RunKey := state_key | elapsed_time_key.

Definition set_run_key (k : RunKey) (v : string) (r : Run) : Run :=
  match k with
  | state_key => mkRun (run_id r) (start_time r) (Some v) (elapsed_time r)
  | elapsed_time_key => mkRun (run_id r) (start_time r) (state r) (Some v)
  end.

Definition update_submission_run (wes_id submission_id : string)
    (param : RunKey) (v : string) : M unit :=
  submissions <- get_json ;;
  bundles <- getitem wes_id submissions ;;
  b <- getitem submission_id bundles ;;
  match run b with
  | None => raise (KeyError "run")
  | Some r =>
      save_json (<[wes_id := <[submission_id :=
                   mkBundle (status b) (data b) (wf_id b) (type b) (sample b)
                            (Some (set_run_key param v r))]> bundles]> submissions)
  end.

(** [not attach]: [None] and the empty list are both false. *)
Definition falsy (attach : option (list string)) : bool :=
  match attach with
  | None => true
  | Some [] => true
  | Some (_ :: _) => false
  end.

Definition queue (service wf_name wf_jsonyaml sample_ : string)
    (attach : option (list string)) : M string :=
  wf_ <- getitem wf_name (wf_config env) ;;
  let attach' := if falsy attach then workflow_attachments wf_
                 else default [] attach in
  create_submission service
    (mkData (workflow_url wf_) wf_jsonyaml attach')
    (workflow_type wf_) wf_name sample_.

Definition run_submission (wes_id submission_id : string) : M Run :=
  submission <- get_submission_bundle wes_id submission_id ;;
  client <- getitem wes_id (wes_config env) ;;
  rid <- client_run_workflow env client (wf (data submission))
           (jsonyaml (data submission)) (attachments (data submission)) ;;
  t <- datetime_now env ;;
  let run_data := mkRun rid (ctime env t) None None in
  update_submission wes_id submission_id (run_param run_data) ;;;
  update_submission wes_id submission_id (status_param "SUBMITTED") ;;;
  ret run_data.

Definition no_queue_run (service wf_name wf_jsonyaml sample_ : string)
    (attach : option (list string)) : M unit :=
  submission_id <- queue service wf_name wf_jsonyaml sample_ attach ;;
  run_submission service submission_id ;;;
  ret tt.

(** What [run_next_queued] returns: [False], the run data, or [None] when
    the [for] loop ends without an iteration. *)
Inductive NextQueued :=
  | ReturnFalse
  | ReturnRun (run_data : Run)
  | ReturnNone.

Definition run_next_queued (wf_service : string) : M NextQueued :=
  queued_submissions <- get_submissions wf_service "RECEIVED" ;;
  match queued_submissions with
  | [] => ret ReturnFalse
  | _ =>
      match sorted queued_submissions with
      | submssn_id :: _ =>
          run_data <- run_submission wf_service submssn_id ;;
          ret (ReturnRun run_data)
      | [] => ret ReturnNone
      end
  end.

(** The states for which [monitor_service] recomputes the elapsed time. *)
Definition active_states : list string := ["QUEUED"; "INITIALIZING"; "RUNNING"].

Definition is_active (st : string) : bool := bool_decide (st ∈ active_states).

Definition queued_row (b : Bundle) : Row.t :=
  Row.mk (wf_id b) "-" (sample b) "QUEUED" "-" "-".

Definition connection_error_row (b : Bundle) : Row.t :=
  Row.mk "ConnectionError" "-" (sample b) "-" "-" "-".

(** The body of the [try] for one submission that has a run record. The
    state read from the endpoint is stored in the dictionary loaded at the
    start of [monitor_service], which is never saved: only the elapsed
    time reaches the file, through [update_submission_run]. *)
Definition poll_run (wf_service id : string) (b : Bundle) (r : Run) : M Row.t :=
  client <- getitem wf_service (wes_config env) ;;
  st <- client_get_workflow_run_status env client (run_id r) ;;
  etime <- (if is_active st then
              t <- datetime_now env ;;
              ret (elapsed_since env t (start_time r))
            else
              match elapsed_time r with
              | None => ret "0h:0m:0s"
              | Some e => ret e
              end) ;;
  update_submission_run wf_service id elapsed_time_key etime ;;;
  ret (Row.mk (wf_id b) (run_id r) (sample b) st (start_time r) etime).

(** One iteration of the loop of [monitor_service]. *)
Definition monitor_step (wf_service : string) (status_dict : StatusDict)
    (entry : string * Bundle) : M StatusDict :=
  let '(id, b) := entry in
  row <- match run b with
         | None => ret (queued_row b)
         | Some r =>
             try_except_ConnectionError
               (poll_run wf_service id b r)
               (ret (connection_error_row b))
         end ;;
  ret (setdefault_set wf_service id row status_dict).

(** A [for] loop that threads an accumulator. *)
Fixpoint for_each {A B} (body : B -> A -> M B) (l : list A) (acc : B) : M B :=
  match l with
  | [] => ret acc
  | x :: l' => acc' <- body acc x ;; for_each body l' acc'
  end.

Definition monitor_service (wf_service : string) : M StatusDict :=
  submissions <- get_json ;;
  bundles <- getitem wf_service submissions ;;
  for_each (monitor_step wf_service) (map_to_list bundles) ∅.

(** The body of the [while True] of [monitor]: one table is built and
    displayed, then the loop goes round ([None]): the body has no
    [break] and no [return]. *)
Definition monitor_pass : M (option unit) :=
  submissions <- get_json ;;
  statuses <- for_each (fun acc wf_service =>
                          s <- monitor_service wf_service ;; ret (acc ++ [s])%list)
                       (fst <$> map_to_list submissions) [] ;;
  display (Table statuses) ;;;
  ret None.

Definition monitor (fuel : nat) : World -> Outcome unit * World :=
  loop fuel monitor_pass.

End Orchestrator.

(** ** Worlds reached by a dispatch *)

(** The world after a dispatch that went through. *)
Definition dispatched (wes_id id client : string) (bundles : gmap string Bundle)
    (b : Bundle) (r : Run) (w : World) : World :=
  mkWorld (<[wes_id := <[id := mkBundle "SUBMITTED" (data b) (wf_id b) (type b)
                                         (sample b) (Some r)]> bundles]> (queue_file w))
          (S (ticks w))
          (wes_calls w ++ [StartRun client (wf (data b)) (jsonyaml (data b))
                             (attachments (data b))])
          (displayed w).

(** The world after the request [c] was sent to an endpoint. *)
Definition requested (c : Call) (w : World) : World :=
  mkWorld (queue_file w) (ticks w) (wes_calls w ++ [c]) (displayed w).

(** ** Vocabulary of the monitor's properties *)

(** The record [b] with the elapsed time of its run [r] set to [etime]. *)
Definition with_elapsed (b : Bundle) (r : Run) (etime : string) : Bundle :=
  mkBundle (status b) (data b) (wf_id b) (type b) (sample b)
           (Some (set_run_key elapsed_time_key etime r)).

(** The status request for [rid] is answered or fails with
    [ConnectionError]; any other failure leaves [monitor_service]. *)
Definition answers_or_down (env : Env) (client rid : string) : Prop :=
  match get_workflow_run_status env client rid with
  | inr _ => True
  | inl ConnectionError => True
  | inl _ => False
  end.

(** What one pass of [monitor_service] does to a submission [b] whose
    status request is answered or fails with [ConnectionError]: [b'] is
    the record in the file afterwards and [row] the row of the table. *)
Definition polled (env : Env) (client : string) (b b' : Bundle) (row : Row.t) : Prop :=
  match run b with
  | None => b' = b /\ row = queued_row b
  | Some r =>
      match get_workflow_run_status env client (run_id r) with
      | inl _ => b' = b /\ row = connection_error_row b
      | inr st =>
          exists etime,
            (if is_active st
             then exists k, etime = elapsed_since env (now env k) (start_time r)
             else etime = default "0h:0m:0s" (elapsed_time r)) /\
            b' = with_elapsed b r etime /\
            row = Row.mk (wf_id b) (run_id r) (sample b) st (start_time r) etime
      end
  end.

(** The run of a record is absent exactly when its status is [RECEIVED]. *)
Definition consistent (b : Bundle) : Prop :=
  run b = None <-> status b = "RECEIVED".

(** ... for every submission of the queue. *)
Definition run_iff_not_received (q : Queue) : Prop :=
  forall wes_id id b, bundle_at q wes_id id = Some b -> consistent b.

(** A computation keeps a property of the queue file, however it ends. *)
Definition preserves {A} (P : Queue -> Prop) (c : M A) : Prop :=
  forall w, P (queue_file w) -> P (queue_file (snd (c w))).

(** Every row of a table of the earlier [monitor] says ["RUNNING"]. *)
Definition all_running (sd : gmap string (gmap string LegacyRow.t)) : Prop :=
  forall k id row, lookup2 sd k id = Some row -> LegacyRow.run_status row = "RUNNING".

(** The operations of the module that write the queue file. *)
Inductive Operation :=
  | CreateSubmission (wes_id : string) (d : SubmissionData) (wf_type wf_name smp : string)
  | QueueOp (service wf_name wf_jsonyaml smp : string) (attach : option (list string))
  | NoQueueRun (service wf_name wf_jsonyaml smp : string) (attach : option (list string))
  | RunSubmission (wes_id id : string)
  | RunNextQueued (wf_service : string)
  | MonitorService (wf_service : string)
  | MonitorPass.

(** The world an operation leaves behind, whether it returns or raises. *)
Definition perform (env : Env) (op : Operation) (w : World) : World :=
  match op with
  | CreateSubmission wes_id d ty name smp =>
      snd (create_submission env wes_id d ty name smp w)
  | QueueOp service name j smp attach => snd (queue env service name j smp attach w)
  | NoQueueRun service name j smp attach =>
      snd (no_queue_run env service name j smp attach w)
  | RunSubmission wes_id id => snd (run_submission env wes_id id w)
  | RunNextQueued wf_service => snd (run_next_queued env wf_service w)
  | MonitorService wf_service => snd (monitor_service env wf_service w)
  | MonitorPass => snd (monitor_pass env w)
  end.

(** Whether an operation returned. *)
Definition returns {A} (r : Res A) : bool :=
  match r with Ok _ => true | Raise _ => false end.

(** ** The earlier copy of the module

    [monitor(submissions)] of the copy at the top of the repository: it
    polls nothing (the call to the endpoint is commented out and the state
    is the constant ['RUNNING']), saves nothing, and calls itself on the
    reloaded queue while a row is active. The calls are counted by the
    fuel; the interpreter's own limit on the depth of recursion is not
    modelled. *)

Module Legacy.
Section Legacy.

Variable env : Env.

Definition row_step (current : Clock.datetime) (wf_service : string)
    (status_dict : gmap string (gmap string LegacyRow.t))
    (entry : string * Bundle) : M (gmap string (gmap string LegacyRow.t)) :=
  let '(id, b) := entry in
  match run b with
  | None => ret status_dict
  | Some r =>
      client <- getitem wf_service (wes_config env) ;;
      let updated_status := "RUNNING" in
      let etime :=
        if is_active updated_status then inl (elapsed_since env current (start_time r))
        else match elapsed_time r with
             | None => inr 0
             | Some e => inl e
             end in
      ret (setdefault_set wf_service id
             (LegacyRow.mk (wf_id b) updated_status wf_service (start_time r) etime)
             status_dict)
  end.

Definition service_step (current : Clock.datetime) (submissions : Queue)
    (statuses : list (gmap string (gmap string LegacyRow.t)))
    (wf_service : string) : M (list (gmap string (gmap string LegacyRow.t))) :=
  bundles <- getitem wf_service submissions ;;
  status_dict <- for_each (row_step current wf_service) (map_to_list bundles) ∅ ;;
  ret (statuses ++ [status_dict])%list.

(** The column [run_status] of the data frame built from [statuses]. *)
Definition run_status_column
    (statuses : list (gmap string (gmap string LegacyRow.t))) : list string :=
  flat_map (fun status_dict =>
              flat_map (fun p => map (fun q => LegacyRow.run_status (snd q))
                                     (map_to_list (snd p)))
                       (map_to_list status_dict))
           statuses.

(** One call of [monitor] up to its last [if]: [true] when the function
    calls itself again. A frame without rows has no column [run_status],
    and selecting it raises [KeyError]. *)
Definition monitor_table (submissions : Queue) : M bool :=
  current <- datetime_now env ;;
  statuses <- for_each (service_step current submissions)
                       (fst <$> map_to_list submissions) [] ;;
  display (LegacyTable statuses) ;;;
  match run_status_column statuses with
  | [] => raise (KeyError "run_status")
  | col => ret (existsb is_active col)
  end.

Fixpoint monitor (fuel : nat) (submissions : Queue) (w : World) : Outcome unit * World :=
  match fuel with
  | O => (Running, w)
  | S fuel' =>
      match monitor_table submissions w with
      | (Raise e, w') => (Raised e, w')
      | (Ok false, w') => (Returned tt, w')
      | (Ok true, w') => monitor fuel' (queue_file w') w'
      end
  end.

End Legacy.
End Legacy.

(** ** The rest of the module: [set_queue_from_user_json] and [run_all] *)

Section Rest.

Variable env : Env.

(** The body of the inner loop of [set_queue_from_user_json], for the
    entry of one sample: the sample name is printed and not passed on, and
    [queue] is called with its defaults, the sample ['NA'] and no
    attachments. *)
Definition queue_entry (wf_service : string) (u : unit)
    (sample_entry : string * gmap string string) : M unit :=
  wf_name <- getitem "wf_name" (snd sample_entry) ;;
  wf_jsonyaml <- getitem "jsonyaml" (snd sample_entry) ;;
  queue env wf_service wf_name wf_jsonyaml "NA" None ;;;
  ret tt.

(** [set_queue_from_user_json(filepath)], given the document [sdict] read
    from [filepath]: endpoint, then sample, then the keys ['wf_name'] and
    ['jsonyaml']. *)
Definition set_queue_from_user_json
    (sdict : gmap string (gmap string (gmap string string))) : M unit :=
  for_each (fun u service_entry =>
              for_each (queue_entry (fst service_entry))
                       (map_to_list (snd service_entry)) u)
           (map_to_list sdict) tt.

(** [wes_client.util.get_status], which is not part of the repository:
    the state of a run given its id, or a failure. *)
Variable get_status : string -> exn + string.

(** [while status != 'COMPLETE': time.sleep(4)]: the status is read once
    before the loop and the body does not change it. *)
Definition wait_for_complete (status_ : string) : M (option unit) :=
  if String.eqb status_ "COMPLETE" then ret (Some tt) else ret None.

(** The [while submissions_left] loop of [run_all] for one endpoint, for
    at most [fuel] iterations (the inner loop is given what is left).
    [False] and [None] are false and leave the loop; run data, a
    dictionary that has a ['start_time'], is true. *)
Fixpoint run_all_service (fuel : nat) (wf_service : string) (w : World)
    : Outcome unit * World :=
  match fuel with
  | O => (Running, w)
  | S fuel' =>
      match run_next_queued env wf_service w with
      | (Raise e, w') => (Raised e, w')
      | (Ok (ReturnRun submissions_left), w') =>
          match get_status (run_id submissions_left) with
          | inl e => (Raised e, w')
          | inr status_ =>
              match loop fuel' (wait_for_complete status_) w' with
              | (Returned _, w'') => run_all_service fuel' wf_service w''
              | (Running, w'') => (Running, w'')
              | (Raised e, w'') => (Raised e, w'')
              end
          end
      | (Ok _, w') => (Returned tt, w')
      end
  end.

(** The [for wf_service in wes_config()] loop around it. *)
Fixpoint run_all_services (fuel : nat) (services : list string) (w : World)
    : Outcome unit * World :=
  match services with
  | [] => (Returned tt, w)
  | wf_service :: services' =>
      match run_all_service fuel wf_service w with
      | (Returned _, w') => run_all_services fuel services' w'
      | r => r
      end
  end.

(** [run_all()]; the dictionary [current_job_state] it fills first is
    never read. *)
Definition run_all (fuel : nat) : World -> Outcome unit * World :=
  run_all_services fuel (fst <$> map_to_list (wes_config env)).

End Rest.

(** ** [run_all] with a status that changes *)

Section StatusReads.

Variable env : Env.

(** [wes_client.util.get_status] as a service whose answers change with
    time: [answers k rid] is what the call number [k] receives for the
    run [rid]. *)
Variable answers : nat -> string -> exn + string.

(** [run_all_service] with the calls of [get_status] counted: [reads] is
    the number of calls made so far, and a call is counted whether it is
    answered or fails. The only call is the one of
    [status = get_status(submissions_left['run_id'])]; the loop
    [while status != 'COMPLETE'] tests the variable and makes none. *)
Fixpoint run_all_service_reads (fuel : nat) (wf_service : string)
    (reads : nat) (w : World) : Outcome unit * (nat * World) :=
  match fuel with
  | O => (Running, (reads, w))
  | S fuel' =>
      match run_next_queued env wf_service w with
      | (Raise e, w') => (Raised e, (reads, w'))
      | (Ok (ReturnRun submissions_left), w') =>
          match answers reads (run_id submissions_left) with
          | inl e => (Raised e, (S reads, w'))
          | inr status_ =>
              match loop fuel' (wait_for_complete status_) w' with
              | (Returned _, w'') =>
                  run_all_service_reads fuel' wf_service (S reads) w''
              | (Running, w'') => (Running, (S reads, w''))
              | (Raised e, w'') => (Raised e, (S reads, w''))
              end
          end
      | (Ok _, w') => (Returned tt, (reads, w'))
      end
  end.

(** The [for wf_service in wes_config()] loop around it. *)
Fixpoint run_all_services_reads (fuel : nat) (services : list string)
    (reads : nat) (w : World) : Outcome unit * (nat * World) :=
  match services with
  | [] => (Returned tt, (reads, w))
  | wf_service :: services' =>
      match run_all_service_reads fuel wf_service reads w with
      | (Returned _, (reads', w')) => run_all_services_reads fuel services' reads' w'
      | r => r
      end
  end.

(** [run_all()] with the calls of [get_status] counted. *)
Definition run_all_reads (fuel : nat) : nat -> World -> Outcome unit * (nat * World) :=
  run_all_services_reads fuel (fst <$> map_to_list (wes_config env)).

End StatusReads.

(** What a run with counted calls amounts to without the count. *)
Definition forget_reads (r : Outcome unit * (nat * World)) : Outcome unit * World :=
  (fst r, snd (snd r)).

(** ** Vocabulary of the further properties *)

(** The fields of a reading that make up the id, in the order of the id. *)
Definition id_fields (t : Clock.datetime) : list Z :=
  [Clock.day t; Clock.month t; Clock.hour t; Clock.minute t; Clock.second t;
   Clock.microsecond t].

(** Lexicographic comparison of two lists of integers of the same length. *)
Fixpoint compare_fields (a b : list Z) : comparison :=
  match a, b with
  | x :: a', y :: b' => Clock.lex (x ?= y) (compare_fields a' b')
  | _, _ => Eq
  end.

(** Two records that differ at most in the elapsed time of their run. *)
Definition same_but_elapsed (b b' : Bundle) : Prop :=
  status b' = status b /\ data b' = data b /\ wf_id b' = wf_id b /\
  type b' = type b /\ sample b' = sample b /\
  match run b, run b' with
  | None, None => True
  | Some r, Some r' =>
      run_id r' = run_id r /\ start_time r' = start_time r /\ state r' = state r
  | _, _ => False
  end.

(** Two queue files with the same endpoints and the same submissions, the
    records differing at most in the elapsed time of their run. *)
Definition same_but_elapsed_times (q q' : Queue) : Prop :=
  (forall k, is_Some (q' !! k) <-> is_Some (q !! k)) /\
  forall k id,
    match bundle_at q k id, bundle_at q' k id with
    | None, None => True
    | Some b, Some b' => same_but_elapsed b b'
    | _, _ => False
    end.

(** No submission of the endpoint is [RECEIVED]. *)
Definition nothing_queued (q : Queue) (wf_service : string) : Prop :=
  forall id b, bundle_at q wf_service id = Some b -> status b <> "RECEIVED".

(** A record as [set_queue_from_user_json] queues it. *)
Definition queued_from_user_json (env : Env) (b : Bundle) : Prop :=
  status b = "RECEIVED" /\ run b = None /\ sample b = "NA" /\
  exists wf_,
    wf_config env !! wf_id b = Some wf_ /\
    wf (data b) = workflow_url wf_ /\
    attachments (data b) = workflow_attachments wf_ /\
    type b = workflow_type wf_.

(** The start request sent for the submission [b]. *)
Definition start_request (client : string) (b : Bundle) : Call :=
  StartRun client (wf (data b)) (jsonyaml (data b)) (attachments (data b)).

(** The record [b] once dispatched with the run [r]. *)
Definition dispatched_record (b : Bundle) (r : Run) : Bundle :=
  mkBundle "SUBMITTED" (data b) (wf_id b) (type b) (sample b) (Some r).

(** The submissions [bundles'] of an endpoint are those of [bundles] with
    every [RECEIVED] one dispatched and the others as they were. *)
Definition drained (bundles bundles' : gmap string Bundle) : Prop :=
  forall id,
    match bundles !! id with
    | None => bundles' !! id = None
    | Some b =>
        if decide (status b = "RECEIVED")
        then exists r, bundles' !! id = Some (dispatched_record b r)
        else bundles' !! id = Some b
    end.

(** Python's [<=] on [str]. *)
Definition str_le (a b : string) : Prop := String.leb a b = true.

(** An entry of the user's document that can be queued: it has the two
    keys read by [set_queue_from_user_json] and names a configured
    workflow. *)
Definition can_be_queued (env : Env) (entry : gmap string string) : Prop :=
  exists wf_name wf_jsonyaml,
    entry !! "wf_name" = Some wf_name /\ entry !! "jsonyaml" = Some wf_jsonyaml /\
    is_Some (wf_config env !! wf_name).

(** A record of [q] is the record of [q0] at the same place or one queued
    by [set_queue_from_user_json]. *)
Definition kept_or_queued (env : Env) (q0 q : Queue) : Prop :=
  forall k i b, bundle_at q k i = Some b ->
    bundle_at q0 k i = Some b \/ queued_from_user_json env b.

(** A computation leaves a component of the world as it was, however it
    ends. *)
Definition silent_on {A B} (f : World -> B) (c : M A) : Prop :=
  forall w, f (snd (c w)) = f w.

(** The status requests of a pass over the submissions [l], in order: one
    for each submission that has a run. *)
Definition status_requests (client : string) (l : list (string * Bundle)) : list Call :=
  omap (fun p => (fun r => GetStatus client (run_id r)) <$> run (snd p)) l.

(** Whether the pass reads the clock for the submission [b]: its run is
    reported in an active state. *)
Definition reads_clock (env : Env) (client : string) (b : Bundle) : bool :=
  match run b with
  | None => false
  | Some r =>
      match get_workflow_run_status env client (run_id r) with
      | inr st => is_active st
      | inl _ => false
      end
  end.

(** ** Concrete queues, clocks and endpoints used below *)

Module Scenario.

Definition md5sum : Workflow :=
  mkWorkflow "md5sum.cwl" "CWL" ["md5sum.input"; "dockstore-tool-md5sum.cwl"].

Definition md5sum_data : SubmissionData :=
  mkData "md5sum.cwl" "md5sum.cwl.json" ["md5sum.input"; "dockstore-tool-md5sum.cwl"].

(** 4 August 2018, 13:02:01.818647: the id of the repository's example. *)
Definition aug4 : Clock.datetime := Clock.mkDatetime 2018 8 4 13 2 1 818647.

Definition aug4_later : Clock.datetime := Clock.mkDatetime 2018 8 4 13 2 1 818648.

Definition jan31 : Clock.datetime := Clock.mkDatetime 2018 1 31 23 59 59 999999.

Definition feb1 : Clock.datetime := Clock.mkDatetime 2018 2 1 0 0 0 0.

(** An endpoint ["local"] whose requests answer [start] and [poll], with the
    clock reading [clock k] at the [k]-th call of [datetime.now()]. *)
Definition endpoint (start poll : exn + string) (clock : nat -> Clock.datetime) : Env :=
  mkEnv {["local" := "http://localhost:8080"]}
        {["md5sum" := md5sum]}
        (fun _ _ _ _ => start)
        (fun _ _ => poll)
        clock
        (fun _ => "Sat Aug  4 13:02:01 2018")
        (fun _ _ => "0h:0m:1s").

(** A clock that advances by one microsecond at each reading. *)
Definition ticking (k : nat) : Clock.datetime :=
  Clock.mkDatetime 2018 8 4 13 2 1 (818647 + Z.of_nat k).

(** A clock that crosses the end of January between two readings. *)
Definition month_end (k : nat) : Clock.datetime :=
  match k with O => jan31 | _ => feb1 end.

Definition world_of (q : Queue) : World := mkWorld q 0 [] [].

Definition received : Bundle :=
  mkBundle "RECEIVED" md5sum_data "md5sum" "CWL" "NA" None.

Definition a_run : Run :=
  mkRun "run-0" "Sat Aug  4 13:00:00 2018" None (Some "0h:1m:0s").

Definition submitted : Bundle :=
  mkBundle "SUBMITTED" md5sum_data "md5sum" "CWL" "NA" (Some a_run).

Definition complete : Bundle :=
  mkBundle "COMPLETE" md5sum_data "md5sum" "CWL" "NA"
           (Some (mkRun "run-0" "Sat Aug  4 13:00:00 2018" (Some "COMPLETE") (Some "0h:1m:0s"))).

(** A queue with the single submission [b] of ["local"] under the id of
    the repository's example. *)
Definition single (b : Bundle) : Queue :=
  {["local" := {["040804130201818647" := b]}]}.

Definition example_id : string := "040804130201818647".

Definition w_received : World := world_of (single received).
Definition w_submitted : World := world_of (single submitted).
Definition w_complete : World := world_of (single complete).
Definition w_empty : World := world_of ∅.

(** The endpoint answers; the clock is stuck, advances, or crosses the
    end of the month. *)
Definition env_stuck : Env := endpoint (inr "run-1") (inr "RUNNING") (fun _ => aug4).
Definition env_ok : Env := endpoint (inr "run-1") (inr "RUNNING") ticking.
Definition env_month : Env := endpoint (inr "run-1") (inr "RUNNING") month_end.

(** The endpoint reports the run as finished. *)
Definition env_done : Env := endpoint (inr "run-1") (inr "COMPLETE") ticking.

(** The endpoint cannot be reached. *)
Definition env_down : Env :=
  endpoint (inl ConnectionError) (inl ConnectionError) ticking.

(** ["run-0"] cannot be reached, every other run is running. *)
Definition env_partial : Env :=
  mkEnv {["local" := "http://localhost:8080"]}
        {["md5sum" := md5sum]}
        (fun _ _ _ _ => inr "run-1")
        (fun _ rid => if String.eqb rid "run-0" then inl ConnectionError else inr "RUNNING")
        ticking
        (fun _ => "Sat Aug  4 13:02:01 2018")
        (fun _ _ => "0h:0m:1s").

Definition another_run : Run :=
  mkRun "run-1" "Sat Aug  4 13:02:01 2018" None None.

Definition submitted_later : Bundle :=
  mkBundle "SUBMITTED" md5sum_data "md5sum" "CWL" "NA" (Some another_run).

(** Two dispatched submissions of ["local"]. *)
Definition two_submitted : gmap string Bundle :=
  {["040804130201818647" := submitted; "040804130201818648" := submitted_later]}.

Definition w_two : World := world_of {["local" := two_submitted]}.

End Scenario.

(** ** Further concrete cases *)

Module Cases.

(** The same time of day on 4 August, one year later. *)
Definition aug4_next_year : Clock.datetime := Clock.mkDatetime 2019 8 4 13 2 1 818647.

(** Two queued submissions of ["local"], the later one stored first. *)
Definition two_received : gmap string Bundle :=
  {["040804130201818648" := Scenario.received; "040804130201818647" := Scenario.received]}.

Definition w_two_received : World := Scenario.world_of {["local" := two_received]}.

(** [get_status] of a finished run and of a running one. *)
Definition status_complete (rid : string) : exn + string := inr "COMPLETE".
Definition status_running (rid : string) : exn + string := inr "RUNNING".

(** A status service for which every run is ['RUNNING'] at the first call
    and ['COMPLETE'] at every later one. *)
Definition status_completes_later (k : nat) (rid : string) : exn + string :=
  match k with
  | O => inr "RUNNING"
  | S _ => inr "COMPLETE"
  end.

(** A user's document with one sample to run on ["local"]. *)
Definition user_json : gmap string (gmap string (gmap string string)) :=
  {["local" := {["sample-1" := {["wf_name" := "md5sum"; "jsonyaml" := "in.json"]}]}]}.

End Cases.

(** ** Submission ids *)

Module ClockFacts.
Import Clock.

Lemma lex_Eq c : lex c Eq = c.
Proof. by destruct c. Qed.

Lemma append_String c (s t : string) :
  (String c s ++ t)%string = String c (s ++ t)%string.
Proof. reflexivity. Qed.

Lemma digit_compare a b :
  0 <= a < 10 -> 0 <= b < 10 ->
  Ascii.compare (digit a) (digit b) = (a ?= b).
Proof.
  intros Ha Hb. unfold Ascii.compare, digit.
  rewrite !N_ascii_embedding by lia.
  destruct (Z.compare_spec a b) as [Heq | Hlt | Hgt].
  - subst. apply N.compare_refl.
  - apply N.compare_lt_iff. lia.
  - apply N.compare_gt_iff. lia.
Qed.

Lemma pow10_succ k : 10 ^ Z.of_nat (S k) = 10 * 10 ^ Z.of_nat k.
Proof. rewrite Nat2Z.inj_succ, Z.pow_succ_r by lia. reflexivity. Qed.

Lemma pow10_pos k : 0 < 10 ^ Z.of_nat k.
Proof. apply Z.pow_pos_nonneg; lia. Qed.

(** Comparing two numbers written on the same number of digits compares
    the numbers; on a tie the comparison goes on with what follows. *)
Lemma zpad_compare k : forall a b s t,
  0 <= a < 10 ^ Z.of_nat k -> 0 <= b < 10 ^ Z.of_nat k ->
  String.compare (zpad k a ++ s) (zpad k b ++ t) = lex (a ?= b) (String.compare s t).
Proof.
  induction k as [|k IH]; intros a b s t Ha Hb.
  - simpl in Ha, Hb. assert (a = 0) by lia. assert (b = 0) by lia. subst.
    reflexivity.
  - rewrite pow10_succ in Ha, Hb.
    pose proof (pow10_pos k) as Hp.
    set (p := 10 ^ Z.of_nat k) in *.
    pose proof (Z.div_mod a p ltac:(lia)) as Ea.
    pose proof (Z.div_mod b p ltac:(lia)) as Eb.
    pose proof (Z.mod_pos_bound a p Hp) as Ma.
    pose proof (Z.mod_pos_bound b p Hp) as Mb.
    assert (0 <= a / p < 10) as Da.
    { split; [apply Z.div_pos; lia | apply Z.div_lt_upper_bound; lia]. }
    assert (0 <= b / p < 10) as Db.
    { split; [apply Z.div_pos; lia | apply Z.div_lt_upper_bound; lia]. }
    cbn [zpad]. fold p. rewrite !append_String. cbn [String.compare].
    rewrite digit_compare by assumption.
    rewrite IH by assumption.
    destruct (Z.compare_spec (a / p) (b / p)) as [Hq | Hq | Hq]; cbn [lex].
    + destruct (Z.compare_spec (a mod p) (b mod p)) as [Hr | Hr | Hr]; cbn [lex].
      * replace (a ?= b) with Eq; [done|]. symmetry. apply Z.compare_eq_iff. lia.
      * replace (a ?= b) with Lt; [done|]. symmetry. apply Z.compare_lt_iff. lia.
      * replace (a ?= b) with Gt; [done|]. symmetry. apply Z.compare_gt_iff. lia.
    + replace (a ?= b) with Lt; [done|]. symmetry. apply Z.compare_lt_iff. nia.
    + replace (a ?= b) with Gt; [done|]. symmetry. apply Z.compare_gt_iff. nia.
Qed.

(** The order of two ids is the order of day, month, hour, minute, second
    and microsecond, in that order: the year is not part of the id and
    the day comes before the month. *)
Lemma submission_id_compare t1 t2 :
  valid t1 -> valid t2 ->
  String.compare (submission_id_of t1) (submission_id_of t2) =
  lex (day t1 ?= day t2)
   (lex (month t1 ?= month t2)
    (lex (hour t1 ?= hour t2)
     (lex (minute t1 ?= minute t2)
      (lex (second t1 ?= second t2)
       (microsecond t1 ?= microsecond t2))))).
Proof.
  intros (_ & ? & ? & ? & ? & ? & ?) (_ & ? & ? & ? & ? & ? & ?).
  unfold submission_id_of, submission_id_format.
  cbn [strftime render].
  assert (10 ^ Z.of_nat 2 = 100) as E2 by reflexivity.
  assert (10 ^ Z.of_nat 6 = 1000000) as E6 by reflexivity.
  rewrite !zpad_compare by (rewrite ?E2, ?E6; lia).
  cbn [String.compare].
  destruct (day t1 ?= day t2); cbn [lex]; try reflexivity.
  destruct (month t1 ?= month t2); cbn [lex]; try reflexivity.
  destruct (hour t1 ?= hour t2); cbn [lex]; try reflexivity.
  destruct (minute t1 ?= minute t2); cbn [lex]; try reflexivity.
  destruct (second t1 ?= second t2); cbn [lex]; try reflexivity.
  apply lex_Eq.
Qed.

(** Within one month of one year the ids are ordered as the readings. *)
Lemma submission_id_lt_same_month t1 t2 :
  valid t1 -> valid t2 -> year t1 = year t2 -> month t1 = month t2 ->
  lt t1 t2 -> str_lt (submission_id_of t1) (submission_id_of t2) = true.
Proof.
  intros V1 V2 Hy Hm Hlt. unfold str_lt, String.ltb.
  rewrite submission_id_compare by assumption.
  unfold lt, compare in Hlt. rewrite Hy, Hm, !Z.compare_refl in Hlt.
  rewrite Hm, Z.compare_refl. cbn [lex] in *.
  destruct (day t1 ?= day t2); cbn [lex] in *; try done.
  by rewrite Hlt.
Qed.

End ClockFacts.

(** ** The queue after a creation and after a dispatch *)

Ltac unfold_m :=
  unfold bind, ret, raise, getitem, get_json, save_json, datetime_now, send,
    display, of_remote.

(** Run a computation forward, using the lookups known from [H1], ... *)
Ltac run_m :=
  repeat progress
    (unfold_m; cbn beta iota zeta delta [fst snd queue_file ticks wes_calls displayed]).
Tactic Notation "run_with" constr(H) := rewrite H; run_m.

Lemma lookup2_insert {V} (q : gmap string (gmap string V)) k inner k' id :
  lookup2 (<[k := inner]> q) k' id =
  if decide (k = k') then inner !! id else lookup2 q k' id.
Proof.
  unfold lookup2. rewrite lookup_insert. by case_decide.
Qed.

Lemma lookup2_Some {V} (q : gmap string (gmap string V)) k id b :
  lookup2 q k id = Some b <->
  exists inner, q !! k = Some inner /\ inner !! id = Some b.
Proof.
  unfold lookup2. destruct (q !! k) as [inner|]; simpl.
  - split; [eauto | by intros (? & [= <-] & ?)].
  - split; [done | by intros (? & ? & ?)].
Qed.

Lemma lookup2_setdefault_set {V} (q : gmap string (gmap string V)) k id b k' id' :
  lookup2 (setdefault_set k id b q) k' id' =
  if decide (k = k' /\ id = id') then Some b else lookup2 q k' id'.
Proof.
  unfold setdefault_set. rewrite lookup2_insert.
  destruct (decide (k = k')) as [<-|Hk].
  - rewrite lookup_insert. destruct (decide (id = id')) as [<-|Hid].
    + by rewrite decide_True.
    + rewrite decide_False by tauto. unfold lookup2.
      destruct (q !! k); simpl; [done | apply lookup_empty].
  - by rewrite decide_False by tauto.
Qed.

Section StoreFacts.

Variable env : Env.

(** A creation never fails: it takes the next clock reading, derives the
    id from it and writes the new record under that id. *)
Lemma create_submission_eq wes_id d ty name smp w :
  create_submission env wes_id d ty name smp w =
  (Ok (submission_id_of (now env (ticks w))),
   mkWorld (setdefault_set wes_id (submission_id_of (now env (ticks w)))
              (mkBundle "RECEIVED" d name ty smp None) (queue_file w))
           (S (ticks w)) (wes_calls w) (displayed w)).
Proof. reflexivity. Qed.

Lemma queue_eq service wf_name j smp attach wf_ w :
  wf_config env !! wf_name = Some wf_ ->
  queue env service wf_name j smp attach w =
  create_submission env service
    (mkData (workflow_url wf_) j
       (if falsy attach then workflow_attachments wf_ else default [] attach))
    (workflow_type wf_) wf_name smp w.
Proof. intros H. unfold queue, bind, getitem. rewrite H. reflexivity. Qed.

Lemma queue_unknown service wf_name j smp attach w :
  wf_config env !! wf_name = None ->
  queue env service wf_name j smp attach w = (Raise (KeyError wf_name), w).
Proof. intros H. unfold queue, bind, getitem. rewrite H. reflexivity. Qed.

(** The four ways [run_submission] can go. *)
Lemma run_submission_no_endpoint wes_id id w :
  queue_file w !! wes_id = None ->
  run_submission env wes_id id w = (Raise (KeyError wes_id), w).
Proof.
  intros H. unfold run_submission, get_submission_bundle. unfold_m.
  rewrite H. reflexivity.
Qed.

Lemma run_submission_no_bundle wes_id id bundles w :
  queue_file w !! wes_id = Some bundles -> bundles !! id = None ->
  run_submission env wes_id id w = (Raise (KeyError id), w).
Proof.
  intros H1 H2. unfold run_submission, get_submission_bundle. run_m.
  run_with H1. run_with H2. reflexivity.
Qed.

Lemma run_submission_no_client wes_id id bundles b w :
  queue_file w !! wes_id = Some bundles -> bundles !! id = Some b ->
  wes_config env !! wes_id = None ->
  run_submission env wes_id id w = (Raise (KeyError wes_id), w).
Proof.
  intros H1 H2 H3. unfold run_submission, get_submission_bundle. run_m.
  run_with H1. run_with H2. run_with H3. reflexivity.
Qed.

Lemma run_submission_failed wes_id id bundles b client e w :
  queue_file w !! wes_id = Some bundles -> bundles !! id = Some b ->
  wes_config env !! wes_id = Some client ->
  run_workflow env client (wf (data b)) (jsonyaml (data b)) (attachments (data b)) = inl e ->
  run_submission env wes_id id w =
  (Raise e, requested (StartRun client (wf (data b)) (jsonyaml (data b))
                         (attachments (data b))) w).
Proof.
  intros H1 H2 H3 H4.
  unfold run_submission, get_submission_bundle, client_run_workflow. run_m.
  run_with H1. run_with H2. run_with H3. run_with H4. reflexivity.
Qed.

Lemma run_submission_ok wes_id id bundles b client rid w :
  queue_file w !! wes_id = Some bundles -> bundles !! id = Some b ->
  wes_config env !! wes_id = Some client ->
  run_workflow env client (wf (data b)) (jsonyaml (data b)) (attachments (data b)) = inr rid ->
  run_submission env wes_id id w =
  (Ok (mkRun rid (ctime env (now env (ticks w))) None None),
   dispatched wes_id id client bundles b
     (mkRun rid (ctime env (now env (ticks w))) None None) w).
Proof.
  intros H1 H2 H3 H4.
  unfold run_submission, get_submission_bundle, client_run_workflow,
    update_submission, dispatched. run_m.
  run_with H1. run_with H2. run_with H3. run_with H4.
  run_with H1. run_with H2.
  rewrite lookup_insert_eq. run_m. rewrite lookup_insert_eq. run_m.
  rewrite !insert_insert_eq. reflexivity.
Qed.

End StoreFacts.

(** ** Creation and dispatch: what the queue holds afterwards *)

(** C10. [queue] called with an empty list of attachments behaves as
    [queue] called without attachments, in every world; when the workflow
    is configured the record created holds the workflow's configured
    attachments, and when it is not both calls raise the same [KeyError]. *)
Theorem queue_empty_attachments_default env service wf_name j smp w :
  queue env service wf_name j smp (Some []) w = queue env service wf_name j smp None w /\
  match wf_config env !! wf_name with
  | Some wf_ =>
      exists id w',
        queue env service wf_name j smp (Some []) w = (Ok id, w') /\
        bundle_at (queue_file w') service id =
          Some (mkBundle "RECEIVED"
                  (mkData (workflow_url wf_) j (workflow_attachments wf_))
                  wf_name (workflow_type wf_) smp None)
  | None =>
      queue env service wf_name j smp (Some []) w = (Raise (KeyError wf_name), w)
  end.
Proof.
  split; [reflexivity|].
  destruct (wf_config env !! wf_name) as [wf_|] eqn:Hwf.
  - rewrite (queue_eq env _ _ _ _ _ wf_) by done.
    rewrite create_submission_eq. do 2 eexists. split; [reflexivity|].
    cbn [queue_file falsy]. rewrite lookup2_setdefault_set.
    by rewrite decide_True.
  - by apply queue_unknown.
Qed.

(** C2, as the code has it. When the id derived from the clock already
    names a record of the endpoint, [create_submission] does not fail: it
    returns that id, the record under it is replaced by the new
    [RECEIVED] record, and every other record is left as it was. *)
Theorem create_submission_overwrites env wes_id d ty name smp w old :
  bundle_at (queue_file w) wes_id (submission_id_of (now env (ticks w))) = Some old ->
  exists w',
    create_submission env wes_id d ty name smp w =
      (Ok (submission_id_of (now env (ticks w))), w') /\
    bundle_at (queue_file w') wes_id (submission_id_of (now env (ticks w))) =
      Some (mkBundle "RECEIVED" d name ty smp None) /\
    forall k i, ~ (wes_id = k /\ submission_id_of (now env (ticks w)) = i) ->
      bundle_at (queue_file w') k i = bundle_at (queue_file w) k i.
Proof.
  intros _. rewrite create_submission_eq. eexists. split; [reflexivity|].
  cbn [queue_file]. split.
  - rewrite lookup2_setdefault_set. by rewrite decide_True.
  - intros k i Hne. rewrite lookup2_setdefault_set. by rewrite decide_False.
Qed.

Lemma create_submission_overwrites_witness :
  bundle_at (queue_file Scenario.w_submitted) "local"
    (submission_id_of (now Scenario.env_stuck (ticks Scenario.w_submitted))) =
    Some Scenario.submitted /\
  exists w',
    create_submission Scenario.env_stuck "local" Scenario.md5sum_data "CWL" "md5sum" "NA"
        Scenario.w_submitted =
      (Ok (submission_id_of (now Scenario.env_stuck (ticks Scenario.w_submitted))), w') /\
    bundle_at (queue_file w') "local"
        (submission_id_of (now Scenario.env_stuck (ticks Scenario.w_submitted))) =
      Some (mkBundle "RECEIVED" Scenario.md5sum_data "md5sum" "CWL" "NA" None) /\
    forall k i,
      ~ ("local" = k /\
         submission_id_of (now Scenario.env_stuck (ticks Scenario.w_submitted)) = i) ->
      bundle_at (queue_file w') k i = bundle_at (queue_file Scenario.w_submitted) k i.
Proof.
  split.
  - vm_compute. reflexivity.
  - apply (create_submission_overwrites Scenario.env_stuck "local" Scenario.md5sum_data
             "CWL" "md5sum" "NA" Scenario.w_submitted Scenario.submitted).
    vm_compute. reflexivity.
Defined.

(** C2, as stated, fails: the clock reads 4 August 2018 13:02:01.818647,
    whose id already names a [SUBMITTED] record of ["local"]; the creation
    returns the id and the record has become the new [RECEIVED] one. *)
Lemma create_submission_duplicate_id :
  bundle_at (queue_file Scenario.w_submitted) "local" "040804130201818647" =
    Some Scenario.submitted /\
  fst (create_submission Scenario.env_stuck "local" Scenario.md5sum_data "CWL" "md5sum"
         "NA" Scenario.w_submitted) = Ok "040804130201818647" /\
  bundle_at
    (queue_file (snd (create_submission Scenario.env_stuck "local" Scenario.md5sum_data
                        "CWL" "md5sum" "NA" Scenario.w_submitted)))
    "local" "040804130201818647" = Some Scenario.received /\
  Scenario.received <> Scenario.submitted.
Proof.
  repeat split; try (vm_compute; reflexivity). discriminate.
Qed.

(** C3, as the code has it. [run_submission] does not look at the status:
    for a stored submission that is not [RECEIVED], with the endpoint
    configured and the start request answered with a run id, the request
    is sent, the run record is replaced by the new one and the status
    becomes [SUBMITTED]. *)
Theorem run_submission_accepts_any_status env wes_id id bundles b client rid w :
  queue_file w !! wes_id = Some bundles -> bundles !! id = Some b ->
  status b <> "RECEIVED" ->
  wes_config env !! wes_id = Some client ->
  run_workflow env client (wf (data b)) (jsonyaml (data b)) (attachments (data b)) = inr rid ->
  exists w',
    run_submission env wes_id id w =
      (Ok (mkRun rid (ctime env (now env (ticks w))) None None), w') /\
    wes_calls w' = (wes_calls w ++ [StartRun client (wf (data b)) (jsonyaml (data b))
                                      (attachments (data b))])%list /\
    bundle_at (queue_file w') wes_id id =
      Some (mkBundle "SUBMITTED" (data b) (wf_id b) (type b) (sample b)
              (Some (mkRun rid (ctime env (now env (ticks w))) None None))).
Proof.
  intros H1 H2 _ H3 H4. eexists. split.
  - by apply (run_submission_ok env wes_id id bundles b client rid).
  - split; [reflexivity|]. unfold dispatched. cbn [queue_file].
    rewrite lookup2_insert, decide_True by done. apply lookup_insert_eq.
Qed.

Lemma run_submission_accepts_any_status_witness :
  (queue_file Scenario.w_complete !! "local" =
     Some {["040804130201818647" := Scenario.complete]} /\
   ({["040804130201818647" := Scenario.complete]} : gmap string Bundle)
     !! "040804130201818647" = Some Scenario.complete /\
   status Scenario.complete <> "RECEIVED" /\
   wes_config Scenario.env_ok !! "local" = Some "http://localhost:8080" /\
   run_workflow Scenario.env_ok "http://localhost:8080" "md5sum.cwl" "md5sum.cwl.json"
     ["md5sum.input"; "dockstore-tool-md5sum.cwl"] = inr "run-1") /\
  exists w',
    run_submission Scenario.env_ok "local" "040804130201818647" Scenario.w_complete =
      (Ok (mkRun "run-1" "Sat Aug  4 13:02:01 2018" None None), w') /\
    wes_calls w' =
      [StartRun "http://localhost:8080" "md5sum.cwl" "md5sum.cwl.json"
         ["md5sum.input"; "dockstore-tool-md5sum.cwl"]] /\
    bundle_at (queue_file w') "local" "040804130201818647" =
      Some (mkBundle "SUBMITTED" Scenario.md5sum_data "md5sum" "CWL" "NA"
              (Some (mkRun "run-1" "Sat Aug  4 13:02:01 2018" None None))).
Proof.
  split.
  - repeat split; try (vm_compute; reflexivity). discriminate.
  - apply (run_submission_accepts_any_status Scenario.env_ok "local"
             "040804130201818647" {["040804130201818647" := Scenario.complete]}
             Scenario.complete "http://localhost:8080" "run-1" Scenario.w_complete).
    + vm_compute. reflexivity.
    + vm_compute. reflexivity.
    + discriminate.
    + vm_compute. reflexivity.
    + reflexivity.
Defined.

(** C3, as stated, fails: a [COMPLETE] submission is dispatched again; the
    call returns the new run data, the start request was sent, and the
    record is [SUBMITTED] with the new run. *)
Lemma run_submission_complete_redispatched :
  status Scenario.complete = "COMPLETE" /\
  bundle_at (queue_file Scenario.w_complete) "local" "040804130201818647" =
    Some Scenario.complete /\
  fst (run_submission Scenario.env_ok "local" "040804130201818647" Scenario.w_complete) =
    Ok (mkRun "run-1" "Sat Aug  4 13:02:01 2018" None None) /\
  wes_calls (snd (run_submission Scenario.env_ok "local" "040804130201818647"
                    Scenario.w_complete)) =
    [StartRun "http://localhost:8080" "md5sum.cwl" "md5sum.cwl.json"
       ["md5sum.input"; "dockstore-tool-md5sum.cwl"]] /\
  bundle_at (queue_file (snd (run_submission Scenario.env_ok "local"
                                "040804130201818647" Scenario.w_complete)))
    "local" "040804130201818647" =
    Some (mkBundle "SUBMITTED" Scenario.md5sum_data "md5sum" "CWL" "NA"
            (Some (mkRun "run-1" "Sat Aug  4 13:02:01 2018" None None))).
Proof. repeat split; vm_compute; reflexivity. Qed.

(** ** A start request that fails *)

(** C8. When the start request of a dispatch fails with [e], for a
    stored submission of a configured endpoint, [run_submission] raises
    [e] itself and the queue file is what it was: the submission keeps its
    record, without a new run. And when the start request of the run step
    of [no_queue_run] fails with [e], for a configured workflow and a
    configured endpoint, whatever the queue file held: [no_queue_run]
    raises [e] itself, the queue file is the one [queue] has written, and
    the submission it has just queued is [RECEIVED], without a run. *)
Theorem start_failure_keeps_received env :
  (forall wes_id id bundles b client e w,
     queue_file w !! wes_id = Some bundles -> bundles !! id = Some b ->
     wes_config env !! wes_id = Some client ->
     run_workflow env client (wf (data b)) (jsonyaml (data b)) (attachments (data b)) =
       inl e ->
     exists w1,
       run_submission env wes_id id w = (Raise e, w1) /\
       queue_file w1 = queue_file w /\
       bundle_at (queue_file w1) wes_id id = Some b) /\
  (forall service wf_name j smp attach wf_ client e w,
     wf_config env !! wf_name = Some wf_ ->
     wes_config env !! service = Some client ->
     run_workflow env client (workflow_url wf_) j
       (if falsy attach then workflow_attachments wf_ else default [] attach) = inl e ->
     exists id' w2,
       fst (queue env service wf_name j smp attach w) = Ok id' /\
       no_queue_run env service wf_name j smp attach w = (Raise e, w2) /\
       queue_file w2 = queue_file (snd (queue env service wf_name j smp attach w)) /\
       bundle_at (queue_file w2) service id' =
         Some (mkBundle "RECEIVED"
                 (mkData (workflow_url wf_) j
                    (if falsy attach then workflow_attachments wf_
                     else default [] attach))
                 wf_name (workflow_type wf_) smp None)).
Proof.
  split.
  - intros wes_id id bundles b client e w H1 H2 H3 H4.
    eexists. split; [by apply (run_submission_failed env wes_id id bundles b client e)|].
    split; [reflexivity|]. cbn [requested queue_file].
    apply lookup2_Some. eauto.
  - intros service wf_name j smp attach wf_ client e w Hwf Hc Hfail.
    unfold no_queue_run, bind.
    rewrite (queue_eq env _ _ _ _ _ wf_) by done.
    rewrite create_submission_eq.
    set (id' := submission_id_of (now env (ticks w))).
    set (b' := mkBundle "RECEIVED" _ _ _ _ None).
    set (w' := mkWorld _ _ _ _).
    assert (queue_file w' !! service =
              Some (<[id' := b']> (default ∅ (queue_file w !! service))))
      as Hq by apply lookup_insert_eq.
    erewrite (run_submission_failed env service id' _ b' client e w' Hq);
      [| apply lookup_insert_eq | done | done].
    exists id', (requested (StartRun client (wf (data b')) (jsonyaml (data b'))
                              (attachments (data b'))) w').
    repeat split. cbn [requested queue_file]. apply lookup2_Some.
    eexists. split; [exact Hq | apply lookup_insert_eq].
Qed.

(** The first half on a queue with one [RECEIVED] submission, the second
    on an empty queue file, with an endpoint that cannot be reached. *)
Lemma start_failure_keeps_received_witness :
  (exists w1,
     run_submission Scenario.env_down "local" "040804130201818647" Scenario.w_received =
       (Raise ConnectionError, w1) /\
     queue_file w1 = queue_file Scenario.w_received /\
     bundle_at (queue_file w1) "local" "040804130201818647" = Some Scenario.received) /\
  (exists id' w2,
     fst (queue Scenario.env_down "local" "md5sum" "md5sum.cwl.json" "NA" None
            Scenario.w_empty) = Ok id' /\
     no_queue_run Scenario.env_down "local" "md5sum" "md5sum.cwl.json" "NA" None
       Scenario.w_empty = (Raise ConnectionError, w2) /\
     queue_file w2 =
       queue_file (snd (queue Scenario.env_down "local" "md5sum" "md5sum.cwl.json" "NA"
                          None Scenario.w_empty)) /\
     bundle_at (queue_file w2) "local" id' =
       Some (mkBundle "RECEIVED"
               (mkData "md5sum.cwl" "md5sum.cwl.json"
                  ["md5sum.input"; "dockstore-tool-md5sum.cwl"])
               "md5sum" "CWL" "NA" None)).
Proof.
  split.
  - apply (proj1 (start_failure_keeps_received Scenario.env_down) "local"
             "040804130201818647" {["040804130201818647" := Scenario.received]}
             Scenario.received "http://localhost:8080" ConnectionError
             Scenario.w_received); vm_compute; reflexivity.
  - apply (proj2 (start_failure_keeps_received Scenario.env_down) "local" "md5sum"
             "md5sum.cwl.json" "NA" None Scenario.md5sum "http://localhost:8080"
             ConnectionError Scenario.w_empty); vm_compute; reflexivity.
Defined.

(** ** The order of the ids *)

(** C1, as the code has it. Two creations in sequence on one endpoint
    whose clock readings are valid dates of the same month of the same
    year, the second strictly later than the first, get ids of which the
    second is strictly greater as a string. *)
Theorem ids_increase_within_month env wes_id d1 ty1 name1 smp1 d2 ty2 name2 smp2 w :
  Clock.valid (now env (ticks w)) -> Clock.valid (now env (S (ticks w))) ->
  Clock.year (now env (ticks w)) = Clock.year (now env (S (ticks w))) ->
  Clock.month (now env (ticks w)) = Clock.month (now env (S (ticks w))) ->
  Clock.lt (now env (ticks w)) (now env (S (ticks w))) ->
  exists id1 w1 id2 w2,
    create_submission env wes_id d1 ty1 name1 smp1 w = (Ok id1, w1) /\
    create_submission env wes_id d2 ty2 name2 smp2 w1 = (Ok id2, w2) /\
    str_lt id1 id2 = true.
Proof.
  intros V1 V2 Hy Hm Hlt.
  rewrite create_submission_eq. do 2 eexists.
  eexists. eexists. split; [reflexivity|].
  rewrite create_submission_eq. split; [reflexivity|].
  cbn [ticks]. by apply ClockFacts.submission_id_lt_same_month.
Qed.

Lemma ids_increase_within_month_witness :
  (Clock.valid (now Scenario.env_ok 0) /\ Clock.valid (now Scenario.env_ok 1) /\
   Clock.year (now Scenario.env_ok 0) = Clock.year (now Scenario.env_ok 1) /\
   Clock.month (now Scenario.env_ok 0) = Clock.month (now Scenario.env_ok 1) /\
   Clock.lt (now Scenario.env_ok 0) (now Scenario.env_ok 1)) /\
  exists id1 w1 id2 w2,
    create_submission Scenario.env_ok "local" Scenario.md5sum_data "CWL" "md5sum" "NA"
      Scenario.w_empty = (Ok id1, w1) /\
    create_submission Scenario.env_ok "local" Scenario.md5sum_data "CWL" "md5sum" "NA"
      w1 = (Ok id2, w2) /\
    str_lt id1 id2 = true.
Proof.
  split.
  - repeat split; vm_compute; congruence.
  - apply (ids_increase_within_month Scenario.env_ok "local" Scenario.md5sum_data "CWL"
             "md5sum" "NA" Scenario.md5sum_data "CWL" "md5sum" "NA" Scenario.w_empty);
      repeat split; vm_compute; congruence.
Defined.

(** C1, as stated, fails. With a clock that gives the same reading twice,
    two creations in sequence get the same id (and one record is left).
    With a clock that reads 31 January 23:59:59.999999 and then
    1 February 00:00:00.000000, the later creation gets the smaller id. *)
Lemma ids_not_increasing :
  (fst (create_submission Scenario.env_stuck "local" Scenario.md5sum_data "CWL" "md5sum"
          "NA" Scenario.w_empty) = Ok "040804130201818647" /\
   fst (create_submission Scenario.env_stuck "local" Scenario.md5sum_data "CWL" "md5sum"
          "NA"
          (snd (create_submission Scenario.env_stuck "local" Scenario.md5sum_data "CWL"
                  "md5sum" "NA" Scenario.w_empty))) = Ok "040804130201818647" /\
   str_lt "040804130201818647" "040804130201818647" = false) /\
  (Clock.lt (now Scenario.env_month 0) (now Scenario.env_month 1) /\
   fst (create_submission Scenario.env_month "local" Scenario.md5sum_data "CWL" "md5sum"
          "NA" Scenario.w_empty) = Ok "310131235959999999" /\
   fst (create_submission Scenario.env_month "local" Scenario.md5sum_data "CWL" "md5sum"
          "NA"
          (snd (create_submission Scenario.env_month "local" Scenario.md5sum_data "CWL"
                  "md5sum" "NA" Scenario.w_empty))) = Ok "010201000000000000" /\
   str_lt "310131235959999999" "010201000000000000" = false /\
   str_lt "010201000000000000" "310131235959999999" = true).
Proof. repeat split; vm_compute; reflexivity. Qed.

(** ** The next queued submission *)

Section Sorted.

Lemma leb_refl (x : string) : String.leb x x = true.
Proof. by destruct (String.leb_total x x). Qed.

Lemma leb_trans (x y z : string) :
  String.leb x y = true -> String.leb y z = true -> String.leb x z = true.
Proof.
  unfold String.leb. intros Hxy Hyz.
  destruct (String.compare x y) eqn:Exy; [| |discriminate].
  - apply String.compare_eq_iff in Exy. by subst.
  - destruct (String.compare y z) eqn:Eyz; [| |discriminate].
    + apply String.compare_eq_iff in Eyz. subst. by rewrite Exy.
    + apply OrderedTypeEx.String_as_OT.cmp_lt in Exy, Eyz.
      pose proof (OrderedTypeEx.String_as_OT.lt_trans _ _ _ Exy Eyz) as Hxz.
      apply OrderedTypeEx.String_as_OT.cmp_lt in Hxz.
      unfold OrderedTypeEx.String_as_OT.cmp in Hxz. by rewrite Hxz.
Qed.

Lemma elem_of_insert_sorted x y l : y ∈ insert_sorted x l <-> y = x \/ y ∈ l.
Proof.
  induction l as [|z l IH]; simpl.
  - rewrite list_elem_of_singleton, elem_of_nil. tauto.
  - destruct (String.leb x z); rewrite !elem_of_cons; [tauto|].
    rewrite IH. tauto.
Qed.

Lemma elem_of_sorted y l : y ∈ sorted l <-> y ∈ l.
Proof.
  induction l as [|x l IH]; simpl; [done|].
  rewrite elem_of_insert_sorted, elem_of_cons, IH. tauto.
Qed.

(** The first element of [sorted l] is a least element of [l]. *)
Lemma sorted_head l :
  match sorted l with
  | [] => l = []
  | m :: _ => m ∈ l /\ forall x, x ∈ l -> String.leb m x = true
  end.
Proof.
  induction l as [|x l IH]; simpl; [done|].
  destruct (sorted l) as [|m r] eqn:Es; simpl.
  - subst l. split; [left|].
    intros y Hy. apply list_elem_of_singleton in Hy. subst. apply leb_refl.
  - destruct IH as [Hm Hmin].
    destruct (String.leb x m) eqn:Exm.
    + split; [left|]. intros y [->|Hy]%elem_of_cons; [apply leb_refl|].
      eapply leb_trans; [exact Exm | by apply Hmin].
    + split; [by right|]. intros y [->|Hy]%elem_of_cons; [|by apply Hmin].
      destruct (String.leb_total x m) as [H|H]; [congruence | done].
Qed.

End Sorted.

Lemma elem_of_ids_with_status st (bundles : gmap string Bundle) id :
  id ∈ ids_with_status st bundles <->
  exists b, bundles !! id = Some b /\ status b = st.
Proof.
  unfold ids_with_status. rewrite list_elem_of_fmap. split.
  - intros ([id' b] & -> & Hin). apply list_elem_of_filter in Hin as [Hst Hin].
    apply elem_of_map_to_list in Hin. eauto.
  - intros (b & Hb & Hst). exists (id, b). split; [done|].
    apply list_elem_of_filter. split; [done | by apply elem_of_map_to_list].
Qed.

Lemma ids_with_status_nil st (bundles : gmap string Bundle) :
  (forall id b, bundles !! id = Some b -> status b <> st) ->
  ids_with_status st bundles = [].
Proof.
  intros Hno. destruct (ids_with_status st bundles) as [|id l] eqn:E; [done|].
  assert (id ∈ ids_with_status st bundles) as Hin by (rewrite E; left).
  apply elem_of_ids_with_status in Hin as (b & Hb & Hst). by destruct (Hno id b).
Qed.

Section NextQueued.

Variable env : Env.

Lemma get_submissions_eq wes_id st bundles w :
  queue_file w !! wes_id = Some bundles ->
  get_submissions wes_id st w = (Ok (ids_with_status st bundles), w).
Proof. intros H. unfold get_submissions. run_m. run_with H. reflexivity. Qed.

Lemma get_submissions_missing wes_id st w :
  queue_file w !! wes_id = None ->
  get_submissions wes_id st w = (Raise (KeyError wes_id), w).
Proof. intros H. unfold get_submissions. run_m. run_with H. reflexivity. Qed.

Lemma run_next_queued_missing wf_service w :
  queue_file w !! wf_service = None ->
  run_next_queued env wf_service w = (Raise (KeyError wf_service), w).
Proof.
  intros H. unfold run_next_queued, bind.
  by rewrite get_submissions_missing.
Qed.

Lemma run_next_queued_none wf_service bundles w :
  queue_file w !! wf_service = Some bundles ->
  (forall id b, bundles !! id = Some b -> status b <> "RECEIVED") ->
  run_next_queued env wf_service w = (Ok ReturnFalse, w).
Proof.
  intros H Hno. unfold run_next_queued, bind.
  rewrite (get_submissions_eq _ _ bundles) by done.
  by rewrite ids_with_status_nil.
Qed.

Lemma run_next_queued_some wf_service bundles w :
  queue_file w !! wf_service = Some bundles ->
  (exists id b, bundles !! id = Some b /\ status b = "RECEIVED") ->
  exists m bm,
    bundles !! m = Some bm /\ status bm = "RECEIVED" /\
    (forall id b, bundles !! id = Some b -> status b = "RECEIVED" ->
                  String.leb m id = true) /\
    run_next_queued env wf_service w =
      (run_data <- run_submission env wf_service m ;; ret (ReturnRun run_data)) w.
Proof.
  intros H (id0 & b0 & Hb0 & Hst0). unfold run_next_queued at 1.
  unfold bind at 1. rewrite (get_submissions_eq _ _ bundles) by done.
  assert (id0 ∈ ids_with_status "RECEIVED" bundles) as Hin0
    by (apply elem_of_ids_with_status; eauto).
  pose proof (sorted_head (ids_with_status "RECEIVED" bundles)) as Hhead.
  destruct (ids_with_status "RECEIVED" bundles) as [|x l] eqn:El;
    [by apply elem_of_nil in Hin0|].
  destruct (sorted (x :: l)) as [|m r] eqn:Es; [done|].
  destruct Hhead as [Hm Hmin]. rewrite <- El in Hm, Hmin.
  apply elem_of_ids_with_status in Hm as (bm & Hbm & Hstm).
  exists m, bm. repeat split; try done.
  intros id b Hb Hst. apply Hmin. apply elem_of_ids_with_status. eauto.
Qed.

(** A dispatch that returns has sent the start request and written the
    run and the status [SUBMITTED]. *)
Lemma run_submission_inv wes_id id rd w w1 :
  run_submission env wes_id id w = (Ok rd, w1) ->
  exists bundles b client,
    queue_file w !! wes_id = Some bundles /\ bundles !! id = Some b /\
    wes_config env !! wes_id = Some client /\
    w1 = dispatched wes_id id client bundles b rd w.
Proof.
  intros Hrun.
  destruct (queue_file w !! wes_id) as [bundles|] eqn:H1;
    [|by rewrite run_submission_no_endpoint in Hrun].
  destruct (bundles !! id) as [b|] eqn:H2;
    [|by rewrite (run_submission_no_bundle env _ _ bundles) in Hrun].
  destruct (wes_config env !! wes_id) as [client|] eqn:H3;
    [|by rewrite (run_submission_no_client env _ _ bundles b) in Hrun].
  destruct (run_workflow env client (wf (data b)) (jsonyaml (data b))
              (attachments (data b))) as [e|rid] eqn:H4.
  - by rewrite (run_submission_failed env _ _ bundles b client e) in Hrun.
  - rewrite (run_submission_ok env _ _ bundles b client rid) in Hrun by done.
    injection Hrun as <- <-. eauto 10.
Qed.

End NextQueued.

(** The next queued submission of an endpoint that has an entry in the
    queue file: when a [RECEIVED] submission exists, [run_next_queued] is
    [run_submission] on a [RECEIVED] submission whose id is smaller than or
    equal to the id of every [RECEIVED] submission, and on nothing else;
    when none exists it returns [False] and the world is unchanged; and
    when exactly one exists and the call returns its run data, one start
    request was sent, the submission is [SUBMITTED], and a second call
    returns [False] and changes nothing. *)
Theorem run_next_queued_smallest env wf_service bundles w :
  queue_file w !! wf_service = Some bundles ->
  ((exists id b, bundles !! id = Some b /\ status b = "RECEIVED") ->
   exists m bm,
     bundles !! m = Some bm /\ status bm = "RECEIVED" /\
     (forall id b, bundles !! id = Some b -> status b = "RECEIVED" ->
                   String.leb m id = true) /\
     run_next_queued env wf_service w =
       (run_data <- run_submission env wf_service m ;; ret (ReturnRun run_data)) w) /\
  ((forall id b, bundles !! id = Some b -> status b <> "RECEIVED") ->
   run_next_queued env wf_service w = (Ok ReturnFalse, w)) /\
  (forall m bm rd w1,
     bundles !! m = Some bm -> status bm = "RECEIVED" ->
     (forall id b, bundles !! id = Some b -> status b = "RECEIVED" -> id = m) ->
     run_next_queued env wf_service w = (Ok (ReturnRun rd), w1) ->
     (exists client,
        wes_calls w1 = (wes_calls w ++ [StartRun client (wf (data bm)) (jsonyaml (data bm))
                                          (attachments (data bm))])%list) /\
     bundle_at (queue_file w1) wf_service m =
       Some (mkBundle "SUBMITTED" (data bm) (wf_id bm) (type bm) (sample bm) (Some rd)) /\
     run_next_queued env wf_service w1 = (Ok ReturnFalse, w1)).
Proof.
  intros Hq. split; [by apply run_next_queued_some|].
  split; [by apply run_next_queued_none|].
  intros m bm rd w1 Hm Hst Honly Hrun.
  destruct (run_next_queued_some env wf_service bundles w Hq) as
    (m' & bm' & Hm' & Hst' & _ & Heq); [by eauto|].
  assert (m' = m) as -> by eauto.
  rewrite Heq in Hrun. unfold bind, ret in Hrun.
  destruct (run_submission env wf_service m w) as [[rd'|e] w'] eqn:Erun;
    [|discriminate].
  injection Hrun as <- <-.
  apply run_submission_inv in Erun as (bundles' & b & client & Hq' & Hb & Hc & ->).
  rewrite Hq in Hq'. injection Hq' as <-.
  rewrite Hm in Hb. injection Hb as <-.
  split; [by exists client|]. split.
  - unfold dispatched. cbn [queue_file].
    rewrite lookup2_insert, decide_True by done. apply lookup_insert_eq.
  - eapply run_next_queued_none.
    + unfold dispatched. cbn [queue_file]. apply lookup_insert_eq.
    + intros id b. rewrite lookup_insert. case_decide as Hid.
      * by intros [= <-].
      * intros Hb Hrec. destruct Hid. symmetry. by eapply Honly.
Qed.

Lemma run_next_queued_smallest_witness :
  queue_file Scenario.w_received !! "local" =
    Some {["040804130201818647" := Scenario.received]} /\
  ((exists id b, ({["040804130201818647" := Scenario.received]} : gmap string Bundle)
                   !! id = Some b /\ status b = "RECEIVED") ->
   exists m bm,
     ({["040804130201818647" := Scenario.received]} : gmap string Bundle) !! m = Some bm /\
     status bm = "RECEIVED" /\
     (forall id b, ({["040804130201818647" := Scenario.received]} : gmap string Bundle)
                     !! id = Some b -> status b = "RECEIVED" ->
                   String.leb m id = true) /\
     run_next_queued Scenario.env_ok "local" Scenario.w_received =
       (run_data <- run_submission Scenario.env_ok "local" m ;;
        ret (ReturnRun run_data)) Scenario.w_received) /\
  ((forall id b, ({["040804130201818647" := Scenario.received]} : gmap string Bundle)
                   !! id = Some b -> status b <> "RECEIVED") ->
   run_next_queued Scenario.env_ok "local" Scenario.w_received =
     (Ok ReturnFalse, Scenario.w_received)) /\
  (forall m bm rd w1,
     ({["040804130201818647" := Scenario.received]} : gmap string Bundle) !! m = Some bm ->
     status bm = "RECEIVED" ->
     (forall id b, ({["040804130201818647" := Scenario.received]} : gmap string Bundle)
                     !! id = Some b -> status b = "RECEIVED" -> id = m) ->
     run_next_queued Scenario.env_ok "local" Scenario.w_received = (Ok (ReturnRun rd), w1) ->
     (exists client,
        wes_calls w1 = (wes_calls Scenario.w_received ++
                        [StartRun client (wf (data bm)) (jsonyaml (data bm))
                           (attachments (data bm))])%list) /\
     bundle_at (queue_file w1) "local" m =
       Some (mkBundle "SUBMITTED" (data bm) (wf_id bm) (type bm) (sample bm) (Some rd)) /\
     run_next_queued Scenario.env_ok "local" w1 = (Ok ReturnFalse, w1)).
Proof.
  split.
  - vm_compute. reflexivity.
  - apply (run_next_queued_smallest Scenario.env_ok "local"
             {["040804130201818647" := Scenario.received]} Scenario.w_received).
    vm_compute. reflexivity.
Defined.

(** Two calls in sequence on a queue with one [RECEIVED] submission: the
    first returns the run data, the second returns [False], and one start
    request was sent in all. *)
Example run_next_queued_twice :
  fst (run_next_queued Scenario.env_ok "local" Scenario.w_received) =
    Ok (ReturnRun (mkRun "run-1" "Sat Aug  4 13:02:01 2018" None None)) /\
  fst (run_next_queued Scenario.env_ok "local"
         (snd (run_next_queued Scenario.env_ok "local" Scenario.w_received))) =
    Ok ReturnFalse /\
  wes_calls (snd (run_next_queued Scenario.env_ok "local"
                    (snd (run_next_queued Scenario.env_ok "local" Scenario.w_received)))) =
    [StartRun "http://localhost:8080" "md5sum.cwl" "md5sum.cwl.json"
       ["md5sum.input"; "dockstore-tool-md5sum.cwl"]].
Proof. repeat split; vm_compute; reflexivity. Qed.

(** C7, on the code. The queue file is empty, so that no [RECEIVED]
    submission exists for the configured endpoint ["local"]: the call does
    not return [False], it raises [KeyError]. *)
Theorem run_next_queued_unknown_endpoint :
  (forall id, bundle_at (queue_file Scenario.w_empty) "local" id = None) /\
  wes_config Scenario.env_ok !! "local" = Some "http://localhost:8080" /\
  run_next_queued Scenario.env_ok "local" Scenario.w_empty =
    (Raise (KeyError "local"), Scenario.w_empty).
Proof. repeat split; vm_compute; reflexivity. Qed.

(** ** One pass of the monitor over an endpoint *)

Section MonitorFacts.

Variable env : Env.

Lemma update_submission_run_eq wes_id id bundles b r k v w :
  queue_file w !! wes_id = Some bundles -> bundles !! id = Some b ->
  run b = Some r ->
  update_submission_run wes_id id k v w =
  (Ok tt,
   mkWorld (<[wes_id := <[id := mkBundle (status b) (data b) (wf_id b) (type b)
                                   (sample b) (Some (set_run_key k v r))]> bundles]>
              (queue_file w))
           (ticks w) (wes_calls w) (displayed w)).
Proof.
  intros H1 H2 H3. unfold update_submission_run. run_m.
  run_with H1. run_with H2. rewrite H3. reflexivity.
Qed.

(** One iteration on a submission whose record in the file is the one
    loaded at the start of the pass. *)
Lemma monitor_step_spec wf_service client bundles id b acc w :
  queue_file w !! wf_service = Some bundles -> bundles !! id = Some b ->
  wes_config env !! wf_service = Some client ->
  (forall r, run b = Some r -> answers_or_down env client (run_id r)) ->
  exists row b' w',
    monitor_step env wf_service acc (id, b) w =
      (Ok (setdefault_set wf_service id row acc), w') /\
    queue_file w' = <[wf_service := <[id := b']> bundles]> (queue_file w) /\
    polled env client b b' row.
Proof.
  intros Hq Hb Hc Hans. unfold monitor_step, polled.
  assert (<[wf_service := <[id := b]> bundles]> (queue_file w) = queue_file w) as Hid
    by (rewrite (insert_id bundles) by done; by apply insert_id).
  destruct (run b) as [r|] eqn:Hrun.
  - specialize (Hans r eq_refl). unfold answers_or_down in Hans.
    unfold try_except_ConnectionError, poll_run, client_get_workflow_run_status.
    run_m. run_with Hc.
    destruct (get_workflow_run_status env client (run_id r)) as [e|st] eqn:Hst.
    + destruct e; try done. run_m.
      exists (connection_error_row b), b. eexists. split; [reflexivity|].
      cbn [queue_file]. by rewrite Hid.
    + run_m. destruct (is_active st) eqn:Hact; run_m.
      * rewrite (update_submission_run_eq wf_service id bundles b r) by done.
        run_m. do 3 eexists. split; [reflexivity|]. cbn [queue_file].
        split; [reflexivity|]. eexists. split; [by eexists|]. done.
      * destruct (elapsed_time r) as [e0|] eqn:He; run_m;
          rewrite (update_submission_run_eq wf_service id bundles b r) by done;
          run_m; do 3 eexists; (split; [reflexivity|]); cbn [queue_file];
          (split; [reflexivity|]); eexists; (split; [reflexivity|]); done.
  - run_m. exists (queued_row b), b. eexists. split; [reflexivity|].
    by rewrite Hid.
Qed.

(** One iteration on a submission whose status request fails with
    [ConnectionError]: the iteration ends normally with the
    ['ConnectionError'] row, and the request is all the world has seen. *)
Lemma monitor_step_down wf_service client id b r acc w :
  run b = Some r ->
  wes_config env !! wf_service = Some client ->
  get_workflow_run_status env client (run_id r) = inl ConnectionError ->
  monitor_step env wf_service acc (id, b) w =
  (Ok (setdefault_set wf_service id (connection_error_row b) acc),
   requested (GetStatus client (run_id r)) w).
Proof.
  intros Hrun Hc Hdown. unfold monitor_step. rewrite Hrun.
  unfold try_except_ConnectionError, poll_run, client_get_workflow_run_status.
  run_m. run_with Hc. rewrite Hdown. reflexivity.
Qed.

(** The loop of [monitor_service] over submissions whose records in the
    file are the ones loaded at the start of the pass. *)
Lemma monitor_loop_spec wf_service client :
  wes_config env !! wf_service = Some client ->
  forall (l : list (string * Bundle)) acc bundles w,
    NoDup l.*1 ->
    queue_file w !! wf_service = Some bundles ->
    (forall id b, (id, b) ∈ l -> bundles !! id = Some b) ->
    (forall id b r, (id, b) ∈ l -> run b = Some r ->
                    answers_or_down env client (run_id r)) ->
    exists sd bundles' w',
      for_each (monitor_step env wf_service) l acc w = (Ok sd, w') /\
      queue_file w' = <[wf_service := bundles']> (queue_file w) /\
      (forall id, id ∉ l.*1 ->
         bundles' !! id = bundles !! id /\
         row_at sd wf_service id = row_at acc wf_service id) /\
      (forall id b, (id, b) ∈ l ->
         exists b' row,
           bundles' !! id = Some b' /\ row_at sd wf_service id = Some row /\
           polled env client b b' row).
Proof.
  intros Hc. induction l as [|[id b] l IH]; intros acc bundles w Hnd Hq Hin Hans.
  - exists acc, bundles, w. split; [reflexivity|]. split.
    + symmetry. by apply insert_id.
    + split; [done|]. intros ? ? ?%elem_of_nil. done.
  - apply NoDup_cons in Hnd as [Hfresh Hnd]. cbn [fmap list_fmap fst] in Hfresh.
    destruct (monitor_step_spec wf_service client bundles id b acc w)
      as (row & b' & w1 & Hstep & Hq1 & Hpolled);
      [done | apply Hin; left | done | intros r; apply (Hans id b); left |].
    assert (queue_file w1 !! wf_service = Some (<[id := b']> bundles)) as Hq1'
      by (rewrite Hq1; apply lookup_insert_eq).
    destruct (IH (setdefault_set wf_service id row acc) (<[id := b']> bundles) w1)
      as (sd & bundles' & w' & Hloop & Hq' & Hout & Hins); [done | done | | |].
    { intros id2 b2 Hin2. rewrite lookup_insert_ne; [apply Hin; by right|].
      intros ->. apply Hfresh. apply list_elem_of_fmap. by exists (id2, b2). }
    { intros id2 b2 r Hin2. apply (Hans id2 b2). by right. }
    exists sd, bundles', w'. split.
    { cbn [for_each]. unfold bind. by rewrite Hstep. }
    split.
    { by rewrite Hq', Hq1, insert_insert_eq. }
    split.
    + intros id2 Hid2. cbn [fmap list_fmap fst] in Hid2.
      apply not_elem_of_cons in Hid2 as [Hne Hid2].
      destruct (Hout id2 Hid2) as [-> ->]. split.
      * by apply lookup_insert_ne.
      * rewrite lookup2_setdefault_set. rewrite decide_False; [done|].
        intros [_ ?]. by apply Hne.
    + intros id2 b2 [[= -> ->]|Hin2]%elem_of_cons.
      * destruct (Hout id Hfresh) as [Hb' Hrow]. exists b', row.
        rewrite Hb', Hrow, lookup_insert_eq, lookup2_setdefault_set.
        by rewrite decide_True.
      * by apply Hins.
Qed.

(** A pass over an endpoint that has an entry in the queue file and in
    the configuration, with every status request answered or failing with
    [ConnectionError]: the pass returns its table, with a row for each
    submission, and the file holds the polled records. *)
Lemma monitor_service_spec wf_service client bundles w :
  queue_file w !! wf_service = Some bundles ->
  wes_config env !! wf_service = Some client ->
  (forall id b r, bundles !! id = Some b -> run b = Some r ->
                  answers_or_down env client (run_id r)) ->
  exists sd w',
    monitor_service env wf_service w = (Ok sd, w') /\
    forall id b, bundles !! id = Some b ->
      exists b' row,
        bundle_at (queue_file w') wf_service id = Some b' /\
        row_at sd wf_service id = Some row /\
        polled env client b b' row.
Proof.
  intros Hq Hc Hans.
  destruct (monitor_loop_spec wf_service client Hc (map_to_list bundles) ∅ bundles w)
    as (sd & bundles' & w' & Hloop & Hq' & _ & Hins).
  - apply NoDup_fst_map_to_list.
  - done.
  - intros id b. apply elem_of_map_to_list.
  - intros id b r Hin. apply (Hans id b). by apply elem_of_map_to_list.
  - exists sd, w'. split.
    + unfold monitor_service. run_m. run_with Hq. exact Hloop.
    + intros id b Hb.
      destruct (Hins id b) as (b' & row & Hb' & Hrow & Hp);
        [by apply elem_of_map_to_list|].
      exists b', row. rewrite Hq', lookup2_insert, decide_True by done. done.
Qed.

End MonitorFacts.

(** C5. When the status request of the submission [id] fails with
    [ConnectionError], its iteration of the loop of [monitor_service] ends
    normally, with the row that marks it out of reach (['ConnectionError']
    as workflow, the sample name, and ['-'] for the run id, the run
    status, the start time and the elapsed time) and the queue file as it
    was, so the loop goes on. For the whole pass (the other requests being
    answered or failing in the same way): the pass returns its table, the
    record of [id] in the file is the one it was, the row of [id] is that
    row, and every submission of the endpoint has been polled and has its
    row. *)
Theorem connection_error_keeps_state env wf_service client bundles id b r w :
  queue_file w !! wf_service = Some bundles -> bundles !! id = Some b ->
  run b = Some r ->
  wes_config env !! wf_service = Some client ->
  get_workflow_run_status env client (run_id r) = inl ConnectionError ->
  (forall id' b' r', bundles !! id' = Some b' -> run b' = Some r' ->
                     answers_or_down env client (run_id r')) ->
  (forall acc w0,
     exists w1,
       monitor_step env wf_service acc (id, b) w0 =
         (Ok (setdefault_set wf_service id
                (Row.mk "ConnectionError" "-" (sample b) "-" "-" "-") acc), w1) /\
       queue_file w1 = queue_file w0) /\
  exists sd w',
    monitor_service env wf_service w = (Ok sd, w') /\
    bundle_at (queue_file w') wf_service id = Some b /\
    row_at sd wf_service id =
      Some (Row.mk "ConnectionError" "-" (sample b) "-" "-" "-") /\
    forall id0 b0, bundles !! id0 = Some b0 ->
      exists b1 row,
        bundle_at (queue_file w') wf_service id0 = Some b1 /\
        row_at sd wf_service id0 = Some row /\
        polled env client b0 b1 row.
Proof.
  intros Hq Hb Hrun Hc Hdown Hans. split.
  { intros acc w0. eexists. split; [by eapply monitor_step_down|]. reflexivity. }
  destruct (monitor_service_spec env wf_service client bundles w Hq Hc Hans)
    as (sd & w' & Hms & Hall).
  exists sd, w'. split; [done|].
  destruct (Hall id b Hb) as (b' & row & Hb' & Hrow & Hp).
  unfold polled in Hp. rewrite Hrun, Hdown in Hp. destruct Hp as [-> ->].
  done.
Qed.

Lemma connection_error_keeps_state_witness :
  (queue_file Scenario.w_two !! "local" = Some Scenario.two_submitted /\
   Scenario.two_submitted !! "040804130201818647" = Some Scenario.submitted /\
   run Scenario.submitted = Some Scenario.a_run /\
   wes_config Scenario.env_partial !! "local" = Some "http://localhost:8080" /\
   get_workflow_run_status Scenario.env_partial "http://localhost:8080"
     (run_id Scenario.a_run) = inl ConnectionError) /\
  (forall acc w0,
     exists w1,
       monitor_step Scenario.env_partial "local" acc
           ("040804130201818647", Scenario.submitted) w0 =
         (Ok (setdefault_set "local" "040804130201818647"
                (Row.mk "ConnectionError" "-" "NA" "-" "-" "-") acc), w1) /\
       queue_file w1 = queue_file w0) /\
  exists sd w',
    monitor_service Scenario.env_partial "local" Scenario.w_two = (Ok sd, w') /\
    bundle_at (queue_file w') "local" "040804130201818647" = Some Scenario.submitted /\
    row_at sd "local" "040804130201818647" =
      Some (Row.mk "ConnectionError" "-" "NA" "-" "-" "-") /\
    forall id0 b0, Scenario.two_submitted !! id0 = Some b0 ->
      exists b1 row,
        bundle_at (queue_file w') "local" id0 = Some b1 /\
        row_at sd "local" id0 = Some row /\
        polled Scenario.env_partial "http://localhost:8080" b0 b1 row.
Proof.
  split.
  - repeat split; vm_compute; reflexivity.
  - apply (connection_error_keeps_state Scenario.env_partial "local"
             "http://localhost:8080" Scenario.two_submitted "040804130201818647"
             Scenario.submitted Scenario.a_run Scenario.w_two);
      [vm_compute; reflexivity .. |].
    intros id' b' r' _ _. unfold answers_or_down.
    cbn [get_workflow_run_status Scenario.env_partial].
    destruct (String.eqb (run_id r') "run-0"); exact I.
Defined.

(** The pass over the two dispatched submissions of ["local"], with
    ["run-0"] out of reach: its record is untouched and the other one has
    been polled, in one and the same pass. *)
Example connection_error_pass_goes_on :
  fst (monitor_service Scenario.env_partial "local" Scenario.w_two) =
    Ok {["local" :=
          {["040804130201818647" := Row.mk "ConnectionError" "-" "NA" "-" "-" "-";
            "040804130201818648" :=
              Row.mk "md5sum" "run-1" "NA" "RUNNING" "Sat Aug  4 13:02:01 2018"
                     "0h:0m:1s"]}]} /\
  bundle_at (queue_file (snd (monitor_service Scenario.env_partial "local" Scenario.w_two)))
    "local" "040804130201818647" = Some Scenario.submitted /\
  bundle_at (queue_file (snd (monitor_service Scenario.env_partial "local" Scenario.w_two)))
    "local" "040804130201818648" =
    Some (with_elapsed Scenario.submitted_later Scenario.another_run "0h:0m:1s").
Proof. repeat split; vm_compute; reflexivity. Qed.

(** C4, as the code has it. A pass of [monitor_service] that reads for the
    submission [id] a state other than [QUEUED], [INITIALIZING] and
    [RUNNING] (with the other requests of the pass answered or failing
    with [ConnectionError]) writes as elapsed time the value the record
    already had, or ['0h:0m:0s'] when it had none, and reports it with the
    state read in the row of [id]; the status of the record and the state
    kept in its run are what they were. *)
Theorem finished_run_freezes_elapsed_time env wf_service client bundles id b r st w :
  queue_file w !! wf_service = Some bundles -> bundles !! id = Some b ->
  run b = Some r ->
  wes_config env !! wf_service = Some client ->
  get_workflow_run_status env client (run_id r) = inr st ->
  is_active st = false ->
  (forall id' b' r', bundles !! id' = Some b' -> run b' = Some r' ->
                     answers_or_down env client (run_id r')) ->
  exists sd w' b',
    monitor_service env wf_service w = (Ok sd, w') /\
    bundle_at (queue_file w') wf_service id = Some b' /\
    status b' = status b /\
    run b' = Some (mkRun (run_id r) (start_time r) (state r)
                         (Some (default "0h:0m:0s" (elapsed_time r)))) /\
    row_at sd wf_service id =
      Some (Row.mk (wf_id b) (run_id r) (sample b) st (start_time r)
                   (default "0h:0m:0s" (elapsed_time r))).
Proof.
  intros Hq Hb Hrun Hc Hst Hact Hans.
  destruct (monitor_service_spec env wf_service client bundles w Hq Hc Hans)
    as (sd & w' & Hms & Hall).
  destruct (Hall id b Hb) as (b' & row & Hb' & Hrow & Hp).
  unfold polled in Hp. rewrite Hrun, Hst, Hact in Hp.
  destruct Hp as (etime & -> & -> & ->).
  exists sd, w'. eexists. split; [done|]. split; [exact Hb'|]. done.
Qed.

Lemma finished_run_freezes_elapsed_time_witness :
  (queue_file Scenario.w_submitted !! "local" =
     Some {["040804130201818647" := Scenario.submitted]} /\
   ({["040804130201818647" := Scenario.submitted]} : gmap string Bundle)
     !! "040804130201818647" = Some Scenario.submitted /\
   run Scenario.submitted = Some Scenario.a_run /\
   wes_config Scenario.env_done !! "local" = Some "http://localhost:8080" /\
   get_workflow_run_status Scenario.env_done "http://localhost:8080"
     (run_id Scenario.a_run) = inr "COMPLETE" /\
   is_active "COMPLETE" = false) /\
  exists sd w' b',
    monitor_service Scenario.env_done "local" Scenario.w_submitted = (Ok sd, w') /\
    bundle_at (queue_file w') "local" "040804130201818647" = Some b' /\
    status b' = status Scenario.submitted /\
    run b' = Some (mkRun (run_id Scenario.a_run) (start_time Scenario.a_run)
                         (state Scenario.a_run)
                         (Some (default "0h:0m:0s" (elapsed_time Scenario.a_run)))) /\
    row_at sd "local" "040804130201818647" =
      Some (Row.mk (wf_id Scenario.submitted) (run_id Scenario.a_run)
                   (sample Scenario.submitted) "COMPLETE" (start_time Scenario.a_run)
                   (default "0h:0m:0s" (elapsed_time Scenario.a_run))).
Proof.
  split.
  - repeat split; vm_compute; reflexivity.
  - apply (finished_run_freezes_elapsed_time Scenario.env_done "local"
             "http://localhost:8080" {["040804130201818647" := Scenario.submitted]}
             "040804130201818647" Scenario.submitted Scenario.a_run "COMPLETE"
             Scenario.w_submitted);
      [vm_compute; reflexivity .. |].
    intros id' b' r' _ _. exact I.
Defined.

(** C4, as stated, fails: the endpoint reports ["COMPLETE"] for the run of
    a [SUBMITTED] submission; after the pass the row shows ["COMPLETE"],
    and the record in the file is the one it was, its status still
    [SUBMITTED] and no state kept in its run. *)
Lemma finished_run_status_not_advanced :
  get_workflow_run_status Scenario.env_done "http://localhost:8080" "run-0" =
    inr "COMPLETE" /\
  monitor_service Scenario.env_done "local" Scenario.w_submitted =
    (Ok {["local" :=
           {["040804130201818647" :=
               Row.mk "md5sum" "run-0" "NA" "COMPLETE" "Sat Aug  4 13:00:00 2018"
                      "0h:1m:0s"]}]},
     mkWorld (Scenario.single Scenario.submitted) 0
             [GetStatus "http://localhost:8080" "run-0"] []) /\
  bundle_at (Scenario.single Scenario.submitted) "local" "040804130201818647" =
    Some (mkBundle "SUBMITTED" Scenario.md5sum_data "md5sum" "CWL" "NA"
            (Some (mkRun "run-0" "Sat Aug  4 13:00:00 2018" None (Some "0h:1m:0s")))) /\
  "SUBMITTED" <> "COMPLETE".
Proof. repeat split; try (vm_compute; reflexivity). discriminate. Qed.

(** ** The run record and the status *)

Section Preserves.

Variable P : Queue -> Prop.

Lemma preserves_silent {A} (c : M A) :
  (forall w, queue_file (snd (c w)) = queue_file w) -> preserves P c.
Proof. intros H w Hw. by rewrite H. Qed.

Lemma preserves_bind {A B} (c : M A) (k : A -> M B) :
  preserves P c -> (forall a, preserves P (k a)) -> preserves P (bind c k).
Proof.
  intros Hc Hk w Hw. unfold bind. specialize (Hc w Hw).
  destruct (c w) as [[a|e] w']; [by apply Hk | done].
Qed.

Lemma preserves_try {A} (body handler : M A) :
  preserves P body -> preserves P handler ->
  preserves P (try_except_ConnectionError body handler).
Proof.
  intros Hb Hh w Hw. unfold try_except_ConnectionError. specialize (Hb w Hw).
  destruct (body w) as [[a|[]] w']; try done. by apply Hh.
Qed.

Lemma preserves_for_each {A B} (body : B -> A -> M B) :
  (forall acc x, preserves P (body acc x)) ->
  forall l acc, preserves P (for_each body l acc).
Proof.
  intros Hbody. induction l as [|x l IH]; intros acc; cbn [for_each].
  - by apply preserves_silent.
  - apply preserves_bind; [apply Hbody | intros acc'; apply IH].
Qed.

Lemma preserves_getitem {V} k (d : gmap string V) : preserves P (getitem k d).
Proof. apply preserves_silent. intros w. unfold getitem. by destruct (d !! k). Qed.

Lemma preserves_of_remote {A} (r : exn + A) : preserves P (of_remote r).
Proof. apply preserves_silent. intros w. by destruct r. Qed.

End Preserves.

Section Invariant.

Variable env : Env.

Lemma run_iff_not_received_setdefault_set q wes_id id b :
  run_iff_not_received q -> consistent b ->
  run_iff_not_received (setdefault_set wes_id id b q).
Proof.
  intros Hq Hb k i b'. rewrite lookup2_setdefault_set.
  case_decide; [by intros [= <-] | apply Hq].
Qed.

Lemma run_iff_not_received_insert (q : Queue) wes_id bundles id b :
  run_iff_not_received q -> q !! wes_id = Some bundles -> consistent b ->
  run_iff_not_received (<[wes_id := <[id := b]> bundles]> q).
Proof.
  intros Hq Hbundles Hb k i b'. rewrite lookup2_insert.
  case_decide as Hk; [subst k | apply Hq].
  rewrite lookup_insert. case_decide; [by intros [= <-]|].
  intros Hi. apply (Hq wes_id i). apply lookup2_Some. eauto.
Qed.

Lemma create_submission_preserves wes_id d ty name smp :
  preserves run_iff_not_received (create_submission env wes_id d ty name smp).
Proof.
  intros w Hw. rewrite create_submission_eq. cbn [snd queue_file].
  by apply run_iff_not_received_setdefault_set.
Qed.

Lemma queue_preserves service name j smp attach :
  preserves run_iff_not_received (queue env service name j smp attach).
Proof.
  unfold queue. apply preserves_bind; [apply preserves_getitem|].
  intros wf_. apply create_submission_preserves.
Qed.

(** A dispatch leaves the file as it was or with the one record
    dispatched. *)
Lemma run_submission_file wes_id id w :
  queue_file (snd (run_submission env wes_id id w)) = queue_file w \/
  exists bundles b r,
    queue_file w !! wes_id = Some bundles /\
    queue_file (snd (run_submission env wes_id id w)) =
      <[wes_id := <[id := mkBundle "SUBMITTED" (data b) (wf_id b) (type b) (sample b)
                                     (Some r)]> bundles]> (queue_file w).
Proof.
  destruct (queue_file w !! wes_id) as [bundles|] eqn:H1;
    [|left; by rewrite run_submission_no_endpoint].
  destruct (bundles !! id) as [b|] eqn:H2;
    [|left; by rewrite (run_submission_no_bundle env _ _ bundles)].
  destruct (wes_config env !! wes_id) as [client|] eqn:H3;
    [|left; by rewrite (run_submission_no_client env _ _ bundles b)].
  destruct (run_workflow env client (wf (data b)) (jsonyaml (data b))
              (attachments (data b))) as [e|rid] eqn:H4.
  - left. by rewrite (run_submission_failed env _ _ bundles b client e).
  - right. rewrite (run_submission_ok env _ _ bundles b client rid) by done.
    exists bundles, b. eexists. split; [done | reflexivity].
Qed.

Lemma run_submission_preserves wes_id id :
  preserves run_iff_not_received (run_submission env wes_id id).
Proof.
  intros w Hw.
  destruct (run_submission_file wes_id id w) as [-> | (bundles & b & r & Hq & ->)];
    [done|].
  apply run_iff_not_received_insert; [done | done |].
  unfold consistent. cbn [run status]. split; discriminate.
Qed.

Lemma no_queue_run_preserves service name j smp attach :
  preserves run_iff_not_received (no_queue_run env service name j smp attach).
Proof.
  unfold no_queue_run. apply preserves_bind; [apply queue_preserves|].
  intros id. apply preserves_bind; [apply run_submission_preserves|].
  intros _. by apply preserves_silent.
Qed.

Lemma get_submissions_silent wes_id st w :
  queue_file (snd (get_submissions wes_id st w)) = queue_file w.
Proof.
  unfold get_submissions. run_m. by destruct (queue_file w !! wes_id).
Qed.

Lemma run_next_queued_preserves wf_service :
  preserves run_iff_not_received (run_next_queued env wf_service).
Proof.
  unfold run_next_queued. apply preserves_bind.
  - apply preserves_silent, get_submissions_silent.
  - intros l. destruct l as [|x l]; [by apply preserves_silent|].
    destruct (sorted (x :: l)) as [|m r]; [by apply preserves_silent|].
    apply preserves_bind; [apply run_submission_preserves|].
    intros rd. by apply preserves_silent.
Qed.

Lemma update_submission_run_preserves wes_id id k v :
  preserves run_iff_not_received (update_submission_run wes_id id k v).
Proof.
  intros w Hw. unfold update_submission_run. run_m.
  destruct (queue_file w !! wes_id) as [bundles|] eqn:H1; run_m; [|done].
  destruct (bundles !! id) as [b|] eqn:H2; run_m; [|done].
  destruct (run b) as [r|] eqn:H3; run_m; [|done].
  apply run_iff_not_received_insert; [done | done |].
  assert (consistent b) as Hb by (apply (Hw wes_id id), lookup2_Some; eauto).
  unfold consistent in *. cbn [run status]. rewrite H3 in Hb.
  split; [discriminate | intros Hst; by apply Hb in Hst].
Qed.

Lemma poll_run_preserves wf_service id b r :
  preserves run_iff_not_received (poll_run env wf_service id b r).
Proof.
  unfold poll_run. apply preserves_bind; [apply preserves_getitem|].
  intros client. apply preserves_bind.
  { unfold client_get_workflow_run_status. apply preserves_bind;
      [by apply preserves_silent | intros _; apply preserves_of_remote]. }
  intros st. apply preserves_bind.
  { destruct (is_active st).
    - apply preserves_bind; [by apply preserves_silent | intros; by apply preserves_silent].
    - destruct (elapsed_time r); by apply preserves_silent. }
  intros etime. apply preserves_bind; [apply update_submission_run_preserves|].
  intros _. by apply preserves_silent.
Qed.

Lemma monitor_service_preserves wf_service :
  preserves run_iff_not_received (monitor_service env wf_service).
Proof.
  unfold monitor_service. apply preserves_bind; [by apply preserves_silent|].
  intros submissions. apply preserves_bind; [apply preserves_getitem|].
  intros bundles. apply preserves_for_each. intros acc [id b].
  unfold monitor_step. apply preserves_bind; [|intros; by apply preserves_silent].
  destruct (run b) as [r|]; [|by apply preserves_silent].
  apply preserves_try; [apply poll_run_preserves | by apply preserves_silent].
Qed.

Lemma monitor_pass_preserves :
  preserves run_iff_not_received (monitor_pass env).
Proof.
  unfold monitor_pass. apply preserves_bind; [by apply preserves_silent|].
  intros submissions. apply preserves_bind.
  - apply preserves_for_each. intros acc wf_service.
    apply preserves_bind; [apply monitor_service_preserves|].
    intros; by apply preserves_silent.
  - intros statuses. apply preserves_bind; [by apply preserves_silent | intros; by apply preserves_silent].
Qed.

Lemma perform_preserves op w :
  run_iff_not_received (queue_file w) ->
  run_iff_not_received (queue_file (perform env op w)).
Proof.
  destruct op; cbn [perform].
  - apply create_submission_preserves.
  - apply queue_preserves.
  - apply no_queue_run_preserves.
  - apply run_submission_preserves.
  - apply run_next_queued_preserves.
  - apply monitor_service_preserves.
  - apply monitor_pass_preserves.
Qed.

End Invariant.

Lemma run_iff_not_received_empty : run_iff_not_received ∅.
Proof. intros k i b H. by apply lookup2_Some in H as (? & ?%lookup_empty_Some & _). Qed.

Lemma run_iff_not_received_single b :
  consistent b -> run_iff_not_received (Scenario.single b).
Proof.
  intros Hb k i b' H. apply lookup2_Some in H as (inner & Hk & Hi).
  unfold Scenario.single in Hk.
  apply lookup_singleton_Some in Hk as [_ <-].
  by apply lookup_singleton_Some in Hi as [_ <-].
Qed.

(** Between the two writes of [run_submission] the file holds the run
    with the status still [RECEIVED]: the first write alone does not keep
    the property. *)
Example run_written_before_status :
  ~ run_iff_not_received
      (queue_file (snd (update_submission "local" "040804130201818647"
                          (run_param Scenario.a_run) Scenario.w_received))).
Proof.
  intros H.
  destruct (H "local" "040804130201818647"
              (mkBundle "RECEIVED" Scenario.md5sum_data "md5sum" "CWL" "NA"
                        (Some Scenario.a_run))) as [_ Hrun].
  - vm_compute. reflexivity.
  - by specialize (Hrun eq_refl).
Qed.

(** C6. Every operation of the module that writes the queue file
    (creation, queueing, queue-and-run, dispatch of one submission or of
    the next queued one, a monitoring pass over one endpoint or over all)
    started on a file in which each submission has a run exactly when its
    status is not [RECEIVED] leaves such a file, whether it returns or
    raises. *)
Theorem operations_keep_run_iff_not_received env op w :
  run_iff_not_received (queue_file w) ->
  run_iff_not_received (queue_file (perform env op w)).
Proof. apply perform_preserves. Qed.

Lemma operations_keep_run_iff_not_received_witness :
  run_iff_not_received (queue_file Scenario.w_received) /\
  run_iff_not_received
    (queue_file (perform Scenario.env_ok (RunNextQueued "local") Scenario.w_received)).
Proof.
  assert (run_iff_not_received (queue_file Scenario.w_received)) as H.
  { apply run_iff_not_received_single. split; reflexivity. }
  split; [exact H|].
  apply (operations_keep_run_iff_not_received Scenario.env_ok (RunNextQueued "local")
           Scenario.w_received H).
Defined.

(** Starting from the empty queue file, whatever operations are performed
    and however each of them ends, the property holds of the file. *)
Lemma reachable_run_iff_not_received env (ops : list Operation) :
  run_iff_not_received
    (queue_file (foldl (fun w op => perform env op w) Scenario.w_empty ops)).
Proof.
  assert (forall w, run_iff_not_received (queue_file w) ->
            run_iff_not_received
              (queue_file (foldl (fun w op => perform env op w) w ops))) as H.
  { induction ops as [|op ops IH]; intros w Hw; [done|].
    cbn [foldl]. apply IH. by apply perform_preserves. }
  apply H, run_iff_not_received_empty.
Qed.

(** ** The monitor loop *)

Section MonitorLoop.

Variable env : Env.

(** The body of the loop never asks to leave it. *)
Lemma monitor_pass_goes_round w a : fst (monitor_pass env w) <> Ok (Some a).
Proof.
  unfold monitor_pass, bind at 1. cbn [get_json].
  unfold bind at 1.
  destruct (for_each _ _ _ _) as [[statuses|e] w']; [|done].
  unfold bind, display, ret. cbn. done.
Qed.

(** [monitor] has no way to return: after any number of iterations it is
    still running, unless an exception has left it. *)
Lemma monitor_never_returns fuel w a : fst (monitor env fuel w) <> Returned a.
Proof.
  unfold monitor. revert w. induction fuel as [|fuel IH]; intros w; cbn [loop]; [done|].
  pose proof (monitor_pass_goes_round w) as Hpass.
  destruct (monitor_pass env w) as [[[a'|]|e] w']; cbn [fst] in *.
  - by destruct (Hpass a').
  - apply IH.
  - done.
Qed.

Lemma legacy_rows_running current wf_service l :
  forall acc w sd w',
    all_running acc ->
    for_each (Legacy.row_step env current wf_service) l acc w = (Ok sd, w') ->
    all_running sd.
Proof.
  induction l as [|[id b] l IH]; intros acc w sd w' Hacc Hrun; cbn [for_each] in Hrun.
  - by injection Hrun as <- _.
  - unfold bind in Hrun.
    destruct (Legacy.row_step env current wf_service acc (id, b) w)
      as [[acc'|e] w1] eqn:Hstep; [|done].
    eapply IH; [|exact Hrun].
    unfold Legacy.row_step in Hstep. destruct (run b) as [r|].
    + unfold bind, getitem in Hstep.
      destruct (wes_config env !! wf_service); [|done].
      injection Hstep as <- _. intros k i row. rewrite lookup2_setdefault_set.
      case_decide; [by intros [= <-] | apply Hacc].
    + by injection Hstep as <- _.
Qed.

Lemma legacy_statuses_running current submissions l :
  forall acc w statuses w',
    Forall all_running acc ->
    for_each (Legacy.service_step env current submissions) l acc w = (Ok statuses, w') ->
    Forall all_running statuses.
Proof.
  induction l as [|wf_service l IH]; intros acc w statuses w' Hacc Hrun;
    cbn [for_each] in Hrun.
  - by injection Hrun as <- _.
  - unfold bind at 1 in Hrun. unfold Legacy.service_step at 1 in Hrun.
    unfold bind at 1, getitem in Hrun.
    destruct (submissions !! wf_service) as [bundles|]; [|done].
    cbn [ret] in Hrun. unfold bind at 1 in Hrun.
    destruct (for_each (Legacy.row_step env current wf_service) _ ∅ w)
      as [[sd|e] w1] eqn:Hrows; [|done].
    cbn [ret] in Hrun. eapply IH; [|exact Hrun].
    apply Forall_app. split; [done|]. apply Forall_singleton.
    eapply legacy_rows_running; [|exact Hrows].
    intros k i row H. by apply lookup2_Some in H as (? & ?%lookup_empty_Some & _).
Qed.

Lemma legacy_column_running statuses x :
  Forall all_running statuses -> x ∈ Legacy.run_status_column statuses ->
  x = "RUNNING".
Proof.
  intros Hall Hx. unfold Legacy.run_status_column in Hx.
  apply list_elem_of_In, in_flat_map in Hx as (sd & Hsd & Hx).
  apply in_flat_map in Hx as ([k inner] & Hk & Hx).
  apply in_map_iff in Hx as ([id row] & <- & Hrow).
  apply list_elem_of_In in Hsd, Hk, Hrow.
  apply elem_of_map_to_list in Hk, Hrow. cbn [snd] in *.
  rewrite Forall_forall in Hall. apply (Hall sd Hsd k id row).
  apply lookup2_Some. eauto.
Qed.

(** The earlier [monitor] never reaches its ["Done!"]: the table has no
    rows and selecting the column raises, or a row says ["RUNNING"] and
    the function calls itself. *)
Lemma legacy_monitor_table_again submissions w r w' :
  Legacy.monitor_table env submissions w = (Ok r, w') -> r = true.
Proof.
  unfold Legacy.monitor_table. unfold bind at 1. cbn [datetime_now].
  unfold bind at 1.
  destruct (for_each _ _ _ _) as [[statuses|e] w1] eqn:Hloop; [|done].
  unfold bind at 1, display.
  pose proof (legacy_statuses_running _ _ _ _ _ _ _ (Forall_nil_2 _) Hloop) as Hall.
  destruct (Legacy.run_status_column statuses) as [|x col] eqn:Hcol; [done|].
  assert (x = "RUNNING") as ->
    by (eapply legacy_column_running; [exact Hall | rewrite Hcol; left]).
  cbn [ret existsb]. by intros [= <- _].
Qed.

Lemma legacy_monitor_never_returns fuel submissions w a :
  fst (Legacy.monitor env fuel submissions w) <> Returned a.
Proof.
  revert submissions w. induction fuel as [|fuel IH]; intros submissions w;
    cbn [Legacy.monitor]; [done|].
  destruct (Legacy.monitor_table env submissions w) as [[[|]|e] w'] eqn:Htable.
  - apply IH.
  - by apply legacy_monitor_table_again in Htable.
  - done.
Qed.

End MonitorLoop.

(** On the queue with one [COMPLETE] submission and an endpoint that
    reports ["COMPLETE"], a pass changes neither the file nor the clock:
    it sends one status request and shows one table. *)
Lemma monitor_pass_when_done n calls frames :
  monitor_pass Scenario.env_done
    (mkWorld (Scenario.single Scenario.complete) n calls frames) =
  (Ok None,
   mkWorld (Scenario.single Scenario.complete) n
     (calls ++ [GetStatus "http://localhost:8080" "run-0"])
     (frames ++ [Table [{["local" :=
                           {["040804130201818647" :=
                               Row.mk "md5sum" "run-0" "NA" "COMPLETE"
                                      "Sat Aug  4 13:00:00 2018" "0h:1m:0s"]}]}]])).
Proof. vm_compute. reflexivity. Qed.

Lemma legacy_monitor_table_when_done n calls frames :
  Legacy.monitor_table Scenario.env_done (Scenario.single Scenario.complete)
    (mkWorld (Scenario.single Scenario.complete) n calls frames) =
  (Ok true,
   mkWorld (Scenario.single Scenario.complete) (S n) calls
     (frames ++ [LegacyTable [{["local" :=
                                 {["040804130201818647" :=
                                     LegacyRow.mk "md5sum" "RUNNING" "local"
                                       "Sat Aug  4 13:00:00 2018"
                                       (inl "0h:0m:1s")]}]}]])).
Proof. vm_compute. reflexivity. Qed.

(** C9, on the code. The queue holds one submission, [COMPLETE], and the
    endpoint reports ["COMPLETE"] for its run: whatever the number of
    iterations, [monitor] is still running, and so is the earlier
    [monitor] of the other copy of the module. *)
Theorem monitor_polls_forever_when_all_terminal fuel :
  fst (monitor Scenario.env_done fuel Scenario.w_complete) = Running /\
  fst (Legacy.monitor Scenario.env_done fuel (queue_file Scenario.w_complete)
         Scenario.w_complete) = Running.
Proof.
  unfold Scenario.w_complete, Scenario.world_of. cbn [queue_file].
  generalize (@nil Call) (@nil Frame) O. intros calls frames n. split.
  - revert calls frames. unfold monitor.
    induction fuel as [|fuel IH]; intros calls frames; cbn [loop]; [done|].
    rewrite monitor_pass_when_done. apply IH.
  - revert n frames.
    induction fuel as [|fuel IH]; intros n frames; cbn [Legacy.monitor]; [done|].
    rewrite legacy_monitor_table_when_done. cbn [queue_file]. apply IH.
Qed.

(** * Further properties of the module *)

(** ** The shape of the ids *)

Section IdFacts.
Import Clock.

Lemma zpad_length k n : String.length (zpad k n) = k.
Proof.
  revert n. induction k as [|k IH]; intros n; cbn [zpad String.length]; [done|].
  by rewrite IH.
Qed.

Lemma append_length (s t : string) :
  String.length (s ++ t)%string = (String.length s + String.length t)%nat.
Proof.
  induction s as [|c s IH]; [done|].
  rewrite ClockFacts.append_String. cbn [String.length Nat.add]. by rewrite IH.
Qed.

Lemma compare_refl_string (s : string) : String.compare s s = Eq.
Proof.
  pose proof (String.compare_antisym s s) as H.
  by destruct (String.compare s s).
Qed.

Lemma ids_compare_fields t1 t2 :
  valid t1 -> valid t2 ->
  String.compare (submission_id_of t1) (submission_id_of t2) =
  compare_fields (id_fields t1) (id_fields t2).
Proof.
  intros V1 V2. rewrite ClockFacts.submission_id_compare by done.
  unfold id_fields. cbn [compare_fields]. by rewrite ClockFacts.lex_Eq.
Qed.

Lemma compare_fields_Eq t1 t2 :
  compare_fields (id_fields t1) (id_fields t2) = Eq <-> id_fields t1 = id_fields t2.
Proof.
  unfold id_fields. cbn [compare_fields]. split.
  - intros H.
    destruct (Z.compare_spec (day t1) (day t2)); cbn [lex] in H; try done.
    destruct (Z.compare_spec (month t1) (month t2)); cbn [lex] in H; try done.
    destruct (Z.compare_spec (hour t1) (hour t2)); cbn [lex] in H; try done.
    destruct (Z.compare_spec (minute t1) (minute t2)); cbn [lex] in H; try done.
    destruct (Z.compare_spec (second t1) (second t2)); cbn [lex] in H; try done.
    destruct (Z.compare_spec (microsecond t1) (microsecond t2)); cbn [lex] in H;
      try done.
    congruence.
  - intros [= -> -> -> -> -> ->]. by rewrite !Z.compare_refl.
Qed.

End IdFacts.

(** X1. An id is 18 characters long, whatever the reading: two digits for the
    day, the month, the day again, the hour, the minute and the second,
    and six for the microsecond. *)
Theorem submission_id_has_18_characters t :
  String.length (submission_id_of t) = 18%nat.
Proof.
  unfold submission_id_of, submission_id_format. cbn [Clock.strftime Clock.render].
  rewrite !append_length, !zpad_length. reflexivity.
Qed.

(** X2. For valid readings, one id is smaller than another as a string exactly
    when its reading comes first by day of the month, then month, hour,
    minute, second and microsecond: the day weighs more than the month,
    and the year is not looked at. *)
Theorem submission_id_order_is_day_first t1 t2 :
  Clock.valid t1 -> Clock.valid t2 ->
  (str_lt (submission_id_of t1) (submission_id_of t2) = true <->
   compare_fields (id_fields t1) (id_fields t2) = Lt).
Proof.
  intros V1 V2. unfold str_lt, String.ltb. rewrite ids_compare_fields by done.
  by destruct (compare_fields _ _).
Qed.

Lemma submission_id_order_is_day_first_witness :
  (Clock.valid Scenario.feb1 /\ Clock.valid Scenario.jan31) /\
  (str_lt (submission_id_of Scenario.feb1) (submission_id_of Scenario.jan31) = true <->
   compare_fields (id_fields Scenario.feb1) (id_fields Scenario.jan31) = Lt).
Proof.
  assert (Clock.valid Scenario.feb1) as V1 by (repeat split; vm_compute; congruence).
  assert (Clock.valid Scenario.jan31) as V2 by (repeat split; vm_compute; congruence).
  split; [by split|].
  exact (submission_id_order_is_day_first Scenario.feb1 Scenario.jan31 V1 V2).
Defined.

(** X3. For valid readings, two ids are equal exactly when the readings agree
    on day, month, hour, minute, second and microsecond; readings one year
    apart get the same id. *)
Theorem submission_ids_collide_across_years t1 t2 :
  Clock.valid t1 -> Clock.valid t2 ->
  (submission_id_of t1 = submission_id_of t2 <-> id_fields t1 = id_fields t2).
Proof.
  intros V1 V2. rewrite <- compare_fields_Eq, <- ids_compare_fields by done.
  split; [intros ->; apply compare_refl_string | apply String.compare_eq_iff].
Qed.

Lemma submission_ids_collide_across_years_witness :
  (Clock.valid Scenario.aug4 /\ Clock.valid Cases.aug4_next_year) /\
  (submission_id_of Scenario.aug4 = submission_id_of Cases.aug4_next_year <->
   id_fields Scenario.aug4 = id_fields Cases.aug4_next_year).
Proof.
  assert (Clock.valid Scenario.aug4) as V1 by (repeat split; vm_compute; congruence).
  assert (Clock.valid Cases.aug4_next_year) as V2
    by (repeat split; vm_compute; congruence).
  split; [by split|].
  exact (submission_ids_collide_across_years Scenario.aug4 Cases.aug4_next_year V1 V2).
Defined.

(** ** Reading back what was written *)

Section ReadWrite.

Variable env : Env.

Lemma get_submission_bundle_eq wes_id id bundles b w :
  queue_file w !! wes_id = Some bundles -> bundles !! id = Some b ->
  get_submission_bundle wes_id id w = (Ok b, w).
Proof.
  intros H1 H2. unfold get_submission_bundle. run_m. run_with H1. run_with H2.
  reflexivity.
Qed.


Lemma ids_with_status_NoDup st (bundles : gmap string Bundle) :
  NoDup (ids_with_status st bundles).
Proof.
  unfold ids_with_status.
  eapply sublist_NoDup; [apply (NoDup_fst_map_to_list bundles)|].
  apply fmap_sublist, sublist_filter.
Qed.

End ReadWrite.

(** X4. A submission that has just been created can be read back and is
    listed among the [RECEIVED] submissions of its endpoint, whatever the
    queue file held before. *)
Theorem created_submission_is_read_back env wes_id d ty name smp w :
  exists id w1 l,
    create_submission env wes_id d ty name smp w = (Ok id, w1) /\
    get_submission_bundle wes_id id w1 =
      (Ok (mkBundle "RECEIVED" d name ty smp None), w1) /\
    get_submissions wes_id "RECEIVED" w1 = (Ok l, w1) /\
    id ∈ l.
Proof.
  rewrite create_submission_eq.
  set (id := submission_id_of (now env (ticks w))).
  set (b := mkBundle "RECEIVED" d name ty smp None).
  set (w1 := mkWorld _ _ _ _).
  assert (queue_file w1 !! wes_id =
            Some (<[id := b]> (default ∅ (queue_file w !! wes_id)))) as Hq
    by apply lookup_insert_eq.
  exists id, w1. eexists. split; [reflexivity|]. split.
  - eapply get_submission_bundle_eq; [exact Hq | apply lookup_insert_eq].
  - split; [by eapply get_submissions_eq|].
    apply elem_of_ids_with_status. exists b. split; [apply lookup_insert_eq | done].
Qed.

(** X5. A creation whose id is new for the endpoint loses nothing: every
    record of the file is still there, the endpoint has one submission
    more, and the other endpoints are as they were. *)
Theorem create_submission_fresh_id_adds_one env wes_id d ty name smp w :
  bundle_at (queue_file w) wes_id (submission_id_of (now env (ticks w))) = None ->
  (forall k i b,
     bundle_at (queue_file w) k i = Some b ->
     bundle_at (queue_file (snd (create_submission env wes_id d ty name smp w))) k i =
       Some b) /\
  size (default ∅ (queue_file (snd (create_submission env wes_id d ty name smp w))
                     !! wes_id)) =
    S (size (default ∅ (queue_file w !! wes_id))) /\
  forall k, k <> wes_id ->
    queue_file (snd (create_submission env wes_id d ty name smp w)) !! k =
    queue_file w !! k.
Proof.
  intros Hfresh. rewrite create_submission_eq. cbn [snd queue_file].
  set (id := submission_id_of (now env (ticks w))) in *.
  split; [|split].
  - intros k i b Hb. rewrite lookup2_setdefault_set.
    case_decide as Heq; [|done]. destruct Heq as [<- <-]. congruence.
  - unfold setdefault_set. rewrite lookup_insert_eq. cbn [default].
    apply map_size_insert_None.
    unfold lookup2 in Hfresh. destruct (queue_file w !! wes_id); [done|].
    apply lookup_empty.
  - intros k Hk. unfold setdefault_set. by apply lookup_insert_ne.
Qed.

Lemma create_submission_fresh_id_adds_one_witness :
  bundle_at (queue_file Scenario.w_submitted) "other"
    (submission_id_of (now Scenario.env_ok (ticks Scenario.w_submitted))) = None /\
  (forall k i b,
     bundle_at (queue_file Scenario.w_submitted) k i = Some b ->
     bundle_at (queue_file (snd (create_submission Scenario.env_ok "other"
                                   Scenario.md5sum_data "CWL" "md5sum" "NA"
                                   Scenario.w_submitted))) k i = Some b) /\
  size (default ∅ (queue_file (snd (create_submission Scenario.env_ok "other"
                                      Scenario.md5sum_data "CWL" "md5sum" "NA"
                                      Scenario.w_submitted)) !! "other")) =
    S (size (default ∅ (queue_file Scenario.w_submitted !! "other"))) /\
  forall k, k <> "other" ->
    queue_file (snd (create_submission Scenario.env_ok "other" Scenario.md5sum_data
                       "CWL" "md5sum" "NA" Scenario.w_submitted)) !! k =
    queue_file Scenario.w_submitted !! k.
Proof.
  split; [vm_compute; reflexivity|].
  apply (create_submission_fresh_id_adds_one Scenario.env_ok "other"
           Scenario.md5sum_data "CWL" "md5sum" "NA" Scenario.w_submitted).
  vm_compute. reflexivity.
Defined.

(** X6. For an endpoint that has an entry in the queue file, [get_submissions]
    returns, without changing anything, a list without repetition of
    exactly the ids of the submissions of that endpoint that have the
    status asked for. *)
Theorem get_submissions_lists_the_status wes_id st bundles w :
  queue_file w !! wes_id = Some bundles ->
  exists l,
    get_submissions wes_id st w = (Ok l, w) /\
    NoDup l /\
    forall id, id ∈ l <-> exists b, bundles !! id = Some b /\ status b = st.
Proof.
  intros Hq. exists (ids_with_status st bundles).
  split; [by apply get_submissions_eq|].
  split; [apply ids_with_status_NoDup | apply elem_of_ids_with_status].
Qed.

Lemma get_submissions_lists_the_status_witness :
  queue_file Scenario.w_two !! "local" = Some Scenario.two_submitted /\
  exists l,
    get_submissions "local" "SUBMITTED" Scenario.w_two = (Ok l, Scenario.w_two) /\
    NoDup l /\
    forall id, id ∈ l <->
      exists b, Scenario.two_submitted !! id = Some b /\ status b = "SUBMITTED".
Proof.
  split; [vm_compute; reflexivity|].
  apply (get_submissions_lists_the_status "local" "SUBMITTED" Scenario.two_submitted
           Scenario.w_two).
  vm_compute. reflexivity.
Defined.



(** X8. An update of a submission that is not in the queue file fails
    with [KeyError] and leaves the world as it was, and so do the reads:
    when the endpoint has no entry in the file, the key of the error is the
    endpoint; when the endpoint has an entry without the id, the key of the
    error is the id. *)
Theorem missing_submission_raises_KeyError wes_id id f k v w :
  (queue_file w !! wes_id = None ->
     update_submission wes_id id f w = (Raise (KeyError wes_id), w) /\
     update_submission_run wes_id id k v w = (Raise (KeyError wes_id), w) /\
     get_submission_bundle wes_id id w = (Raise (KeyError wes_id), w)) /\
  (forall bundles,
     queue_file w !! wes_id = Some bundles -> bundles !! id = None ->
     update_submission wes_id id f w = (Raise (KeyError id), w) /\
     update_submission_run wes_id id k v w = (Raise (KeyError id), w) /\
     get_submission_bundle wes_id id w = (Raise (KeyError id), w)).
Proof.
  unfold update_submission, update_submission_run, get_submission_bundle.
  split.
  - intros H1. run_m. rewrite H1. done.
  - intros bundles H1 H2. run_m. rewrite H1. run_m. rewrite H2. done.
Qed.

(** An endpoint without an entry, and an id that the entry of its endpoint
    does not hold. *)
Lemma missing_submission_raises_KeyError_witness :
  (queue_file Scenario.w_received !! "other" = None /\
   update_submission "other" "040804130201818647" (status_param "SUBMITTED")
     Scenario.w_received = (Raise (KeyError "other"), Scenario.w_received) /\
   update_submission_run "other" "040804130201818647" elapsed_time_key "0h:0m:0s"
     Scenario.w_received = (Raise (KeyError "other"), Scenario.w_received) /\
   get_submission_bundle "other" "040804130201818647" Scenario.w_received =
     (Raise (KeyError "other"), Scenario.w_received)) /\
  (queue_file Scenario.w_received !! "local" =
     Some {["040804130201818647" := Scenario.received]} /\
   ({["040804130201818647" := Scenario.received]} : gmap string Bundle)
     !! "040804130201818648" = None /\
   update_submission "local" "040804130201818648" (status_param "SUBMITTED")
     Scenario.w_received = (Raise (KeyError "040804130201818648"), Scenario.w_received) /\
   update_submission_run "local" "040804130201818648" elapsed_time_key "0h:0m:0s"
     Scenario.w_received = (Raise (KeyError "040804130201818648"), Scenario.w_received) /\
   get_submission_bundle "local" "040804130201818648" Scenario.w_received =
     (Raise (KeyError "040804130201818648"), Scenario.w_received)).
Proof.
  split.
  - split; [vm_compute; reflexivity|].
    apply (proj1 (missing_submission_raises_KeyError "other" "040804130201818647"
                    (status_param "SUBMITTED") elapsed_time_key "0h:0m:0s"
                    Scenario.w_received)).
    vm_compute. reflexivity.
  - split; [vm_compute; reflexivity|]. split; [vm_compute; reflexivity|].
    apply (proj2 (missing_submission_raises_KeyError "local" "040804130201818648"
                    (status_param "SUBMITTED") elapsed_time_key "0h:0m:0s"
                    Scenario.w_received)
             {["040804130201818647" := Scenario.received]});
      vm_compute; reflexivity.
Defined.

(** X9. [update_submission_run] never creates a run: for a stored submission
    without a run it raises [KeyError] on ['run'] and leaves the world as
    it was. For one with a run it sets the key it is given and keeps the
    rest of the record, the other key of the run included. *)
Theorem update_submission_run_needs_a_run wes_id id bundles b k v w :
  queue_file w !! wes_id = Some bundles -> bundles !! id = Some b ->
  match run b with
  | None => update_submission_run wes_id id k v w = (Raise (KeyError "run"), w)
  | Some r =>
      exists w1 r1,
        update_submission_run wes_id id k v w = (Ok tt, w1) /\
        get_submission_bundle wes_id id w1 =
          (Ok (mkBundle (status b) (data b) (wf_id b) (type b) (sample b) (Some r1)),
           w1) /\
        run_id r1 = run_id r /\ start_time r1 = start_time r /\
        match k with
        | state_key => state r1 = Some v /\ elapsed_time r1 = elapsed_time r
        | elapsed_time_key => elapsed_time r1 = Some v /\ state r1 = state r
        end
  end.
Proof.
  intros H1 H2. destruct (run b) as [r|] eqn:Hrun.
  - exists (mkWorld (<[wes_id := <[id := mkBundle (status b) (data b) (wf_id b)
                                           (type b) (sample b)
                                           (Some (set_run_key k v r))]> bundles]>
                       (queue_file w)) (ticks w) (wes_calls w) (displayed w)).
    exists (set_run_key k v r).
    split; [by apply update_submission_run_eq|]. split.
    + eapply get_submission_bundle_eq; cbn [queue_file]; apply lookup_insert_eq.
    + by destruct k.
  - unfold update_submission_run. run_m. run_with H1. run_with H2. by rewrite Hrun.
Qed.

Lemma update_submission_run_needs_a_run_witness :
  (queue_file Scenario.w_received !! "local" =
     Some {["040804130201818647" := Scenario.received]} /\
   ({["040804130201818647" := Scenario.received]} : gmap string Bundle)
     !! "040804130201818647" = Some Scenario.received) /\
  update_submission_run "local" "040804130201818647" elapsed_time_key "0h:0m:0s"
    Scenario.w_received = (Raise (KeyError "run"), Scenario.w_received).
Proof.
  split; [split; vm_compute; reflexivity|].
  apply (update_submission_run_needs_a_run "local" "040804130201818647"
           {["040804130201818647" := Scenario.received]} Scenario.received
           elapsed_time_key "0h:0m:0s" Scenario.w_received); vm_compute; reflexivity.
Defined.

(** ** Queueing and dispatching *)

(** X10. A queue request for a workflow that is not configured raises
    [KeyError] on the workflow name before anything is done: the world is
    as it was (nothing written, no clock read, no request sent), and the
    same holds for [no_queue_run]. *)
Theorem unknown_workflow_queues_nothing env service wf_name j smp attach w :
  wf_config env !! wf_name = None ->
  queue env service wf_name j smp attach w = (Raise (KeyError wf_name), w) /\
  no_queue_run env service wf_name j smp attach w = (Raise (KeyError wf_name), w).
Proof.
  intros H. unfold no_queue_run, bind at 1.
  by rewrite (queue_unknown env service wf_name j smp attach w H).
Qed.

Lemma unknown_workflow_queues_nothing_witness :
  wf_config Scenario.env_ok !! "sha1sum" = None /\
  queue Scenario.env_ok "local" "sha1sum" "in.json" "NA" None Scenario.w_received =
    (Raise (KeyError "sha1sum"), Scenario.w_received) /\
  no_queue_run Scenario.env_ok "local" "sha1sum" "in.json" "NA" None Scenario.w_received =
    (Raise (KeyError "sha1sum"), Scenario.w_received).
Proof.
  split; [vm_compute; reflexivity|].
  apply (unknown_workflow_queues_nothing Scenario.env_ok "local" "sha1sum" "in.json"
           "NA" None Scenario.w_received).
  vm_compute. reflexivity.
Defined.

(** X11. A queue request with a non-empty list of attachments stores that
    list, not the attachments configured for the workflow; the url and the
    type are the configured ones and the submission is [RECEIVED]. *)
Theorem queue_keeps_given_attachments env service wf_name j smp a l wf_ w :
  wf_config env !! wf_name = Some wf_ ->
  exists id w1,
    queue env service wf_name j smp (Some (a :: l)) w = (Ok id, w1) /\
    get_submission_bundle service id w1 =
      (Ok (mkBundle "RECEIVED" (mkData (workflow_url wf_) j (a :: l)) wf_name
                    (workflow_type wf_) smp None), w1).
Proof.
  intros H. rewrite (queue_eq env _ _ _ _ _ wf_) by done.
  rewrite create_submission_eq. cbn [falsy default].
  do 2 eexists. split; [reflexivity|].
  eapply get_submission_bundle_eq; cbn [queue_file]; apply lookup_insert_eq.
Qed.

Lemma queue_keeps_given_attachments_witness :
  wf_config Scenario.env_ok !! "md5sum" = Some Scenario.md5sum /\
  exists id w1,
    queue Scenario.env_ok "local" "md5sum" "in.json" "NA" (Some ["extra.input"])
      Scenario.w_empty = (Ok id, w1) /\
    get_submission_bundle "local" id w1 =
      (Ok (mkBundle "RECEIVED"
             (mkData (workflow_url Scenario.md5sum) "in.json" ["extra.input"])
             "md5sum" (workflow_type Scenario.md5sum) "NA" None), w1).
Proof.
  split; [vm_compute; reflexivity|].
  apply (queue_keeps_given_attachments Scenario.env_ok "local" "md5sum" "in.json" "NA"
           "extra.input" [] Scenario.md5sum Scenario.w_empty).
  vm_compute. reflexivity.
Defined.

(** X12. A dispatch of a submission that is not in the queue file, or on an
    endpoint that is not configured, raises [KeyError] before the start
    request: the world is as it was. *)
Theorem run_submission_fails_before_sending env wes_id id w :
  bundle_at (queue_file w) wes_id id = None \/ wes_config env !! wes_id = None ->
  exists key,
    (key = wes_id \/ key = id) /\
    run_submission env wes_id id w = (Raise (KeyError key), w).
Proof.
  intros Hmiss.
  destruct (queue_file w !! wes_id) as [bundles|] eqn:H1.
  - destruct (bundles !! id) as [b|] eqn:H2.
    + destruct Hmiss as [Hnone | Hcfg].
      * unfold lookup2 in Hnone. rewrite H1 in Hnone. cbn in Hnone. congruence.
      * exists wes_id. split; [by left|].
        by apply (run_submission_no_client env wes_id id bundles b).
    + exists id. split; [by right|].
      by apply (run_submission_no_bundle env wes_id id bundles).
  - exists wes_id. split; [by left|]. by apply run_submission_no_endpoint.
Qed.

Lemma run_submission_fails_before_sending_witness :
  (bundle_at (queue_file Scenario.w_received) "local" "040804130201818648" = None \/
   wes_config Scenario.env_ok !! "local" = None) /\
  exists key,
    (key = "local" \/ key = "040804130201818648") /\
    run_submission Scenario.env_ok "local" "040804130201818648" Scenario.w_received =
      (Raise (KeyError key), Scenario.w_received).
Proof.
  assert (bundle_at (queue_file Scenario.w_received) "local" "040804130201818648" = None \/
          wes_config Scenario.env_ok !! "local" = None) as H
    by (left; vm_compute; reflexivity).
  split; [exact H|].
  exact (run_submission_fails_before_sending Scenario.env_ok "local"
           "040804130201818648" Scenario.w_received H).
Defined.

(** X13. A dispatch whose start request is answered, for any stored submission
    of a configured endpoint: the request carries the workflow, the
    parameters and the attachments of the submission and is the only one
    sent; the clock is read once; the run returned has the id given by the
    endpoint, the reading as start time, and neither state nor elapsed
    time; the submission can be read back [SUBMITTED] with that run, and
    no other record has changed. *)
Theorem run_submission_dispatches_one env wes_id id bundles b client rid w :
  queue_file w !! wes_id = Some bundles -> bundles !! id = Some b ->
  wes_config env !! wes_id = Some client ->
  run_workflow env client (wf (data b)) (jsonyaml (data b)) (attachments (data b)) = inr rid ->
  exists w1,
    run_submission env wes_id id w =
      (Ok (mkRun rid (ctime env (now env (ticks w))) None None), w1) /\
    get_submission_bundle wes_id id w1 =
      (Ok (mkBundle "SUBMITTED" (data b) (wf_id b) (type b) (sample b)
             (Some (mkRun rid (ctime env (now env (ticks w))) None None))), w1) /\
    (forall k i, ~ (k = wes_id /\ i = id) ->
       bundle_at (queue_file w1) k i = bundle_at (queue_file w) k i) /\
    wes_calls w1 = (wes_calls w ++ [StartRun client (wf (data b)) (jsonyaml (data b))
                                      (attachments (data b))])%list /\
    ticks w1 = S (ticks w).
Proof.
  intros H1 H2 H3 H4. eexists.
  split; [by apply (run_submission_ok env wes_id id bundles b client rid)|].
  unfold dispatched. cbn [queue_file wes_calls ticks].
  split; [|split; [|done]].
  - eapply get_submission_bundle_eq; cbn [queue_file]; apply lookup_insert_eq.
  - intros k i Hne. rewrite lookup2_insert.
    case_decide as Hk; [subst k|done].
    rewrite lookup_insert_ne by (intros <-; by apply Hne).
    unfold lookup2. by rewrite H1.
Qed.

Lemma run_submission_dispatches_one_witness :
  (queue_file Scenario.w_received !! "local" =
     Some {["040804130201818647" := Scenario.received]} /\
   ({["040804130201818647" := Scenario.received]} : gmap string Bundle)
     !! "040804130201818647" = Some Scenario.received /\
   wes_config Scenario.env_ok !! "local" = Some "http://localhost:8080") /\
  exists w1,
    run_submission Scenario.env_ok "local" "040804130201818647" Scenario.w_received =
      (Ok (mkRun "run-1" "Sat Aug  4 13:02:01 2018" None None), w1) /\
    get_submission_bundle "local" "040804130201818647" w1 =
      (Ok (mkBundle "SUBMITTED" Scenario.md5sum_data "md5sum" "CWL" "NA"
             (Some (mkRun "run-1" "Sat Aug  4 13:02:01 2018" None None))), w1) /\
    (forall k i, ~ (k = "local" /\ i = "040804130201818647") ->
       bundle_at (queue_file w1) k i = bundle_at (queue_file Scenario.w_received) k i) /\
    wes_calls w1 =
      [StartRun "http://localhost:8080" "md5sum.cwl" "md5sum.cwl.json"
         ["md5sum.input"; "dockstore-tool-md5sum.cwl"]] /\
    ticks w1 = 1%nat.
Proof.
  split; [repeat split; vm_compute; reflexivity|].
  apply (run_submission_dispatches_one Scenario.env_ok "local" "040804130201818647"
           {["040804130201818647" := Scenario.received]} Scenario.received
           "http://localhost:8080" "run-1" Scenario.w_received);
    vm_compute; reflexivity.
Defined.

(** X14. [no_queue_run] with the workflow and the endpoint configured and the
    start request answered: it returns nothing, the clock was read twice
    (for the id, then for the start time), one start request was sent with
    the configured url, the parameters given and the attachments chosen by
    [queue], and the submission it has created can be read back
    [SUBMITTED] with its run. *)
Theorem no_queue_run_queues_then_dispatches
    env service wf_name j smp attach wf_ client rid w :
  wf_config env !! wf_name = Some wf_ ->
  wes_config env !! service = Some client ->
  run_workflow env client (workflow_url wf_) j
    (if falsy attach then workflow_attachments wf_ else default [] attach) = inr rid ->
  exists w1,
    no_queue_run env service wf_name j smp attach w = (Ok tt, w1) /\
    get_submission_bundle service (submission_id_of (now env (ticks w))) w1 =
      (Ok (mkBundle "SUBMITTED"
             (mkData (workflow_url wf_) j
                (if falsy attach then workflow_attachments wf_ else default [] attach))
             wf_name (workflow_type wf_) smp
             (Some (mkRun rid (ctime env (now env (S (ticks w)))) None None))), w1) /\
    wes_calls w1 =
      (wes_calls w ++
       [StartRun client (workflow_url wf_) j
          (if falsy attach then workflow_attachments wf_ else default [] attach)])%list /\
    ticks w1 = S (S (ticks w)).
Proof.
  intros Hwf Hc Hrun. unfold no_queue_run. unfold bind at 1.
  rewrite (queue_eq env _ _ _ _ _ wf_) by done. rewrite create_submission_eq.
  set (id := submission_id_of (now env (ticks w))).
  set (b := mkBundle "RECEIVED" _ _ _ _ None).
  set (w0 := mkWorld _ _ _ _).
  assert (queue_file w0 !! service =
            Some (<[id := b]> (default ∅ (queue_file w !! service)))) as Hq
    by apply lookup_insert_eq.
  unfold bind.
  rewrite (run_submission_ok env service id _ b client rid w0 Hq);
    [| apply lookup_insert_eq | done | done].
  eexists. split; [reflexivity|]. unfold dispatched. cbn [queue_file wes_calls ticks].
  split; [|done].
  eapply get_submission_bundle_eq; cbn [queue_file]; apply lookup_insert_eq.
Qed.

Lemma no_queue_run_queues_then_dispatches_witness :
  (wf_config Scenario.env_ok !! "md5sum" = Some Scenario.md5sum /\
   wes_config Scenario.env_ok !! "local" = Some "http://localhost:8080") /\
  exists w1,
    no_queue_run Scenario.env_ok "local" "md5sum" "in.json" "NA" None Scenario.w_empty =
      (Ok tt, w1) /\
    get_submission_bundle "local"
      (submission_id_of (now Scenario.env_ok (ticks Scenario.w_empty))) w1 =
      (Ok (mkBundle "SUBMITTED"
             (mkData (workflow_url Scenario.md5sum) "in.json"
                (workflow_attachments Scenario.md5sum))
             "md5sum" (workflow_type Scenario.md5sum) "NA"
             (Some (mkRun "run-1"
                      (ctime Scenario.env_ok
                         (now Scenario.env_ok (S (ticks Scenario.w_empty))))
                      None None))), w1) /\
    wes_calls w1 =
      (wes_calls Scenario.w_empty ++
       [StartRun "http://localhost:8080" (workflow_url Scenario.md5sum) "in.json"
          (workflow_attachments Scenario.md5sum)])%list /\
    ticks w1 = S (S (ticks Scenario.w_empty)).
Proof.
  split; [split; vm_compute; reflexivity|].
  apply (no_queue_run_queues_then_dispatches Scenario.env_ok "local" "md5sum" "in.json"
           "NA" None Scenario.md5sum "http://localhost:8080" "run-1" Scenario.w_empty);
    vm_compute; reflexivity.
Defined.

(** ** The queue of an endpoint, drained in order *)

Section Queue.

Variable env : Env.

(** The [RECEIVED] ids once the record of [m] has another status. *)
Lemma ids_after_status_change st (bundles : gmap string Bundle) m b' id :
  status b' <> st ->
  id ∈ ids_with_status st (<[m := b']> bundles) <->
  id ∈ ids_with_status st bundles /\ id <> m.
Proof.
  intros Hst. rewrite !elem_of_ids_with_status. split.
  - intros (b & Hb & Hb'). rewrite lookup_insert in Hb. case_decide as Hm.
    + injection Hb as <-. done.
    + split; [eauto | by intros ->].
  - intros [(b & Hb & Hb') Hne]. exists b. by rewrite lookup_insert_ne.
Qed.

Lemma ids_Permutation_after_status_change st (bundles : gmap string Bundle) m bm b' :
  bundles !! m = Some bm -> status bm = st -> status b' <> st ->
  m :: ids_with_status st (<[m := b']> bundles) ≡ₚ ids_with_status st bundles.
Proof.
  intros Hm Hbm Hb'. apply NoDup_Permutation.
  - apply NoDup_cons. split; [|apply ids_with_status_NoDup].
    rewrite ids_after_status_change by done. tauto.
  - apply ids_with_status_NoDup.
  - intros id. rewrite elem_of_cons, ids_after_status_change by done. split.
    + intros [->|[? _]]; [|done]. apply elem_of_ids_with_status. eauto.
    + intros Hin. destruct (decide (id = m)); tauto.
Qed.

Lemma loop_leaves_at_once {A} fuel (a : A) w :
  loop (S fuel) (ret (Some a)) w = (Returned a, w).
Proof. reflexivity. Qed.

Lemma loop_goes_round {A} fuel w : loop fuel (ret (@None A)) w = (Running, w).
Proof. induction fuel as [|fuel IH]; [done|]. cbn [loop ret]. exact IH. Qed.

(** The first dispatch of [run_next_queued] on an endpoint with a
    [RECEIVED] submission whose start request is answered. *)
Lemma run_next_queued_first wf_service client bundles w :
  queue_file w !! wf_service = Some bundles ->
  wes_config env !! wf_service = Some client ->
  (exists id b, bundles !! id = Some b /\ status b = "RECEIVED") ->
  (forall id b, bundles !! id = Some b -> status b = "RECEIVED" ->
     exists rid, run_workflow env client (wf (data b)) (jsonyaml (data b))
                   (attachments (data b)) = inr rid) ->
  exists m bm r,
    bundles !! m = Some bm /\ status bm = "RECEIVED" /\
    (forall id, id ∈ ids_with_status "RECEIVED" bundles -> str_le m id) /\
    run_next_queued env wf_service w =
      (Ok (ReturnRun r), dispatched wf_service m client bundles bm r w).
Proof.
  intros Hq Hc Hsome Hstart.
  destruct (run_next_queued_some env wf_service bundles w Hq Hsome)
    as (m & bm & Hm & Hst & Hmin & Heq).
  destruct (Hstart m bm Hm Hst) as (rid & Hrid).
  exists m, bm, (mkRun rid (ctime env (now env (ticks w))) None None).
  split; [done|]. split; [done|]. split.
  - intros id (b & Hb & Hb')%elem_of_ids_with_status. by apply (Hmin id b).
  - rewrite Heq. unfold bind.
    by rewrite (run_submission_ok env wf_service m bundles bm client rid).
Qed.

Variable get_status : string -> exn + string.

Lemma wait_for_complete_done : wait_for_complete "COMPLETE" = ret (Some tt).
Proof. reflexivity. Qed.

Lemma wait_for_complete_not_done st :
  st <> "COMPLETE" -> wait_for_complete st = ret None.
Proof.
  intros Hst. unfold wait_for_complete.
  destruct (String.eqb_spec st "COMPLETE"); [done | reflexivity].
Qed.

(** The loop of [run_all] on one endpoint, when every run is reported
    ['COMPLETE'] and every start request is answered. *)
Lemma run_all_service_spec wf_service client :
  wes_config env !! wf_service = Some client ->
  (forall rid, get_status rid = inr "COMPLETE") ->
  forall n fuel w bundles,
    queue_file w !! wf_service = Some bundles ->
    length (ids_with_status "RECEIVED" bundles) = n ->
    (n < fuel)%nat ->
    (forall id b, bundles !! id = Some b -> status b = "RECEIVED" ->
       exists rid, run_workflow env client (wf (data b)) (jsonyaml (data b))
                     (attachments (data b)) = inr rid) ->
    exists (order : list (string * Bundle)) bundles' w',
      run_all_service env get_status fuel wf_service w = (Returned tt, w') /\
      queue_file w' = <[wf_service := bundles']> (queue_file w) /\
      drained bundles bundles' /\
      wes_calls w' =
        (wes_calls w ++ ((fun p => start_request client (snd p)) <$> order))%list /\
      (forall id b, (id, b) ∈ order -> bundles !! id = Some b) /\
      order.*1 ≡ₚ ids_with_status "RECEIVED" bundles /\
      StronglySorted str_le order.*1 /\
      displayed w' = displayed w /\
      ticks w' = (ticks w + n)%nat.
Proof.
  intros Hc Hdone. induction n as [|n IH]; intros fuel w bundles Hq Hlen Hfuel Hstart.
  - destruct fuel as [|fuel]; [lia|].
    apply length_zero_iff_nil in Hlen.
    assert (forall id b, bundles !! id = Some b -> status b <> "RECEIVED") as Hnone.
    { intros id b Hb Hst.
      assert (id ∈ ids_with_status "RECEIVED" bundles) as Hin
        by (apply elem_of_ids_with_status; eauto).
      rewrite Hlen in Hin. by apply elem_of_nil in Hin. }
    exists [], bundles, w. cbn [run_all_service].
    rewrite (run_next_queued_none env wf_service bundles w Hq Hnone).
    split; [done|]. split; [symmetry; by apply insert_id|]. split.
    { intros id. destruct (bundles !! id) as [b|] eqn:Hb; [|done].
      rewrite decide_False; [done | by apply (Hnone id)]. }
    rewrite Hlen. cbn. rewrite app_nil_r, Nat.add_0_r.
    repeat split; try done; [intros ? ? ?%elem_of_nil; done | constructor].
  - destruct fuel as [|fuel]; [lia|].
    assert (exists id b, bundles !! id = Some b /\ status b = "RECEIVED") as Hsome.
    { destruct (ids_with_status "RECEIVED" bundles) as [|id l] eqn:E; [done|].
      assert (id ∈ ids_with_status "RECEIVED" bundles) as Hin by (rewrite E; left).
      apply elem_of_ids_with_status in Hin as (b & ? & ?). eauto. }
    destruct (run_next_queued_first wf_service client bundles w Hq Hc Hsome Hstart)
      as (m & bm & r & Hm & Hst & Hmin & Hrun).
    set (w1 := dispatched wf_service m client bundles bm r w) in *.
    set (bundles1 := <[m := dispatched_record bm r]> bundles).
    assert (queue_file w1 !! wf_service = Some bundles1) as Hq1
      by apply lookup_insert_eq.
    pose proof (ids_Permutation_after_status_change "RECEIVED" bundles m bm
                  (dispatched_record bm r) Hm Hst ltac:(done)) as Hperm.
    fold bundles1 in Hperm.
    destruct (IH fuel w1 bundles1) as
      (order & bundles' & w' & Hloop & Hq' & Hdr & Hcalls & Hord & Hp & Hs & Hd & Ht);
      [done | | lia | |].
    { apply Permutation_length in Hperm. cbn [length] in Hperm. lia. }
    { intros id b. unfold bundles1. rewrite lookup_insert. case_decide.
      - intros [= <-]. done.
      - apply Hstart. }
    assert (forall id, id ∈ order.*1 -> id ∈ ids_with_status "RECEIVED" bundles /\ id <> m)
      as Hin1.
    { intros id Hid. rewrite Hp in Hid. unfold bundles1 in Hid.
      by apply ids_after_status_change in Hid. }
    exists ((m, bm) :: order), bundles', w'. split.
    { cbn [run_all_service]. rewrite Hrun. cbn [run_id]. rewrite Hdone.
      destruct fuel as [|fuel']; [lia|].
      rewrite wait_for_complete_done, loop_leaves_at_once. exact Hloop. }
    split.
    { rewrite Hq'. unfold w1, dispatched. cbn [queue_file].
      by rewrite insert_insert_eq. }
    split.
    { intros id. specialize (Hdr id). unfold bundles1 in Hdr.
      rewrite lookup_insert in Hdr. case_decide as Hid.
      - subst id. rewrite Hm, decide_True by done.
        rewrite decide_False in Hdr by done. eauto.
      - exact Hdr. }
    split.
    { rewrite Hcalls. unfold w1, dispatched. cbn [wes_calls fmap list_fmap snd].
      by rewrite <- app_assoc. }
    split.
    { intros id b [[= -> ->]|Hin]%elem_of_cons; [done|].
      specialize (Hord id b Hin). unfold bundles1 in Hord.
      rewrite lookup_insert_ne in Hord; [done|].
      intros <-. destruct (Hin1 m); [|done].
      apply list_elem_of_fmap. by exists (m, b). }
    split.
    { cbn [fmap list_fmap fst]. by rewrite Hp. }
    split.
    { cbn [fmap list_fmap fst]. apply SSorted_cons; [done|].
      apply Forall_forall. intros id Hid. apply Hmin, Hin1. exact Hid. }
    split; [by rewrite Hd|].
    rewrite Ht. unfold w1, dispatched. cbn [ticks]. lia.
Qed.

End Queue.

Section RunAll.

Variable env : Env.
Variable get_status : string -> exn + string.

Lemma drained_nothing_queued (q : Queue) wf_service bundles bundles' :
  q !! wf_service = Some bundles' -> drained bundles bundles' ->
  nothing_queued q wf_service.
Proof.
  intros Hq Hdr id b Hb. unfold lookup2 in Hb. rewrite Hq in Hb. cbn in Hb.
  specialize (Hdr id). destruct (bundles !! id) as [b0|]; [|congruence].
  case_decide as Hst.
  - destruct Hdr as (r & Hr). rewrite Hr in Hb. by injection Hb as <-.
  - rewrite Hdr in Hb. by injection Hb as <-.
Qed.

(** The loop of [run_all] over the endpoints, under the same conditions. *)
Lemma run_all_services_spec fuel :
  (forall rid, get_status rid = inr "COMPLETE") ->
  forall services w,
    NoDup services ->
    (forall wf_service, wf_service ∈ services ->
       exists client bundles,
         wes_config env !! wf_service = Some client /\
         queue_file w !! wf_service = Some bundles /\
         (length (ids_with_status "RECEIVED" bundles) < fuel)%nat /\
         forall id b, bundles !! id = Some b -> status b = "RECEIVED" ->
           exists rid, run_workflow env client (wf (data b)) (jsonyaml (data b))
                         (attachments (data b)) = inr rid) ->
    exists w',
      run_all_services env get_status fuel services w = (Returned tt, w') /\
      (forall wf_service, wf_service ∈ services ->
         exists bundles bundles',
           queue_file w !! wf_service = Some bundles /\
           queue_file w' !! wf_service = Some bundles' /\
           drained bundles bundles') /\
      (forall k, k ∉ services -> queue_file w' !! k = queue_file w !! k) /\
      displayed w' = displayed w.
Proof.
  intros Hdone. induction services as [|s services IH]; intros w Hnd Hready.
  - exists w. split; [done|]. split; [intros ? ?%elem_of_nil; done | done].
  - apply NoDup_cons in Hnd as [Hfresh Hnd].
    destruct (Hready s) as (client & bundles & Hc & Hq & Hlen & Hstart); [left|].
    destruct (run_all_service_spec env get_status s client Hc Hdone _ fuel w bundles
                Hq eq_refl Hlen Hstart)
      as (order & bundles' & w1 & Hrun & Hq1 & Hdr & _ & _ & _ & _ & Hd1 & _).
    destruct (IH w1 Hnd) as (w' & Hrest & Hin & Hout & Hd').
    { intros s2 Hs2. destruct (Hready s2) as (c2 & b2 & ? & Hq2 & ? & ?); [by right|].
      exists c2, b2. repeat split; try done.
      rewrite Hq1, lookup_insert_ne; [done | by intros ->]. }
    exists w'. split; [cbn [run_all_services]; by rewrite Hrun|]. split.
    + intros s2 [->|Hs2]%elem_of_cons.
      * exists bundles, bundles'. split; [done|]. split; [|done].
        rewrite (Hout s Hfresh), Hq1. apply lookup_insert_eq.
      * destruct (Hin s2 Hs2) as (b2 & b2' & Hq2 & ? & ?).
        exists b2, b2'. split; [|done].
        rewrite Hq1, lookup_insert_ne in Hq2; [done | by intros ->].
    + split; [|congruence].
      intros k [Hne Hk]%not_elem_of_cons.
      rewrite (Hout k Hk), Hq1. by apply lookup_insert_ne.
Qed.

End RunAll.

(** X15. A call of [run_next_queued] that returns run data has dispatched a
    [RECEIVED] submission whose id is the smallest, and has taken it, and
    nothing else, off the [RECEIVED] submissions of the endpoint. *)
Theorem run_next_queued_removes_the_smallest env wf_service bundles rd w w1 :
  queue_file w !! wf_service = Some bundles ->
  run_next_queued env wf_service w = (Ok (ReturnRun rd), w1) ->
  exists m bundles1,
    m ∈ ids_with_status "RECEIVED" bundles /\
    (forall id, id ∈ ids_with_status "RECEIVED" bundles -> str_le m id) /\
    queue_file w1 !! wf_service = Some bundles1 /\
    bundles1 !! m = (fun b => dispatched_record b rd) <$> bundles !! m /\
    (forall id, id ∈ ids_with_status "RECEIVED" bundles1 <->
                id ∈ ids_with_status "RECEIVED" bundles /\ id <> m) /\
    S (length (ids_with_status "RECEIVED" bundles1)) =
      length (ids_with_status "RECEIVED" bundles).
Proof.
  intros Hq Hrun.
  assert (exists id b, bundles !! id = Some b /\ status b = "RECEIVED") as Hsome.
  { destruct (ids_with_status "RECEIVED" bundles) as [|id l] eqn:E.
    - rewrite (run_next_queued_none env wf_service bundles w Hq) in Hrun; [done|].
      intros id b Hb Hst.
      assert (id ∈ ids_with_status "RECEIVED" bundles) as Hin
        by (apply elem_of_ids_with_status; eauto).
      rewrite E in Hin. by apply elem_of_nil in Hin.
    - assert (id ∈ ids_with_status "RECEIVED" bundles) as Hin by (rewrite E; left).
      apply elem_of_ids_with_status in Hin as (b & ? & ?). eauto. }
  destruct (run_next_queued_some env wf_service bundles w Hq Hsome)
    as (m & bm & Hm & Hst & Hmin & Heq).
  rewrite Heq in Hrun. unfold bind, ret in Hrun.
  destruct (run_submission env wf_service m w) as [[rd'|e] w'] eqn:Erun; [|done].
  injection Hrun as <- <-.
  apply run_submission_inv in Erun as (bundles' & b & client & Hq' & Hb & Hc & ->).
  rewrite Hq in Hq'. injection Hq' as <-. rewrite Hm in Hb. injection Hb as <-.
  exists m, (<[m := dispatched_record bm rd']> bundles).
  split; [apply elem_of_ids_with_status; eauto|]. split.
  { intros id (b & Hb & Hb')%elem_of_ids_with_status. by apply (Hmin id b). }
  split; [apply lookup_insert_eq|]. split; [by rewrite lookup_insert_eq, Hm|]. split.
  - intros id. by apply ids_after_status_change.
  - pose proof (ids_Permutation_after_status_change "RECEIVED" bundles m bm
                  (dispatched_record bm rd') Hm Hst ltac:(done)) as Hperm.
    by apply Permutation_length in Hperm.
Qed.

Lemma run_next_queued_removes_the_smallest_witness :
  (queue_file Cases.w_two_received !! "local" = Some Cases.two_received /\
   run_next_queued Scenario.env_ok "local" Cases.w_two_received =
     (Ok (ReturnRun (mkRun "run-1" "Sat Aug  4 13:02:01 2018" None None)),
      dispatched "local" "040804130201818647" "http://localhost:8080"
        Cases.two_received Scenario.received
        (mkRun "run-1" "Sat Aug  4 13:02:01 2018" None None) Cases.w_two_received)) /\
  exists m bundles1,
    m ∈ ids_with_status "RECEIVED" Cases.two_received /\
    (forall id, id ∈ ids_with_status "RECEIVED" Cases.two_received -> str_le m id) /\
    queue_file
      (dispatched "local" "040804130201818647" "http://localhost:8080"
         Cases.two_received Scenario.received
         (mkRun "run-1" "Sat Aug  4 13:02:01 2018" None None) Cases.w_two_received)
      !! "local" = Some bundles1 /\
    bundles1 !! m =
      (fun b => dispatched_record b (mkRun "run-1" "Sat Aug  4 13:02:01 2018" None None))
        <$> Cases.two_received !! m /\
    (forall id, id ∈ ids_with_status "RECEIVED" bundles1 <->
                id ∈ ids_with_status "RECEIVED" Cases.two_received /\ id <> m) /\
    S (length (ids_with_status "RECEIVED" bundles1)) =
      length (ids_with_status "RECEIVED" Cases.two_received).
Proof.
  split; [split; vm_compute; reflexivity|].
  apply (run_next_queued_removes_the_smallest Scenario.env_ok "local" Cases.two_received
           (mkRun "run-1" "Sat Aug  4 13:02:01 2018" None None) Cases.w_two_received);
    vm_compute; reflexivity.
Defined.

(** X16. The loop of [run_all] on one configured endpoint, when every start
    request is answered and every run is reported ['COMPLETE']: given more
    iterations than there are [RECEIVED] submissions, it returns; the
    start requests it has sent are those of the [RECEIVED] submissions,
    each once, in increasing order of id; each of them is [SUBMITTED] with
    a run afterwards and every other record is as it was; the clock was
    read once per dispatch and nothing was displayed. *)
Theorem run_all_dispatches_in_id_order env get_status fuel wf_service client bundles w :
  wes_config env !! wf_service = Some client ->
  (forall rid, get_status rid = inr "COMPLETE") ->
  queue_file w !! wf_service = Some bundles ->
  (length (ids_with_status "RECEIVED" bundles) < fuel)%nat ->
  (forall id b, bundles !! id = Some b -> status b = "RECEIVED" ->
     exists rid, run_workflow env client (wf (data b)) (jsonyaml (data b))
                   (attachments (data b)) = inr rid) ->
  exists (order : list (string * Bundle)) bundles' w',
    run_all_service env get_status fuel wf_service w = (Returned tt, w') /\
    queue_file w' = <[wf_service := bundles']> (queue_file w) /\
    drained bundles bundles' /\
    wes_calls w' =
      (wes_calls w ++ ((fun p => start_request client (snd p)) <$> order))%list /\
    (forall id b, (id, b) ∈ order -> bundles !! id = Some b) /\
    order.*1 ≡ₚ ids_with_status "RECEIVED" bundles /\
    StronglySorted str_le order.*1 /\
    displayed w' = displayed w /\
    ticks w' = (ticks w + length (ids_with_status "RECEIVED" bundles))%nat.
Proof.
  intros Hc Hdone Hq Hlen Hstart.
  by apply (run_all_service_spec env get_status wf_service client Hc Hdone _ fuel w
              bundles Hq eq_refl Hlen Hstart).
Qed.

Lemma run_all_dispatches_in_id_order_witness :
  (wes_config Scenario.env_ok !! "local" = Some "http://localhost:8080" /\
   queue_file Cases.w_two_received !! "local" = Some Cases.two_received /\
   (length (ids_with_status "RECEIVED" Cases.two_received) < 3)%nat) /\
  exists (order : list (string * Bundle)) bundles' w',
    run_all_service Scenario.env_ok Cases.status_complete 3 "local"
      Cases.w_two_received = (Returned tt, w') /\
    queue_file w' = <["local" := bundles']> (queue_file Cases.w_two_received) /\
    drained Cases.two_received bundles' /\
    wes_calls w' =
      (wes_calls Cases.w_two_received ++
       ((fun p => start_request "http://localhost:8080" (snd p)) <$> order))%list /\
    (forall id b, (id, b) ∈ order -> Cases.two_received !! id = Some b) /\
    order.*1 ≡ₚ ids_with_status "RECEIVED" Cases.two_received /\
    StronglySorted str_le order.*1 /\
    displayed w' = displayed Cases.w_two_received /\
    ticks w' =
      (ticks Cases.w_two_received +
       length (ids_with_status "RECEIVED" Cases.two_received))%nat.
Proof.
  split; [repeat split; vm_compute; reflexivity|].
  apply (run_all_dispatches_in_id_order Scenario.env_ok Cases.status_complete 3 "local"
           "http://localhost:8080" Cases.two_received Cases.w_two_received).
  - vm_compute. reflexivity.
  - reflexivity.
  - vm_compute. reflexivity.
  - vm_compute. lia.
  - intros id b _ _. by exists "run-1".
Defined.

(** X17. [run_all], when every configured endpoint has an entry in the queue
    file, every start request is answered and every run is reported
    ['COMPLETE']: given more iterations than any endpoint has [RECEIVED]
    submissions, it returns; on every configured endpoint each [RECEIVED]
    submission is [SUBMITTED] with a run afterwards, every other record is
    as it was and nothing is left [RECEIVED]; the endpoints that are not
    configured are as they were. *)
Theorem run_all_drains_every_configured_endpoint env get_status fuel w :
  (forall rid, get_status rid = inr "COMPLETE") ->
  (forall wf_service client,
     wes_config env !! wf_service = Some client ->
     exists bundles,
       queue_file w !! wf_service = Some bundles /\
       (length (ids_with_status "RECEIVED" bundles) < fuel)%nat /\
       forall id b, bundles !! id = Some b -> status b = "RECEIVED" ->
         exists rid, run_workflow env client (wf (data b)) (jsonyaml (data b))
                       (attachments (data b)) = inr rid) ->
  exists w',
    run_all env get_status fuel w = (Returned tt, w') /\
    (forall wf_service, is_Some (wes_config env !! wf_service) ->
       nothing_queued (queue_file w') wf_service /\
       exists bundles bundles',
         queue_file w !! wf_service = Some bundles /\
         queue_file w' !! wf_service = Some bundles' /\
         drained bundles bundles') /\
    (forall k, wes_config env !! k = None -> queue_file w' !! k = queue_file w !! k).
Proof.
  intros Hdone Hready.
  assert (forall s, s ∈ (map_to_list (wes_config env)).*1 <->
                    is_Some (wes_config env !! s)) as Hkeys.
  { intros s. rewrite list_elem_of_fmap. split.
    - intros ([s' c] & -> & Hin). apply elem_of_map_to_list in Hin. by eexists.
    - intros [c Hc]. exists (s, c). split; [done | by apply elem_of_map_to_list]. }
  destruct (run_all_services_spec env get_status fuel Hdone
              (map_to_list (wes_config env)).*1 w) as (w' & Hrun & Hin & Hout & _).
  - apply NoDup_fst_map_to_list.
  - intros s [c Hc]%Hkeys. destruct (Hready s c Hc) as (bundles & ? & ? & ?).
    by exists c, bundles.
  - exists w'. split; [exact Hrun|]. split.
    + intros s Hs. destruct (Hin s) as (bundles & bundles' & ? & ? & ?);
        [by apply Hkeys|].
      split; [by eapply drained_nothing_queued | eauto].
    + intros k Hk. apply Hout. rewrite Hkeys, Hk. by intros [? ?].
Qed.

Lemma run_all_drains_every_configured_endpoint_witness :
  exists w',
    run_all Scenario.env_ok Cases.status_complete 3 Cases.w_two_received =
      (Returned tt, w') /\
    (forall wf_service, is_Some (wes_config Scenario.env_ok !! wf_service) ->
       nothing_queued (queue_file w') wf_service /\
       exists bundles bundles',
         queue_file Cases.w_two_received !! wf_service = Some bundles /\
         queue_file w' !! wf_service = Some bundles' /\
         drained bundles bundles') /\
    (forall k, wes_config Scenario.env_ok !! k = None ->
       queue_file w' !! k = queue_file Cases.w_two_received !! k).
Proof.
  apply (run_all_drains_every_configured_endpoint Scenario.env_ok Cases.status_complete
           3 Cases.w_two_received).
  - reflexivity.
  - intros wf_service client Hc.
    unfold Scenario.env_ok, Scenario.endpoint in Hc. cbn [wes_config] in Hc.
    apply lookup_singleton_Some in Hc as [<- <-].
    exists Cases.two_received. split; [vm_compute; reflexivity|].
    split; [vm_compute; lia|]. intros id b _ _. by exists "run-1".
Defined.

(** ** Where [run_all] stops *)

Section RunAllStops.

Variable env : Env.

(** With a status service that gives the same answers at every call, the
    run with counted calls is the run of [run_all]. *)
Lemma run_all_service_reads_constant get_status wf_service :
  forall fuel reads w,
    forget_reads (run_all_service_reads env (fun _ => get_status) fuel wf_service reads w) =
      run_all_service env get_status fuel wf_service w.
Proof.
  induction fuel as [|fuel IH]; intros reads w; [done|].
  cbn [run_all_service_reads run_all_service].
  destruct (run_next_queued env wf_service w) as [[[|r|]|e] w1]; try done.
  destruct (get_status (run_id r)) as [e|st]; [done|].
  destruct (loop fuel (wait_for_complete st) w1) as [[|u|e] w2];
    [done | apply IH | done].
Qed.

Lemma run_all_services_reads_constant get_status fuel :
  forall services reads w,
    forget_reads (run_all_services_reads env (fun _ => get_status) fuel services reads w) =
      run_all_services env get_status fuel services w.
Proof.
  induction services as [|s services IH]; intros reads w; [done|].
  cbn [run_all_services_reads run_all_services].
  rewrite <- (run_all_service_reads_constant get_status s fuel reads w).
  destruct (run_all_service_reads env (fun _ => get_status) fuel s reads w)
    as [[|u|e] [reads1 w1]]; [done | apply IH | done].
Qed.

Lemma run_all_reads_constant get_status fuel reads w :
  forget_reads (run_all_reads env (fun _ => get_status) fuel reads w) =
    run_all env get_status fuel w.
Proof. apply run_all_services_reads_constant. Qed.

Variable answers : nat -> string -> exn + string.

Lemma run_all_service_reads_waits wf_service client bundles st reads w :
  queue_file w !! wf_service = Some bundles ->
  wes_config env !! wf_service = Some client ->
  (exists id b, bundles !! id = Some b /\ status b = "RECEIVED") ->
  (forall id b, bundles !! id = Some b -> status b = "RECEIVED" ->
     exists rid, run_workflow env client (wf (data b)) (jsonyaml (data b))
                   (attachments (data b)) = inr rid) ->
  (forall rid, answers reads rid = inr st) -> st <> "COMPLETE" ->
  exists m bm r,
    bundles !! m = Some bm /\ status bm = "RECEIVED" /\
    forall fuel,
      run_all_service_reads env answers (S fuel) wf_service reads w =
        (Running, (S reads, dispatched wf_service m client bundles bm r w)).
Proof.
  intros Hq Hc Hsome Hstart Hst Hne.
  destruct (run_next_queued_first env wf_service client bundles w Hq Hc Hsome Hstart)
    as (m & bm & r & Hm & Hbm & _ & Hrun).
  exists m, bm, r. split; [done|]. split; [done|]. intros fuel.
  cbn [run_all_service_reads]. rewrite Hrun, Hst.
  rewrite (wait_for_complete_not_done st Hne). by rewrite loop_goes_round.
Qed.

End RunAllStops.

(** X18. [run_all] reads the status of a run once, after the dispatch, and
    never again while it waits, so that a run that completes later is not
    noticed. With the calls of [get_status] counted and its answers free
    to change from one call to the next: when the configuration is not
    empty, every configured endpoint has a [RECEIVED] submission whose
    start request is answered, and the answer to the next call of
    [get_status] is not ['COMPLETE'], then whatever the later calls would
    be answered (['COMPLETE'] included), [run_all] is still running after
    any number of iterations, it has made that one call of [get_status]
    and no other, and all it has done to the world is one dispatch: one
    start request sent, one reading of the clock. *)
Theorem run_all_waits_forever_unless_complete env answers reads st w :
  wes_config env <> ∅ ->
  (forall wf_service client,
     wes_config env !! wf_service = Some client ->
     exists bundles,
       queue_file w !! wf_service = Some bundles /\
       (exists id b, bundles !! id = Some b /\ status b = "RECEIVED") /\
       forall id b, bundles !! id = Some b -> status b = "RECEIVED" ->
         exists rid, run_workflow env client (wf (data b)) (jsonyaml (data b))
                       (attachments (data b)) = inr rid) ->
  (forall rid, answers reads rid = inr st) -> st <> "COMPLETE" ->
  exists wf_service client bundles m bm r,
    wes_config env !! wf_service = Some client /\
    queue_file w !! wf_service = Some bundles /\
    bundles !! m = Some bm /\ status bm = "RECEIVED" /\
    forall fuel,
      run_all_reads env answers (S fuel) reads w =
        (Running, (S reads, dispatched wf_service m client bundles bm r w)).
Proof.
  intros Hne Hready Hst Hnc. unfold run_all_reads.
  destruct (map_to_list (wes_config env)) as [|[s c] l] eqn:El.
  { by apply map_to_list_empty_iff in El. }
  assert (wes_config env !! s = Some c) as Hc
    by (apply elem_of_map_to_list; rewrite El; left).
  destruct (Hready s c Hc) as (bundles & Hq & Hsome & Hstart).
  destruct (run_all_service_reads_waits env answers s c bundles st reads w Hq Hc Hsome
              Hstart Hst Hnc) as (m & bm & r & Hm & Hbm & Hrun).
  exists s, c, bundles, m, bm, r. repeat split; try done.
  intros fuel. cbn [fmap list_fmap fst run_all_services_reads]. by rewrite Hrun.
Qed.

(** A run that is reported ['RUNNING'] at the first call and ['COMPLETE']
    at every later one. *)
Lemma run_all_waits_forever_unless_complete_witness :
  exists wf_service client bundles m bm r,
    wes_config Scenario.env_ok !! wf_service = Some client /\
    queue_file Cases.w_two_received !! wf_service = Some bundles /\
    bundles !! m = Some bm /\ status bm = "RECEIVED" /\
    forall fuel,
      run_all_reads Scenario.env_ok Cases.status_completes_later (S fuel) 0
          Cases.w_two_received =
        (Running, (1%nat, dispatched wf_service m client bundles bm r Cases.w_two_received)).
Proof.
  apply (run_all_waits_forever_unless_complete Scenario.env_ok
           Cases.status_completes_later 0 "RUNNING" Cases.w_two_received).
  - intros H. apply (f_equal (fun m : gmap string string => m !! "local")) in H.
    vm_compute in H. discriminate.
  - intros wf_service client Hc.
    unfold Scenario.env_ok, Scenario.endpoint in Hc. cbn [wes_config] in Hc.
    apply lookup_singleton_Some in Hc as [<- <-].
    exists Cases.two_received. split; [vm_compute; reflexivity|]. split.
    + exists "040804130201818647", Scenario.received. split; vm_compute; reflexivity.
    + intros id b _ _. by exists "run-1".
  - reflexivity.
  - discriminate.
Defined.

(** X19. [run_all] visits the endpoints of the configuration, not those of the
    queue file: when the configuration is not empty and none of its
    endpoints has an entry in the queue file (an empty queue file, for
    one), [run_all] raises [KeyError] on a configured endpoint and the
    world is as it was. *)
Theorem run_all_needs_an_entry_per_endpoint env get_status fuel w :
  wes_config env <> ∅ ->
  (forall k, is_Some (wes_config env !! k) -> queue_file w !! k = None) ->
  exists k,
    is_Some (wes_config env !! k) /\
    run_all env get_status (S fuel) w = (Raised (KeyError k), w).
Proof.
  intros Hne Hmissing. unfold run_all.
  destruct (map_to_list (wes_config env)) as [|[s c] l] eqn:El.
  { by apply map_to_list_empty_iff in El. }
  assert (wes_config env !! s = Some c) as Hc
    by (apply elem_of_map_to_list; rewrite El; left).
  exists s. split; [by eexists|].
  cbn [fmap list_fmap fst run_all_services run_all_service].
  rewrite run_next_queued_missing; [done|]. apply Hmissing. by eexists.
Qed.

Lemma run_all_needs_an_entry_per_endpoint_witness :
  exists k,
    is_Some (wes_config Scenario.env_ok !! k) /\
    run_all Scenario.env_ok Cases.status_complete 1 Scenario.w_empty =
      (Raised (KeyError k), Scenario.w_empty).
Proof.
  apply (run_all_needs_an_entry_per_endpoint Scenario.env_ok Cases.status_complete 0
           Scenario.w_empty).
  - intros H. apply (f_equal (fun m : gmap string string => m !! "local")) in H.
    vm_compute in H. discriminate.
  - intros k _. reflexivity.
Defined.

(** ** Queueing from a user's document *)

Section UserJson.

Variable env : Env.

Lemma queue_entry_ok wf_service u sample_entry w :
  can_be_queued env (snd sample_entry) ->
  exists id wf_name wf_jsonyaml wf_,
    (snd sample_entry) !! "wf_name" = Some wf_name /\
    (snd sample_entry) !! "jsonyaml" = Some wf_jsonyaml /\
    wf_config env !! wf_name = Some wf_ /\
    queue_entry env wf_service u sample_entry w =
      (Ok tt,
       mkWorld (setdefault_set wf_service id
                  (mkBundle "RECEIVED"
                     (mkData (workflow_url wf_) wf_jsonyaml (workflow_attachments wf_))
                     wf_name (workflow_type wf_) "NA" None) (queue_file w))
               (S (ticks w)) (wes_calls w) (displayed w)).
Proof.
  intros (n & j & Hn & Hj & [wf_ Hwf]).
  exists (submission_id_of (now env (ticks w))), n, j, wf_.
  repeat split; try done.
  unfold queue_entry. unfold bind at 1, getitem at 1. rewrite Hn. cbn [ret].
  unfold bind at 1, getitem at 1. rewrite Hj. cbn [ret].
  unfold bind at 1. rewrite (queue_eq env _ _ _ _ _ wf_) by done.
  by rewrite create_submission_eq.
Qed.

Lemma queue_entry_fails wf_service u sample_entry w :
  ~ can_be_queued env (snd sample_entry) ->
  exists key, queue_entry env wf_service u sample_entry w = (Raise (KeyError key), w).
Proof.
  intros Hbad. unfold queue_entry. unfold bind at 1, getitem at 1.
  destruct (snd sample_entry !! "wf_name") as [n|] eqn:Hn; [|by eexists].
  cbn [ret]. unfold bind at 1, getitem at 1.
  destruct (snd sample_entry !! "jsonyaml") as [j|] eqn:Hj; [|by eexists].
  cbn [ret]. unfold bind at 1.
  destruct (wf_config env !! n) as [wf_|] eqn:Hwf.
  - destruct Hbad. exists n, j. by rewrite Hwf.
  - rewrite queue_unknown by done. by eexists.
Qed.

Lemma can_be_queued_dec entry : can_be_queued env entry \/ ~ can_be_queued env entry.
Proof.
  unfold can_be_queued.
  destruct (entry !! "wf_name") as [n|] eqn:Hn; [|right; by intros (? & ? & ? & _)].
  destruct (entry !! "jsonyaml") as [j|] eqn:Hj;
    [|right; by intros (? & ? & _ & ? & _)].
  destruct (wf_config env !! n) as [wf_|] eqn:Hwf.
  - left. exists n, j. by rewrite Hwf.
  - right. intros (n' & j' & [= <-] & _ & [? H]). congruence.
Qed.

(** A loop returns exactly when each of its iterations does, for a body
    whose success does not depend on the world. *)
Lemma for_each_returns {A} (body : unit -> A -> M unit) (good : A -> Prop) :
  (forall x w, good x -> exists w', body tt x w = (Ok tt, w')) ->
  (forall x w, ~ good x -> exists e w', body tt x w = (Raise e, w')) ->
  (forall x, good x \/ ~ good x) ->
  forall l w, returns (fst (for_each body l tt w)) = true <-> Forall good l.
Proof.
  intros Hok Hfail Hdec. induction l as [|x l IH]; intros w; cbn [for_each].
  - split; [constructor | done].
  - unfold bind. rewrite Forall_cons. destruct (Hdec x) as [Hx|Hx].
    + destruct (Hok x w Hx) as (w' & ->). rewrite IH. tauto.
    + destruct (Hfail x w Hx) as (e & w' & ->). cbn. split; [done | tauto].
Qed.

Lemma samples_loop_returns wf_service (l : list (string * gmap string string)) w :
  returns (fst (for_each (queue_entry env wf_service) l tt w)) = true <->
  Forall (fun p => can_be_queued env (snd p)) l.
Proof.
  apply for_each_returns.
  - intros x w0 Hx.
    destruct (queue_entry_ok wf_service tt x w0 Hx) as (? & ? & ? & ? & _ & _ & _ & ->).
    by eexists.
  - intros x w0 Hx. destruct (queue_entry_fails wf_service tt x w0 Hx) as (k & ->).
    by do 2 eexists.
  - intros x. apply can_be_queued_dec.
Qed.

Lemma Forall_can_be_queued_dec (l : list (string * gmap string string)) :
  Forall (fun p => can_be_queued env (snd p)) l \/
  ~ Forall (fun p => can_be_queued env (snd p)) l.
Proof.
  induction l as [|x l IH]; [left; constructor|].
  rewrite Forall_cons. destruct (can_be_queued_dec (snd x)); tauto.
Qed.

Lemma set_queue_returns sdict w :
  returns (fst (set_queue_from_user_json env sdict w)) = true <->
  Forall (fun service_entry =>
            Forall (fun p => can_be_queued env (snd p))
                   (map_to_list (snd service_entry)))
         (map_to_list sdict).
Proof.
  unfold set_queue_from_user_json.
  apply (for_each_returns
           (fun u service_entry =>
              for_each (queue_entry env (fst service_entry))
                       (map_to_list (snd service_entry)) u)).
  - intros x w0 Hx. apply (samples_loop_returns (fst x) _ w0) in Hx.
    destruct (for_each _ _ _ _) as [[[]|e] w']; [by eexists | done].
  - intros x w0 Hx. rewrite <- (samples_loop_returns (fst x) _ w0) in Hx.
    destruct (for_each _ _ _ _) as [[[]|e] w']; [by destruct Hx | by do 2 eexists].
  - intros x. apply Forall_can_be_queued_dec.
Qed.

Lemma queue_entry_kept_or_queued q0 wf_service u sample_entry :
  preserves (kept_or_queued env q0) (queue_entry env wf_service u sample_entry).
Proof.
  intros w Hw. destruct (can_be_queued_dec (snd sample_entry)) as [Hgood|Hbad].
  - destruct (queue_entry_ok wf_service u sample_entry w Hgood)
      as (id & n & j & wf_ & _ & _ & Hwf & ->).
    cbn [snd queue_file]. intros k i b. rewrite lookup2_setdefault_set.
    case_decide; [|apply Hw]. intros [= <-]. right.
    repeat split. exists wf_. by cbn.
  - by destruct (queue_entry_fails wf_service u sample_entry w Hbad) as (key & ->).
Qed.

Lemma set_queue_kept_or_queued q0 sdict :
  preserves (kept_or_queued env q0) (set_queue_from_user_json env sdict).
Proof.
  unfold set_queue_from_user_json. apply preserves_for_each.
  intros u service_entry. apply preserves_for_each.
  intros u' sample_entry. apply queue_entry_kept_or_queued.
Qed.

End UserJson.

(** X20. [set_queue_from_user_json] returns exactly when every entry of the
    document has the keys ['wf_name'] and ['jsonyaml'] and names a
    configured workflow. *)
Theorem set_queue_from_user_json_returns_iff env sdict w :
  returns (fst (set_queue_from_user_json env sdict w)) = true <->
  forall wf_service samples sample_ entry,
    sdict !! wf_service = Some samples -> samples !! sample_ = Some entry ->
    can_be_queued env entry.
Proof.
  rewrite set_queue_returns. rewrite Forall_forall. split.
  - intros H s samples smp entry Hs He.
    specialize (H (s, samples)). rewrite elem_of_map_to_list in H.
    specialize (H Hs). rewrite Forall_forall in H.
    apply (H (smp, entry)). by apply elem_of_map_to_list.
  - intros H [s samples] Hs%elem_of_map_to_list. apply Forall_forall.
    intros [smp entry] He%elem_of_map_to_list. by apply (H s samples smp entry).
Qed.

(** X21. Whatever the document and however the call ends, a record of the
    queue file after [set_queue_from_user_json] is the record that was
    there before or one it has queued: [RECEIVED], without a run, for a
    configured workflow with its configured url, type and attachments,
    and with the sample ['NA'], the sample names of the document being
    stored nowhere. *)
Theorem set_queue_from_user_json_stores_no_sample env sdict w k i b :
  bundle_at (queue_file (snd (set_queue_from_user_json env sdict w))) k i = Some b ->
  bundle_at (queue_file w) k i = Some b \/ queued_from_user_json env b.
Proof.
  apply (set_queue_kept_or_queued env (queue_file w) sdict w).
  intros k' i' b' H. by left.
Qed.

Lemma set_queue_from_user_json_stores_no_sample_witness :
  bundle_at
    (queue_file (snd (set_queue_from_user_json Scenario.env_ok Cases.user_json
                        Scenario.w_empty)))
    "local" "040804130201818647" =
    Some (mkBundle "RECEIVED"
            (mkData "md5sum.cwl" "in.json" ["md5sum.input"; "dockstore-tool-md5sum.cwl"])
            "md5sum" "CWL" "NA" None) /\
  (bundle_at (queue_file Scenario.w_empty) "local" "040804130201818647" =
     Some (mkBundle "RECEIVED"
             (mkData "md5sum.cwl" "in.json"
                ["md5sum.input"; "dockstore-tool-md5sum.cwl"])
             "md5sum" "CWL" "NA" None) \/
   queued_from_user_json Scenario.env_ok
     (mkBundle "RECEIVED"
        (mkData "md5sum.cwl" "in.json" ["md5sum.input"; "dockstore-tool-md5sum.cwl"])
        "md5sum" "CWL" "NA" None)).
Proof.
  assert (bundle_at
            (queue_file (snd (set_queue_from_user_json Scenario.env_ok Cases.user_json
                                Scenario.w_empty)))
            "local" "040804130201818647" =
          Some (mkBundle "RECEIVED"
                  (mkData "md5sum.cwl" "in.json"
                     ["md5sum.input"; "dockstore-tool-md5sum.cwl"])
                  "md5sum" "CWL" "NA" None)) as H by (vm_compute; reflexivity).
  split; [exact H|].
  exact (set_queue_from_user_json_stores_no_sample Scenario.env_ok Cases.user_json
           Scenario.w_empty "local" "040804130201818647" _ H).
Defined.

(** ** What the monitor writes and what it sends *)

Section MonitorWrites.

Variable env : Env.

Lemma same_but_elapsed_refl b : same_but_elapsed b b.
Proof. unfold same_but_elapsed. repeat split. by destruct (run b). Qed.

Lemma same_but_elapsed_times_refl q : same_but_elapsed_times q q.
Proof.
  split; [done|]. intros k id. destruct (bundle_at q k id); [|done].
  apply same_but_elapsed_refl.
Qed.

(** Writing an elapsed time keeps the queue file the same but for elapsed
    times. *)
Lemma update_elapsed_time_same q0 wes_id id v :
  preserves (same_but_elapsed_times q0)
            (update_submission_run wes_id id elapsed_time_key v).
Proof.
  intros w [Hkeys Hrec]. unfold update_submission_run. run_m.
  destruct (queue_file w !! wes_id) as [bundles|] eqn:H1; run_m; [|done].
  destruct (bundles !! id) as [b|] eqn:H2; run_m; [|done].
  destruct (run b) as [r|] eqn:H3; run_m; [|done].
  split.
  - intros k. rewrite <- Hkeys, lookup_insert. case_decide; [subst|done].
    rewrite H1. split; by eexists.
  - intros k i. specialize (Hrec k i). rewrite lookup2_insert.
    case_decide as Hk; [subst k|done].
    rewrite lookup_insert. case_decide as Hi; [subst i|].
    + assert (bundle_at (queue_file w) wes_id id = Some b) as Hb
        by (apply lookup2_Some; eauto).
      rewrite Hb in Hrec. destruct (bundle_at q0 wes_id id) as [b0|]; [|done].
      unfold same_but_elapsed in *. cbn. rewrite H3 in Hrec.
      destruct Hrec as (? & ? & ? & ? & ? & Hr). repeat split; try done.
    + assert (bundle_at (queue_file w) wes_id i = bundles !! i) as Hw
        by (unfold lookup2; by rewrite H1).
      by rewrite Hw in Hrec.
Qed.

Section Generic.

Variable P : Queue -> Prop.
Hypothesis Hupdate :
  forall wes_id id v, preserves P (update_submission_run wes_id id elapsed_time_key v).

Lemma poll_run_keeps wf_service id b r : preserves P (poll_run env wf_service id b r).
Proof.
  unfold poll_run. apply preserves_bind; [apply preserves_getitem|].
  intros client. apply preserves_bind.
  { unfold client_get_workflow_run_status. apply preserves_bind;
      [by apply preserves_silent | intros _; apply preserves_of_remote]. }
  intros st. apply preserves_bind.
  { destruct (is_active st).
    - apply preserves_bind;
        [by apply preserves_silent | intros; by apply preserves_silent].
    - destruct (elapsed_time r); by apply preserves_silent. }
  intros etime. apply preserves_bind; [apply Hupdate|].
  intros _. by apply preserves_silent.
Qed.

Lemma monitor_service_keeps wf_service : preserves P (monitor_service env wf_service).
Proof.
  unfold monitor_service. apply preserves_bind; [by apply preserves_silent|].
  intros submissions. apply preserves_bind; [apply preserves_getitem|].
  intros bundles. apply preserves_for_each. intros acc [id b].
  unfold monitor_step. apply preserves_bind; [|intros; by apply preserves_silent].
  destruct (run b) as [r|]; [|by apply preserves_silent].
  apply preserves_try; [apply poll_run_keeps | by apply preserves_silent].
Qed.

Lemma monitor_pass_keeps : preserves P (monitor_pass env).
Proof.
  unfold monitor_pass. apply preserves_bind; [by apply preserves_silent|].
  intros submissions. apply preserves_bind.
  - apply preserves_for_each. intros acc wf_service.
    apply preserves_bind; [apply monitor_service_keeps|].
    intros; by apply preserves_silent.
  - intros statuses. apply preserves_bind;
      [by apply preserves_silent | intros; by apply preserves_silent].
Qed.

Lemma monitor_keeps fuel w : P (queue_file w) -> P (queue_file (snd (monitor env fuel w))).
Proof.
  unfold monitor. revert w. induction fuel as [|fuel IH]; intros w Hw; [done|].
  cbn [loop]. pose proof (monitor_pass_keeps w Hw) as Hpass.
  destruct (monitor_pass env w) as [[[a|]|e] w']; cbn [snd] in *; try done.
  by apply IH.
Qed.

End Generic.


(** A pass over an endpoint that is not configured stops at the first
    submission that has a run. *)
Lemma monitor_loop_not_configured wf_service :
  wes_config env !! wf_service = None ->
  forall (l : list (string * Bundle)) acc w,
    (exists id b, (id, b) ∈ l /\ is_Some (run b)) ->
    for_each (monitor_step env wf_service) l acc w = (Raise (KeyError wf_service), w).
Proof.
  intros Hc. induction l as [|[id b] l IH]; intros acc w (id0 & b0 & Hin & Hrun).
  - by apply elem_of_nil in Hin.
  - cbn [for_each]. unfold bind, monitor_step.
    destruct (run b) as [r|] eqn:Hb.
    + unfold try_except_ConnectionError, poll_run. unfold bind at 1, getitem.
      rewrite Hc. reflexivity.
    + cbn. apply IH. apply elem_of_cons in Hin as [[= -> ->]|Hin].
      * rewrite Hb in Hrun. by destruct Hrun.
      * eauto.
Qed.

End MonitorWrites.

(** X22. Whatever the endpoints answer and however it ends, a pass of
    [monitor_service], and [monitor] after any number of iterations, leave
    a queue file with the same endpoints and the same submissions, each
    with the status, the data, the workflow, the type and the sample it
    had, and with a run exactly when it had one, of the same run id,
    start time and state: the elapsed time is all the monitor writes. *)
Theorem monitor_writes_elapsed_times_only env wf_service fuel w :
  same_but_elapsed_times (queue_file w)
    (queue_file (snd (monitor_service env wf_service w))) /\
  same_but_elapsed_times (queue_file w) (queue_file (snd (monitor env fuel w))).
Proof.
  split.
  - apply (monitor_service_keeps env _ (update_elapsed_time_same (queue_file w))).
    apply same_but_elapsed_times_refl.
  - apply (monitor_keeps env _ (update_elapsed_time_same (queue_file w))).
    apply same_but_elapsed_times_refl.
Qed.



(** X24. A pass over an endpoint that is in the queue file but not in the
    configuration raises [KeyError] on the endpoint as soon as one of its
    submissions has a run, and leaves the world as it was: no request is
    sent and no table is returned, not even for the submissions that are
    still queued. *)
Theorem monitor_service_needs_the_endpoint_configured env wf_service bundles id b w :
  queue_file w !! wf_service = Some bundles ->
  wes_config env !! wf_service = None ->
  bundles !! id = Some b -> is_Some (run b) ->
  monitor_service env wf_service w = (Raise (KeyError wf_service), w).
Proof.
  intros Hq Hc Hb Hrun. unfold monitor_service. run_m. run_with Hq.
  apply monitor_loop_not_configured; [done|].
  exists id, b. split; [by apply elem_of_map_to_list | done].
Qed.

Lemma monitor_service_needs_the_endpoint_configured_witness :
  (queue_file (Scenario.world_of {["remote" := Scenario.two_submitted]}) !! "remote" =
     Some Scenario.two_submitted /\
   wes_config Scenario.env_ok !! "remote" = None /\
   Scenario.two_submitted !! "040804130201818647" = Some Scenario.submitted /\
   is_Some (run Scenario.submitted)) /\
  monitor_service Scenario.env_ok "remote"
    (Scenario.world_of {["remote" := Scenario.two_submitted]}) =
    (Raise (KeyError "remote"), Scenario.world_of {["remote" := Scenario.two_submitted]}).
Proof.
  assert (is_Some (run Scenario.submitted)) as Hrun by (by eexists).
  split.
  - repeat split; try (vm_compute; reflexivity). exact Hrun.
  - apply (monitor_service_needs_the_endpoint_configured Scenario.env_ok "remote"
             Scenario.two_submitted "040804130201818647" Scenario.submitted
             (Scenario.world_of {["remote" := Scenario.two_submitted]}));
      [vm_compute; reflexivity .. | exact Hrun].
Defined.

(** X25. Polling again a run that is no longer active and whose elapsed time
    is recorded leaves its record exactly as it was: the elapsed time
    stays what it is (the other status requests of the pass being
    answered or failing with [ConnectionError]). *)
Theorem finished_run_is_polled_without_change
    env wf_service client bundles id b r e st w :
  queue_file w !! wf_service = Some bundles -> bundles !! id = Some b ->
  run b = Some r -> elapsed_time r = Some e ->
  wes_config env !! wf_service = Some client ->
  get_workflow_run_status env client (run_id r) = inr st ->
  is_active st = false ->
  (forall id' b' r', bundles !! id' = Some b' -> run b' = Some r' ->
                     answers_or_down env client (run_id r')) ->
  exists sd w',
    monitor_service env wf_service w = (Ok sd, w') /\
    bundle_at (queue_file w') wf_service id = Some b /\
    row_at sd wf_service id =
      Some (Row.mk (wf_id b) (run_id r) (sample b) st (start_time r) e).
Proof.
  intros Hq Hb Hrun He Hc Hst Hact Hans.
  destruct (monitor_service_spec env wf_service client bundles w Hq Hc Hans)
    as (sd & w' & Hms & Hall).
  destruct (Hall id b Hb) as (b' & row & Hb' & Hrow & Hp).
  unfold polled in Hp. rewrite Hrun, Hst, Hact in Hp.
  destruct Hp as (etime & -> & -> & ->).
  rewrite He in Hb', Hrow. cbn [default] in Hb', Hrow.
  exists sd, w'. split; [done|]. split; [|done].
  rewrite Hb'. f_equal. unfold with_elapsed, set_run_key.
  destruct b as [? ? ? ? ? rb]. cbn in *. subst rb. destruct r. cbn in *. by subst.
Qed.

Lemma finished_run_is_polled_without_change_witness :
  (queue_file Scenario.w_complete !! "local" =
     Some {["040804130201818647" := Scenario.complete]} /\
   wes_config Scenario.env_done !! "local" = Some "http://localhost:8080" /\
   is_active "COMPLETE" = false) /\
  exists sd w',
    monitor_service Scenario.env_done "local" Scenario.w_complete = (Ok sd, w') /\
    bundle_at (queue_file w') "local" "040804130201818647" = Some Scenario.complete /\
    row_at sd "local" "040804130201818647" =
      Some (Row.mk "md5sum" "run-0" "NA" "COMPLETE" "Sat Aug  4 13:00:00 2018"
                   "0h:1m:0s").
Proof.
  split; [repeat split; vm_compute; reflexivity|].
  apply (finished_run_is_polled_without_change Scenario.env_done "local"
           "http://localhost:8080" {["040804130201818647" := Scenario.complete]}
           "040804130201818647" Scenario.complete
           (mkRun "run-0" "Sat Aug  4 13:00:00 2018" (Some "COMPLETE") (Some "0h:1m:0s"))
           "0h:1m:0s" "COMPLETE" Scenario.w_complete);
    [vm_compute; reflexivity .. |].
  intros id' b' r' _ _. exact I.
Defined.

(** ** The requests, the readings and the tables of the monitor *)

Section Silent.

Context {B : Type} (f : World -> B).

Lemma silent_pure {A} (c : M A) : (forall w, snd (c w) = w) -> silent_on f c.
Proof. intros H w. by rewrite H. Qed.

Lemma silent_bind {A C} (c : M A) (k : A -> M C) :
  silent_on f c -> (forall a, silent_on f (k a)) -> silent_on f (bind c k).
Proof.
  intros Hc Hk w. unfold bind. specialize (Hc w).
  destruct (c w) as [[a|e] w']; cbn [snd] in *; [|done].
  by rewrite Hk.
Qed.

Lemma silent_try {A} (body handler : M A) :
  silent_on f body -> silent_on f handler ->
  silent_on f (try_except_ConnectionError body handler).
Proof.
  intros Hb Hh w. unfold try_except_ConnectionError. specialize (Hb w).
  destruct (body w) as [[a|[]] w']; cbn [snd] in *; try done.
  by rewrite Hh.
Qed.

Lemma silent_for_each {A C} (body : C -> A -> M C) :
  (forall acc x, silent_on f (body acc x)) ->
  forall l acc, silent_on f (for_each body l acc).
Proof.
  intros Hbody. induction l as [|x l IH]; intros acc; cbn [for_each].
  - by apply silent_pure.
  - apply silent_bind; [apply Hbody | intros; apply IH].
Qed.

Lemma silent_getitem {V} k (d : gmap string V) : silent_on f (getitem k d).
Proof. apply silent_pure. intros w. unfold getitem. by destruct (d !! k). Qed.

Lemma silent_of_remote {A} (r : exn + A) : silent_on f (of_remote r).
Proof. apply silent_pure. intros w. by destruct r. Qed.

End Silent.

Section MonitorEffects.

Variable env : Env.

(** [monitor_service] displays nothing. *)
Lemma monitor_service_displays_nothing wf_service :
  silent_on displayed (monitor_service env wf_service).
Proof.
  unfold monitor_service. apply silent_bind; [by apply silent_pure|].
  intros submissions. apply silent_bind; [apply silent_getitem|].
  intros bundles. apply silent_for_each. intros acc [id b].
  unfold monitor_step. apply silent_bind; [|intros; by apply silent_pure].
  destruct (run b) as [r|]; [|by apply silent_pure].
  apply silent_try; [|by apply silent_pure].
  unfold poll_run. apply silent_bind; [apply silent_getitem|].
  intros client. apply silent_bind.
  { unfold client_get_workflow_run_status. apply silent_bind;
      [by intros w | intros _; apply silent_of_remote]. }
  intros st. apply silent_bind.
  { destruct (is_active st).
    - apply silent_bind; [by intros w | intros; by apply silent_pure].
    - destruct (elapsed_time r); by apply silent_pure. }
  intros etime. apply silent_bind; [|intros; by apply silent_pure].
  intros w. unfold update_submission_run. run_m.
  destruct (queue_file w !! wf_service) as [bundles'|]; run_m; [|done].
  destruct (bundles' !! id) as [b'|]; run_m; [|done].
  by destruct (run b').
Qed.

(** One iteration of the loop of [monitor_service], with what it sends
    and what it reads. *)
Lemma monitor_step_effects wf_service client bundles id b acc w :
  queue_file w !! wf_service = Some bundles -> bundles !! id = Some b ->
  wes_config env !! wf_service = Some client ->
  (forall r, run b = Some r -> answers_or_down env client (run_id r)) ->
  exists sd b' w',
    monitor_step env wf_service acc (id, b) w = (Ok sd, w') /\
    queue_file w' = <[wf_service := <[id := b']> bundles]> (queue_file w) /\
    wes_calls w' = (wes_calls w ++ status_requests client [(id, b)])%list /\
    ticks w' = (ticks w + (if reads_clock env client b then 1 else 0))%nat.
Proof.
  intros Hq Hb Hc Hans. unfold monitor_step, status_requests, reads_clock.
  assert (<[wf_service := <[id := b]> bundles]> (queue_file w) = queue_file w) as Hid
    by (rewrite (insert_id bundles) by done; by apply insert_id).
  cbn [omap list_omap snd].
  destruct (run b) as [r|] eqn:Hrun; cbn [fmap option_fmap option_map].
  - specialize (Hans r eq_refl). unfold answers_or_down in Hans.
    unfold try_except_ConnectionError, poll_run, client_get_workflow_run_status.
    run_m. run_with Hc.
    destruct (get_workflow_run_status env client (run_id r)) as [e|st] eqn:Hst.
    + destruct e; try done. run_m. eexists. exists b. eexists.
      split; [reflexivity|]. cbn [queue_file wes_calls ticks].
      rewrite Hid, Nat.add_0_r. done.
    + run_m. destruct (is_active st) eqn:Hact; run_m.
      * rewrite (update_submission_run_eq wf_service id bundles b r) by done.
        run_m. do 3 eexists. split; [reflexivity|]. cbn [queue_file wes_calls ticks].
        split; [reflexivity|]. split; [done | lia].
      * destruct (elapsed_time r) as [e0|] eqn:He; run_m;
          rewrite (update_submission_run_eq wf_service id bundles b r) by done;
          run_m; do 3 eexists; (split; [reflexivity|]);
          cbn [queue_file wes_calls ticks];
          (split; [reflexivity|]); (split; [done | lia]).
  - run_m. eexists. exists b. eexists. split; [reflexivity|].
    rewrite Hid, app_nil_r, Nat.add_0_r. done.
Qed.

Lemma monitor_loop_effects wf_service client :
  wes_config env !! wf_service = Some client ->
  forall (l : list (string * Bundle)) acc bundles w,
    NoDup l.*1 ->
    queue_file w !! wf_service = Some bundles ->
    (forall id b, (id, b) ∈ l -> bundles !! id = Some b) ->
    (forall id b r, (id, b) ∈ l -> run b = Some r ->
                    answers_or_down env client (run_id r)) ->
    exists sd w',
      for_each (monitor_step env wf_service) l acc w = (Ok sd, w') /\
      wes_calls w' = (wes_calls w ++ status_requests client l)%list /\
      ticks w' =
        (ticks w + length (filter (fun p => reads_clock env client (snd p) = true) l))%nat.
Proof.
  intros Hc. induction l as [|[id b] l IH]; intros acc bundles w Hnd Hq Hin Hans.
  - exists acc, w. cbn. by rewrite app_nil_r, Nat.add_0_r.
  - apply NoDup_cons in Hnd as [Hfresh Hnd]. cbn [fmap list_fmap fst] in Hfresh.
    destruct (monitor_step_effects wf_service client bundles id b acc w)
      as (sd1 & b' & w1 & Hstep & Hq1 & Hcalls1 & Hticks1);
      [done | apply Hin; left | done | intros r; apply (Hans id b); left |].
    assert (queue_file w1 !! wf_service = Some (<[id := b']> bundles)) as Hq1'
      by (rewrite Hq1; apply lookup_insert_eq).
    destruct (IH sd1 (<[id := b']> bundles) w1) as (sd & w' & Hloop & Hcalls & Hticks);
      [done | done | | |].
    { intros id2 b2 Hin2. rewrite lookup_insert_ne; [apply Hin; by right|].
      intros ->. apply Hfresh. apply list_elem_of_fmap. by exists (id2, b2). }
    { intros id2 b2 r Hin2. apply (Hans id2 b2). by right. }
    exists sd, w'. split.
    { cbn [for_each]. unfold bind. by rewrite Hstep. }
    split.
    + rewrite Hcalls, Hcalls1, <- app_assoc. f_equal.
      unfold status_requests. cbn [omap list_omap snd].
      by destruct (run b).
    + rewrite Hticks, Hticks1. rewrite filter_cons. cbn [snd].
      destruct (reads_clock env client b); [rewrite decide_True by done|
                                            rewrite decide_False by done];
        cbn [length]; lia.
Qed.

(** The tables of one iteration of [monitor]. *)
Lemma monitor_pass_tables l :
  forall acc w statuses w',
    for_each (fun acc wf_service =>
                s <- monitor_service env wf_service ;; ret (acc ++ [s])%list)
             l acc w = (Ok statuses, w') ->
    length statuses = (length acc + length l)%nat /\ displayed w' = displayed w.
Proof.
  induction l as [|s l IH]; intros acc w statuses w' Hrun; cbn [for_each] in Hrun.
  - injection Hrun as <- <-. cbn. split; [lia | done].
  - unfold bind at 1 in Hrun. unfold bind at 1 in Hrun.
    pose proof (monitor_service_displays_nothing s w) as Hd.
    destruct (monitor_service env s w) as [[sd|e] w1]; [|done].
    cbn [ret snd] in *. apply IH in Hrun as [Hlen Hd'].
    rewrite length_app in Hlen. cbn in *. split; [lia | congruence].
Qed.

Lemma monitor_pass_shows_one_table w w' :
  monitor_pass env w = (Ok None, w') ->
  exists statuses,
    displayed w' = (displayed w ++ [Table statuses])%list /\
    length statuses = size (queue_file w).
Proof.
  unfold monitor_pass. unfold bind at 1. cbn [get_json]. unfold bind at 1.
  destruct (for_each _ _ _ _) as [[statuses|e] w1] eqn:Hloop; [|done].
  apply monitor_pass_tables in Hloop as [Hlen Hd].
  unfold bind, display, ret. intros [= <-]. exists statuses.
  cbn [displayed]. rewrite Hd. split; [done|].
  rewrite Hlen, length_fmap. cbn. apply length_map_to_list.
Qed.

End MonitorEffects.

Lemma same_endpoints_same_size (q q' : Queue) :
  (forall k, is_Some (q' !! k) <-> is_Some (q !! k)) -> size q' = size q.
Proof.
  intros H. rewrite <- !size_dom. f_equal. apply set_eq. intros k.
  by rewrite !elem_of_dom.
Qed.

(** X26. A pass of [monitor_service] over a configured endpoint whose status
    requests are answered or fail with [ConnectionError] sends, whatever
    the order in which it visits the submissions, one status request for
    each submission that has a run, with its run id, and no other request
    (no start request in particular): the requests it adds to those sent
    before are, up to their order, the status requests of the submissions
    of the endpoint. It reads the clock once for each run reported in an
    active state, and displays nothing. *)
Theorem monitor_service_sends_one_request_per_run env wf_service client bundles w :
  queue_file w !! wf_service = Some bundles ->
  wes_config env !! wf_service = Some client ->
  (forall id b r, bundles !! id = Some b -> run b = Some r ->
                  answers_or_down env client (run_id r)) ->
  exists sd w' sent,
    monitor_service env wf_service w = (Ok sd, w') /\
    wes_calls w' = (wes_calls w ++ sent)%list /\
    Permutation sent (status_requests client (map_to_list bundles)) /\
    ticks w' =
      (ticks w +
       length (filter (fun p => reads_clock env client (snd p) = true)
                      (map_to_list bundles)))%nat /\
    displayed w' = displayed w.
Proof.
  intros Hq Hc Hans.
  destruct (monitor_loop_effects env wf_service client Hc (map_to_list bundles) ∅
              bundles w) as (sd & w' & Hloop & Hcalls & Hticks).
  - apply NoDup_fst_map_to_list.
  - done.
  - intros id b. apply elem_of_map_to_list.
  - intros id b r Hin. apply (Hans id b). by apply elem_of_map_to_list.
  - assert (monitor_service env wf_service w = (Ok sd, w')) as Hms
      by (unfold monitor_service; run_m; run_with Hq; exact Hloop).
    exists sd, w', (status_requests client (map_to_list bundles)).
    repeat split; try done.
    pose proof (monitor_service_displays_nothing env wf_service w) as Hd.
    by rewrite Hms in Hd.
Qed.

Lemma monitor_service_sends_one_request_per_run_witness :
  (queue_file Scenario.w_two !! "local" = Some Scenario.two_submitted /\
   wes_config Scenario.env_partial !! "local" = Some "http://localhost:8080") /\
  exists sd w' sent,
    monitor_service Scenario.env_partial "local" Scenario.w_two = (Ok sd, w') /\
    wes_calls w' = (wes_calls Scenario.w_two ++ sent)%list /\
    Permutation sent
      (status_requests "http://localhost:8080" (map_to_list Scenario.two_submitted)) /\
    ticks w' =
      (ticks Scenario.w_two +
       length (filter (fun p => reads_clock Scenario.env_partial
                                  "http://localhost:8080" (snd p) = true)
                      (map_to_list Scenario.two_submitted)))%nat /\
    displayed w' = displayed Scenario.w_two.
Proof.
  split; [split; vm_compute; reflexivity|].
  apply (monitor_service_sends_one_request_per_run Scenario.env_partial "local"
           "http://localhost:8080" Scenario.two_submitted Scenario.w_two);
    [vm_compute; reflexivity .. |].
  intros id' b' r' _ _. unfold answers_or_down.
  cbn [get_workflow_run_status Scenario.env_partial].
  destruct (String.eqb (run_id r') "run-0"); exact I.
Defined.

(** X27. When [monitor] is still running after [fuel] iterations it has
    displayed [fuel] tables, one per iteration, each made of one status
    dictionary per endpoint of the queue file. *)
Theorem monitor_shows_one_table_per_iteration env fuel w w' :
  monitor env fuel w = (Running, w') ->
  exists frames,
    displayed w' = (displayed w ++ frames)%list /\
    length frames = fuel /\
    Forall (fun frame => exists statuses,
              frame = Table statuses /\ length statuses = size (queue_file w)) frames.
Proof.
  unfold monitor. revert w. induction fuel as [|fuel IH]; intros w Hrun.
  - injection Hrun as <-. exists []. by rewrite app_nil_r.
  - cbn [loop] in Hrun.
    pose proof (monitor_pass_keeps env _ (update_elapsed_time_same (queue_file w)) w
                  (same_but_elapsed_times_refl _)) as [Hkeys _].
    destruct (monitor_pass env w) as [[[a|]|e] w1] eqn:Hpass; try done.
    cbn [snd] in Hkeys.
    apply monitor_pass_shows_one_table in Hpass as (statuses & Hd1 & Hlen).
    apply IH in Hrun as (frames & Hd & Hn & Hall).
    exists (Table statuses :: frames). split; [|split].
    + rewrite Hd, Hd1, <- app_assoc. done.
    + cbn. by rewrite Hn.
    + constructor; [by eexists|].
      rewrite (same_endpoints_same_size _ _ Hkeys) in Hall. exact Hall.
Qed.

Lemma monitor_shows_one_table_per_iteration_witness :
  monitor Scenario.env_done 2 Scenario.w_complete =
    (Running, snd (monitor Scenario.env_done 2 Scenario.w_complete)) /\
  exists frames,
    displayed (snd (monitor Scenario.env_done 2 Scenario.w_complete)) =
      (displayed Scenario.w_complete ++ frames)%list /\
    length frames = 2%nat /\
    Forall (fun frame => exists statuses,
              frame = Table statuses /\
              length statuses = size (queue_file Scenario.w_complete)) frames.
Proof.
  assert (monitor Scenario.env_done 2 Scenario.w_complete =
            (Running, snd (monitor Scenario.env_done 2 Scenario.w_complete))) as H
    by (vm_compute; reflexivity).
  split; [exact H|].
  exact (monitor_shows_one_table_per_iteration Scenario.env_done 2 Scenario.w_complete
           _ H).
Defined.

(** ** The earlier [monitor] *)

Section LegacyEffects.

Variable env : Env.
Context {B : Type} (f : World -> B).

Lemma legacy_rows_silent current wf_service l acc :
  silent_on f (for_each (Legacy.row_step env current wf_service) l acc).
Proof.
  apply silent_for_each. intros acc' [id b]. unfold Legacy.row_step.
  destruct (run b) as [r|]; [|by apply silent_pure].
  apply silent_bind; [apply silent_getitem | intros; by apply silent_pure].
Qed.

Lemma legacy_services_silent current submissions l acc :
  silent_on f (for_each (Legacy.service_step env current submissions) l acc).
Proof.
  apply silent_for_each. intros acc' s. unfold Legacy.service_step.
  apply silent_bind; [apply silent_getitem|]. intros bundles.
  apply silent_bind; [apply legacy_rows_silent | intros; by apply silent_pure].
Qed.

(** A call of the earlier [monitor], up to its last test, reads the clock
    and displays; it does nothing else. *)
Lemma legacy_monitor_table_silent submissions :
  (forall w n frames,
     f (mkWorld (queue_file w) n (wes_calls w) frames) = f w) ->
  silent_on f (Legacy.monitor_table env submissions).
Proof.
  intros Hf. unfold Legacy.monitor_table.
  apply silent_bind.
  { intros w. cbn [datetime_now snd]. apply Hf. }
  intros current. apply silent_bind; [apply legacy_services_silent|].
  intros statuses. apply silent_bind.
  { intros w. cbn [display snd]. apply Hf. }
  intros _. destruct (Legacy.run_status_column statuses); by apply silent_pure.
Qed.

End LegacyEffects.

(** X28. The earlier [monitor] contacts no endpoint and writes nothing:
    whatever the number of calls and however it ends, the queue file and
    the requests sent are what they were. *)
Theorem legacy_monitor_only_displays env fuel submissions w :
  queue_file (snd (Legacy.monitor env fuel submissions w)) = queue_file w /\
  wes_calls (snd (Legacy.monitor env fuel submissions w)) = wes_calls w.
Proof.
  revert submissions w. induction fuel as [|fuel IH]; intros submissions w; [done|].
  cbn [Legacy.monitor].
  pose proof (legacy_monitor_table_silent env queue_file submissions
                ltac:(done) w) as Hq.
  pose proof (legacy_monitor_table_silent env wes_calls submissions
                ltac:(done) w) as Hc.
  destruct (Legacy.monitor_table env submissions w) as [[[|]|e] w'];
    cbn [snd] in *; try done.
  destruct (IH (queue_file w') w') as [-> ->]. done.
Qed.

(** X29. The earlier [monitor] never prints its ["Done!"]: whatever the queue
    it is given and the number of calls, it is still calling itself or an
    exception has left it, because every row it builds says ["RUNNING"]. *)
Theorem legacy_monitor_never_says_done env fuel submissions w :
  fst (Legacy.monitor env fuel submissions w) = Running \/
  exists e, fst (Legacy.monitor env fuel submissions w) = Raised e.
Proof.
  pose proof (legacy_monitor_never_returns env fuel submissions w) as H.
  destruct (fst (Legacy.monitor env fuel submissions w)) as [|a|e].
  - by left.
  - by destruct (H a).
  - right. by eexists.
Qed.
